(** * The Ollama integration service ([backend/services/ollama_service.py])

    A shallow embedding of [OllamaService]: the retrying transport
    ([_make_request]), the time-bounded model cache
    ([get_available_models], [get_cache_info]) and the two generation
    workflows ([refine_prompt], [test_prompt]).

    Conventions of the embedding.
    - Python values that travel through JSON are terms of [PyVal].
    - A Python [str] is a [string]; every character is read as the code
      point of the same number (0..255).
    - A Python [float] is represented by the rational number it denotes
      ([PyFloat]); [nan] and the infinities are not values of [PyVal].
      The division of the listing rounds to the nearest float and raises
      where Python raises ([to_float], [int_truediv]); [round] keeps the
      decimal it rounds to, which is how the float it returns prints.
    - [datetime] values are integers: microseconds since the epoch.
      Section [Cache] computes with them on the whole line of integers;
      module [Bounded] gives the cache operations with the range of
      [datetime] and [timedelta], outside of which Python raises
      [OverflowError], and with the float the age of a snapshot goes
      through.  The two agree whenever the deadline of the snapshot is a
      [datetime] and the snapshot is less than [2^33] seconds old (lemmas
      [bounded_listing_agrees] and [bounded_cache_info_agrees]).
    - The outside world (the HTTP session, the clocks, the configuration
      modules) is an [Env] of oracles; what the service does to the world
      (requests sent, sleeps, clock readings) is logged in the [State]. *)

From Stdlib Require Import ZArith QArith Qround Qabs String Ascii List Bool Lia Lqa.
From Stdlib Require Import DecimalString.
Import ListNotations.

Set Implicit Arguments.
Set Warnings "-register-all".
Open Scope string_scope.

(** ** Python strings *)

Module PyStr.

(** [str.isspace] on the code points below 256. *)
Definition isspace (c : ascii) : bool :=
  let n := nat_of_ascii c in
  ((9 <=? n) && (n <=? 13) || (28 <=? n) && (n <=? 32)
   || (n =? 133) || (n =? 160))%nat.

Fixpoint lstrip_by (p : ascii -> bool) (s : string) : string :=
  match s with
  | EmptyString => EmptyString
  | String c s' => if p c then lstrip_by p s' else s
  end.

Fixpoint rstrip_by (p : ascii -> bool) (s : string) : string :=
  match s with
  | EmptyString => EmptyString
  | String c s' =>
      match rstrip_by p s' with
      | EmptyString => if p c then EmptyString else String c EmptyString
      | r => String c r
      end
  end.

(** [s.strip()] *)
Definition strip (s : string) : string :=
  rstrip_by isspace (lstrip_by isspace s).

(** [s.lstrip(ch)] and [s.rstrip(ch)] for a one-character argument. *)
Definition lstrip (ch : ascii) : string -> string := lstrip_by (Ascii.eqb ch).
Definition rstrip (ch : ascii) : string -> string := rstrip_by (Ascii.eqb ch).

(** [not s] *)
Definition is_empty (s : string) : bool :=
  match s with EmptyString => true | _ => false end.

(** [str(n)] for an [int]. *)
Definition of_int (n : Z) : string := NilZero.string_of_int (Z.to_int n).

Definition nl : string := String (ascii_of_nat 10) EmptyString.

End PyStr.

(** ** Numbers *)

(** Round to the nearest integer, ties to the even one. *)
Definition round_half_even (q : Q) : Z :=
  let f := Qfloor q in
  match (q - inject_Z f ?= 1 # 2)%Q with
  | Lt => f
  | Gt => (f + 1)%Z
  | Eq => if Z.even f then f else (f + 1)%Z
  end.

(** [round(x, ndigits)] on a float [x]: the decimal with [ndigits] places
    nearest to [x], ties to the even last digit.  Python returns the float
    nearest to that decimal, the one that prints as it; the embedding keeps
    the decimal. *)
Definition py_round (x : Q) (ndigits : nat) : Q :=
  (inject_Z (round_half_even (x * inject_Z (10 ^ Z.of_nat ndigits)))
   / inject_Z (10 ^ Z.of_nat ndigits))%Q.

(** ** Floats

    A float is a rational [m * 2^e] with [|m| < 2^53] and
    [-1074 <= e <= 971]; an operation on floats returns the float nearest
    to the exact result, ties to the even [m]. *)

(** [q * 2^z] *)
Definition Qshift (q : Q) (z : Z) : Q :=
  if (0 <=? z)%Z then (q * inject_Z (2 ^ z))%Q
  else (q / inject_Z (2 ^ (- z)))%Q.

(** The largest [e] with [2^e <= |q|], for a [q] other than zero. *)
Definition Qlog2 (q : Q) : Z :=
  let e := (Z.log2 (Z.abs (Qnum q)) - Z.log2 (Z.pos (Qden q)))%Z in
  if Qle_bool (Qshift 1 e) (Qabs q) then e else (e - 1)%Z.

(** The float nearest to [q]; [None] when rounding takes [q] beyond the
    largest float. *)
Definition to_float (q : Q) : option Q :=
  if Qeq_bool q 0 then Some 0%Q
  else
    let qe := (Z.max (Qlog2 q) (-1022) - 52)%Z in
    let r := Qshift (inject_Z (round_half_even (Qshift q (- qe)))) qe in
    if Qle_bool (inject_Z (2 ^ 1024)) (Qabs r) then None else Some r.

(** [int(x)] on a float: the integer part. *)
Definition Qtruncate (x : Q) : Z := Z.quot (Qnum x) (Z.pos (Qden x)).

(** ** Python values *)

Inductive PyVal : Type :=
| PyNone
| PyBool (b : bool)
| PyInt (n : Z)
| PyFloat (x : Q)
| PyStr (s : string)
| PyList (l : list PyVal)
| PyDict (kv : list (string * PyVal)).

Definition Dict : Type := list (string * PyVal).

(** Truth value of an object, as tested by [if], [or] and [not]. *)
Definition truthy (v : PyVal) : bool :=
  match v with
  | PyNone => false
  | PyBool b => b
  | PyInt n => negb (n =? 0)%Z
  | PyFloat x => negb (Qnum x =? 0)%Z
  | PyStr s => negb (PyStr.is_empty s)
  | PyList l => match l with [] => false | _ => true end
  | PyDict kv => match kv with [] => false | _ => true end
  end.

(** [a or b] *)
Definition py_or (a b : PyVal) : PyVal := if truthy a then a else b.

(** [a if a is not None else b] *)
Definition if_not_none (a b : PyVal) : PyVal :=
  match a with PyNone => b | _ => a end.

Definition type_name (v : PyVal) : string :=
  match v with
  | PyNone => "NoneType"
  | PyBool _ => "bool"
  | PyInt _ => "int"
  | PyFloat _ => "float"
  | PyStr _ => "str"
  | PyList _ => "list"
  | PyDict _ => "dict"
  end.

(** Lookup in a dict whose keys are strings. *)
Fixpoint dict_get (d : Dict) (k : string) : option PyVal :=
  match d with
  | [] => None
  | (k', v) :: d' => if String.eqb k k' then Some v else dict_get d' k
  end.

Definition has_key (d : Dict) (k : string) : bool :=
  match dict_get d k with Some _ => true | None => false end.

(** ** HTTP responses and exceptions *)

Record Response : Type := {
  status_code : Z;
  reason : string;
  url_of : string;
  text : string;
  (** [response.json()]: the decoded body, or the message of the
      decoding error it raises. *)
  json : string + PyVal
}.

Inductive PyExc : Type :=
| OllamaConnectionError (msg : string)
| OllamaTimeoutError (msg : string)
(** [requests.exceptions.Timeout] (read and connect timeouts alike) *)
| RequestsTimeout (msg : string)
| RequestsConnectionError (msg : string)
(** raised by [raise_for_status], always with its response *)
| HTTPError (response : Response)
| TypeError (msg : string)
| AttributeError (msg : string)
(** any other subclass of [Exception], by class name *)
| OtherException (cls msg : string).

(** [isinstance(e, (OllamaConnectionError, OllamaTimeoutError))] *)
Definition is_ollama_error (e : PyExc) : bool :=
  match e with
  | OllamaConnectionError _ | OllamaTimeoutError _ => true
  | _ => false
  end.

(** The message [raise_for_status] gives its [HTTPError]. *)
Definition http_error_msg (r : Response) : string :=
  (PyStr.of_int (status_code r)
   ++ (if (status_code r <? 500)%Z then " Client Error: " else " Server Error: ")
   ++ reason r ++ " for url: " ++ url_of r)%string.

(** [str(e)] *)
Definition str_exc (e : PyExc) : string :=
  match e with
  | OllamaConnectionError m | OllamaTimeoutError m
  | RequestsTimeout m | RequestsConnectionError m
  | TypeError m | AttributeError m | OtherException _ m => m
  | HTTPError r => http_error_msg r
  end.

Inductive Result (A : Type) : Type :=
| Return (a : A)
| Raise (e : PyExc).
Arguments Raise {A} e.

(** ** The service, its environment and the state it acts on *)

(** Keyword arguments of [_make_request] that reach [session.request]. *)
Record Kwargs : Type := {
  kw_json : option PyVal;
  kw_timeout : option PyVal
}.

Record Request : Type := {
  req_method : string;
  req_url : string;
  req_json : option PyVal;
  req_timeout : PyVal
}.

(** [MetaPromptParameters] and [MetaPromptConfig] of [prompts_config.py]. *)
Record MetaPromptParameters : Type := {
  mp_temperature : Q;
  mp_top_p : Q;
  mp_top_k : Z;
  mp_repeat_penalty : Q
}.

Definition to_dict (p : MetaPromptParameters) : PyVal :=
  PyDict [ ("temperature", PyFloat (mp_temperature p));
           ("top_p", PyFloat (mp_top_p p));
           ("top_k", PyInt (mp_top_k p));
           ("repeat_penalty", PyFloat (mp_repeat_penalty p)) ].

Record MetaPromptConfig : Type := {
  template : string;
  parameters : MetaPromptParameters
}.

(** A list object: its identity and its items.  [list.copy()] gives a new
    identity to the same items. *)
Record ListObj (A : Type) : Type := {
  oid : nat;
  items : list A
}.

Record Env : Type := {
  (** the [k]-th call of [session.request] *)
  session_request : nat -> Request -> PyExc + Response;
  (** the [k]-th reading of [datetime.now()] *)
  datetime_now : nat -> Z;
  (** the [k]-th reading of [time.time()] *)
  time_time : nat -> Q;
  (** [datetime.isoformat] *)
  isoformat : Z -> string;
  (** [template.format(objective=...)] *)
  str_format : string -> string -> PyExc + string;
  (** [config.default_model], [config.default_temperature] *)
  default_model : PyVal;
  default_temperature : PyVal;
  (** [prompts_config.get_meta_prompt_config()] *)
  get_meta_prompt_config : MetaPromptConfig
}.

(** The attributes of [OllamaService] set once by [__init__]. *)
Record Service : Type := {
  endpoint : string;
  timeout : Z;
  max_retries : Z;
  cache_duration : Z
}.

Record State : Type := {
  _models_cache : option (ListObj PyVal);
  _models_cache_time : option Z;
  (** requests handed to [session.request], oldest first *)
  sent : list Request;
  (** arguments of [time.sleep], oldest first *)
  slept : list Z;
  now_reads : nat;
  time_reads : nat;
  next_oid : nat
}.

(** The state [__init__] leaves. *)
Definition init_state : State :=
  {| _models_cache := None; _models_cache_time := None;
     sent := []; slept := []; now_reads := 0; time_reads := 0; next_oid := 0 |}.

(** ** Computations that read and write the state and may raise *)

Definition M (A : Type) : Type := State -> Result A * State.

Definition ret {A} (a : A) : M A := fun st => (Return a, st).

Definition raise {A} (e : PyExc) : M A := fun st => (Raise e, st).

Definition bind {A B} (m : M A) (k : A -> M B) : M B :=
  fun st =>
    match m st with
    | (Return a, st') => k a st'
    | (Raise e, st') => (Raise e, st')
    end.

(** [try: m  except Exception as e: h e] *)
Definition try_except {A} (m : M A) (h : PyExc -> M A) : M A :=
  fun st =>
    match m st with
    | (Return a, st') => (Return a, st')
    | (Raise e, st') => h e st'
    end.

Definition lift {A} (r : Result A) : M A := fun st => (r, st).

Declare Scope py_scope.
Delimit Scope py_scope with py.
Notation "x <- m ;; k" := (bind m (fun x => k))
  (at level 100, m at next level, right associativity) : py_scope.
Notation "m ;;; k" := (bind m (fun _ => k))
  (at level 100, right associativity) : py_scope.
Open Scope py_scope.

(** [raise v] where [v] may be [None]. *)
Definition py_raise {A} (v : option PyExc) : M A :=
  match v with
  | Some e => raise e
  | None => raise (TypeError "exceptions must derive from BaseException")
  end.

(** The state after one more request, and after one more sleep. *)
Definition log_request (rq : Request) (st : State) : State :=
  {| _models_cache := _models_cache st;
     _models_cache_time := _models_cache_time st;
     sent := (sent st ++ [rq])%list;
     slept := slept st;
     now_reads := now_reads st;
     time_reads := time_reads st;
     next_oid := next_oid st |}.

Definition log_sleep (secs : Z) (st : State) : State :=
  {| _models_cache := _models_cache st;
     _models_cache_time := _models_cache_time st;
     sent := sent st;
     slept := (slept st ++ [secs])%list;
     now_reads := now_reads st;
     time_reads := time_reads st;
     next_oid := next_oid st |}.

(** The state after one more reading of [datetime.now()], of [time.time()],
    and after one more object was created. *)
Definition tick_now (st : State) : State :=
  {| _models_cache := _models_cache st;
     _models_cache_time := _models_cache_time st;
     sent := sent st; slept := slept st; now_reads := S (now_reads st);
     time_reads := time_reads st; next_oid := next_oid st |}.

Definition tick_time (st : State) : State :=
  {| _models_cache := _models_cache st;
     _models_cache_time := _models_cache_time st;
     sent := sent st; slept := slept st; now_reads := now_reads st;
     time_reads := S (time_reads st); next_oid := next_oid st |}.

Definition tick_oid (st : State) : State :=
  {| _models_cache := _models_cache st;
     _models_cache_time := _models_cache_time st;
     sent := sent st; slept := slept st; now_reads := now_reads st;
     time_reads := time_reads st; next_oid := S (next_oid st) |}.

(** The state after an assignment to [self._models_cache], and to
    [self._models_cache_time]. *)
Definition with_cache (c : option (ListObj PyVal)) (st : State) : State :=
  {| _models_cache := c;
     _models_cache_time := _models_cache_time st;
     sent := sent st; slept := slept st; now_reads := now_reads st;
     time_reads := time_reads st; next_oid := next_oid st |}.

Definition with_cache_time (t : option Z) (st : State) : State :=
  {| _models_cache := _models_cache st;
     _models_cache_time := t;
     sent := sent st; slept := slept st; now_reads := now_reads st;
     time_reads := time_reads st; next_oid := next_oid st |}.

(** [range(n)] *)
Definition range (n : Z) : list nat := seq 0 (Z.to_nat n).

(** The statuses for which [raise_for_status] raises. *)
Definition is_http_error (r : Response) : bool :=
  ((400 <=? status_code r) && (status_code r <? 600))%Z.

Section Transport.

Variable env : Env.
Variable self : Service.

(** [self.session.request(method, url, **kwargs)] *)
Definition do_request (rq : Request) : M Response :=
  fun st =>
    match session_request env (length (sent st)) rq with
    | inl e => (Raise e, log_request rq st)
    | inr r => (Return r, log_request rq st)
    end.

(** [time.sleep(secs)] *)
Definition time_sleep (secs : Z) : M unit :=
  fun st => (Return tt, log_sleep secs st).

(** [response.raise_for_status()] *)
Definition raise_for_status (r : Response) : M unit :=
  if is_http_error r then raise (HTTPError r) else ret tt.

(** The request [_make_request] builds from its arguments. *)
Definition build_request (method path : string) (kwargs : Kwargs) : Request :=
  {| req_method := method;
     req_url := (PyStr.rstrip "/"%char (endpoint self) ++ "/"
                 ++ PyStr.lstrip "/"%char path)%string;
     req_json := kw_json kwargs;
     req_timeout := match kw_timeout kwargs with
                    | Some t => t
                    | None => PyInt (timeout self)
                    end |}.

(** One turn of the [for attempt in range(self.max_retries)] loop.
    [inl response] is [return response]; [inr e] is falling out of the
    [try] statement with [last_exception = e], after the backoff sleep. *)
Definition attempt_body (rq : Request) (attempt : nat) : M (Response + PyExc) :=
  outcome <-
    try_except
      (response <- do_request rq ;;
       raise_for_status response ;;;
       ret (inl response))
      (fun e =>
         match e with
         | RequestsTimeout _ =>
             ret (inr (OllamaTimeoutError
                         ("Request timed out after " ++ PyStr.of_int (timeout self)
                          ++ " seconds")))
         | RequestsConnectionError _ =>
             ret (inr (OllamaConnectionError
                         ("Failed to connect to Ollama at " ++ endpoint self)))
         | HTTPError response =>
             if (status_code response >=? 500)%Z
             then ret (inr (OllamaConnectionError
                              ("Ollama server error: "
                               ++ PyStr.of_int (status_code response))))
             else raise (OllamaConnectionError
                           ("Ollama API error: "
                            ++ PyStr.of_int (status_code response)
                            ++ " - " ++ text response))
         | _ =>
             ret (inr (OllamaConnectionError
                         ("Unexpected error communicating with Ollama: "
                          ++ str_exc e)))
         end) ;;
  match outcome with
  | inl response => ret (inl response)
  | inr e =>
      (if (Z.of_nat attempt <? max_retries self - 1)%Z
       then time_sleep (2 ^ Z.of_nat attempt)
       else ret tt) ;;;
      ret (inr e)
  end.

(** The loop over the remaining attempts, then [raise last_exception]. *)
Fixpoint for_attempts (rq : Request) (attempts : list nat)
         (last_exception : option PyExc) : M Response :=
  match attempts with
  | [] => py_raise last_exception
  | attempt :: rest =>
      o <- attempt_body rq attempt ;;
      match o with
      | inl response => ret response
      | inr e => for_attempts rq rest (Some e)
      end
  end.

Definition _make_request (method path : string) (kwargs : Kwargs) : M Response :=
  for_attempts (build_request method path kwargs) (range (max_retries self)) None.

End Transport.

(** ** Operations on decoded JSON *)

(** [v.get(k, default)] *)
Definition py_get (v : PyVal) (k : string) (default : PyVal) : Result PyVal :=
  match v with
  | PyDict kv =>
      Return (match dict_get kv k with Some x => x | None => default end)
  | _ =>
      Raise (AttributeError
               ("'" ++ type_name v ++ "' object has no attribute 'get'"))
  end.

(** [v.strip()] *)
Definition py_strip (v : PyVal) : Result string :=
  match v with
  | PyStr s => Return (PyStr.strip s)
  | _ =>
      Raise (AttributeError
               ("'" ++ type_name v ++ "' object has no attribute 'strip'"))
  end.

(** The items [for x in v] goes through. *)
Definition py_iter (v : PyVal) : Result (list PyVal) :=
  match v with
  | PyList l => Return l
  | PyStr s =>
      Return (map (fun c => PyStr (String c EmptyString)) (list_ascii_of_string s))
  | PyDict kv => Return (map (fun p => PyStr (fst p)) kv)
  | _ => Raise (TypeError ("'" ++ type_name v ++ "' object is not iterable"))
  end.

Definition OverflowError (msg : string) : PyExc :=
  OtherException "OverflowError" msg.

(** [n / d] for two [int]s, [d] not zero: the float nearest to the
    quotient. *)
Definition int_truediv (n d : Z) : Result Q :=
  match to_float (inject_Z n / inject_Z d) with
  | Some x => Return x
  | None => Raise (OverflowError "integer division result too large for a float")
  end.

(** [v / d] for an [int] literal [d] other than zero.  A [bool] divides as
    the [int] it is; a float is divided by the float of [d], and the
    quotient of a float by a [d] of magnitude one or more is in range. *)
Definition truediv_int (v : PyVal) (d : Z) : Result Q :=
  match v with
  | PyBool b => int_truediv (if b then 1 else 0) d
  | PyInt n => int_truediv n d
  | PyFloat x =>
      Return (match to_float (x / inject_Z d) with
              | Some y => y
              | None => x / inject_Z d
              end)%Q
  | _ =>
      Raise (TypeError
               ("unsupported operand type(s) for /: '" ++ type_name v
                ++ "' and 'int'"))
  end.

Definition rbind {A B} (r : Result A) (k : A -> Result B) : Result B :=
  match r with
  | Return a => k a
  | Raise e => Raise e
  end.

(** The [size_mb] entry:
    [round(model.get('size', 0) / (1024 * 1024), 1) if model.get('size') else 0] *)
Definition size_mb_of (model : PyVal) : Result PyVal :=
  rbind (py_get model "size" PyNone) (fun c =>
  if truthy c
  then
    rbind (py_get model "size" (PyInt 0)) (fun s =>
    rbind (truediv_int s (1024 * 1024)) (fun x =>
    Return (PyFloat (py_round x 1))))
  else Return (PyInt 0)).

(** The dict appended to [models] for one raw record. *)
Definition model_info (model : PyVal) : Result PyVal :=
  rbind (py_get model "name" (PyStr "")) (fun name =>
  rbind (py_get model "size" (PyInt 0)) (fun size =>
  rbind (py_get model "modified_at" (PyStr "")) (fun modified_at =>
  rbind (py_get model "digest" (PyStr "")) (fun digest =>
  rbind (size_mb_of model) (fun size_mb =>
  Return (PyDict [ ("name", name);
                   ("size", size);
                   ("modified_at", modified_at);
                   ("digest", digest);
                   ("size_mb", size_mb) ])))))).

(** The body of [for model in ...: models.append(...)]. *)
Fixpoint model_infos (raw : list PyVal) : Result (list PyVal) :=
  match raw with
  | [] => Return []
  | model :: rest =>
      rbind (model_info model) (fun d =>
      rbind (model_infos rest) (fun ds => Return (d :: ds)))
  end.

(** ** The model cache

    In section [Cache], further down, the deadline of a snapshot and its
    age are computed on the integers: what the code computes as long as
    the deadline is a [datetime] and the age is less than [2^33] seconds.
    Module [Bounded], after it, computes both as the code does. *)

Definition set_cache (c : option (ListObj PyVal)) : M unit :=
  fun st => (Return tt, with_cache c st).

Definition set_cache_time (t : option Z) : M unit :=
  fun st => (Return tt, with_cache_time t st).

(** A new list object with the given items. *)
Definition new_list (l : list PyVal) : M (ListObj PyVal) :=
  fun st => (Return {| oid := next_oid st; items := l |}, tick_oid st).

(** [l.copy()] *)
Definition list_copy (l : ListObj PyVal) : M (ListObj PyVal) :=
  new_list (items l).

(** [response.json()] *)
Definition response_json (r : Response) : M PyVal :=
  match json r with
  | inl msg => raise (OtherException "JSONDecodeError" msg)
  | inr v => ret v
  end.

Definition no_kwargs : Kwargs := {| kw_json := None; kw_timeout := None |}.

Section Cache.

Variable env : Env.
Variable self : Service.

(** [datetime.now()] *)
Definition now : M Z :=
  fun st => (Return (datetime_now env (now_reads st)), tick_now st).

Definition _is_cache_valid : M bool :=
  fun st =>
    match _models_cache st, _models_cache_time st with
    | Some _, Some cache_time =>
        let cache_expiry := (cache_time + cache_duration self * 1000000)%Z in
        (t <- now ;; ret (t <? cache_expiry)%Z) st
    | _, _ => (Return false, st)
    end.

(** The [except Exception as e] clause shared by the public methods. *)
Definition reraise_or_wrap {A} (prefix : string) (e : PyExc) : M A :=
  if is_ollama_error e then raise e
  else raise (OllamaConnectionError (prefix ++ str_exc e)).

(** [return self._models_cache.copy()] *)
Definition cached_models : M (ListObj PyVal) :=
  fun st =>
    match _models_cache st with
    | Some c => list_copy c st
    | None =>
        (Raise (AttributeError "'NoneType' object has no attribute 'copy'"), st)
    end.

(** The [try] statement of [get_available_models]. *)
Definition fetch_models : M (ListObj PyVal) :=
  try_except
    (response <- _make_request env self "GET" "api/tags" no_kwargs ;;
     data <- response_json response ;;
     models <- new_list [] ;;
     raw <- lift (rbind (py_get data "models" (PyList [])) py_iter) ;;
     infos <- lift (model_infos raw) ;;
     let models := {| oid := oid models; items := infos |} in
     c <- list_copy models ;;
     set_cache (Some c) ;;;
     t <- now ;;
     set_cache_time (Some t) ;;;
     ret models)
    (reraise_or_wrap "Failed to parse models response: ").

Definition get_available_models (use_cache : bool) : M (ListObj PyVal) :=
  valid <- (if use_cache then _is_cache_valid else ret false) ;;
  if valid : bool then cached_models else fetch_models.

Definition refresh_models_cache : M (ListObj PyVal) :=
  get_available_models false.

Definition clear_models_cache : M unit :=
  set_cache None ;;;
  set_cache_time None.

Definition get_cache_info : M Dict :=
  fun st =>
    match _models_cache st, _models_cache_time st with
    | Some cache, Some cache_time =>
        (t <- now ;;
         let cache_age_seconds := Z.quot (t - cache_time) 1000000 in
         valid <- _is_cache_valid ;;
         ret [ ("cached", PyBool true);
               ("cache_time", PyStr (isoformat env cache_time));
               ("cache_age_seconds", PyInt cache_age_seconds);
               ("cache_valid", PyBool valid);
               ("models_count", PyInt (Z.of_nat (length (items cache))));
               ("cache_duration_seconds", PyInt (cache_duration self)) ]) st
    | _, _ =>
        (Return [ ("cached", PyBool false);
                  ("cache_time", PyNone);
                  ("cache_age_seconds", PyNone);
                  ("cache_valid", PyBool false);
                  ("models_count", PyInt 0) ],
         st)
    end.

End Cache.

(** ** The range of [datetime]

    A [datetime] lies between the years 1 and 9999 and a [timedelta] within
    999999999 days; building a value outside raises [OverflowError]. *)

(** [datetime.min] and [datetime.max], in microseconds since the epoch. *)
Definition datetime_min : Z := -62135596800000000.
Definition datetime_max : Z := 253402300799999999.

(** [timedelta(seconds=n)] for an [int], in microseconds.  The message is
    that of CPython, which first takes the days as a C [int]. *)
Definition timedelta_seconds (n : Z) : PyExc + Z :=
  let days := (n / 86400)%Z in
  if (Z.abs days <=? 999999999)%Z
  then inr (n * 1000000)%Z
  else
    inl (OverflowError
           (if (- 2 ^ 31 <=? days)%Z && (days <? 2 ^ 31)%Z
            then "days=" ++ PyStr.of_int days
                 ++ "; must have magnitude <= 999999999"
            else "Python int too large to convert to C int")).

(** [t + d] for a [datetime] and a [timedelta]. *)
Definition datetime_add (t d : Z) : PyExc + Z :=
  if (datetime_min <=? t + d)%Z && (t + d <=? datetime_max)%Z
  then inr (t + d)%Z
  else inl (OverflowError "date value out of range").

Definition lift_sum {A} (r : PyExc + A) : M A :=
  match r with
  | inl e => raise e
  | inr a => ret a
  end.

(** ** The cache operations within the range of [datetime]

    Section [Cache] computes the deadline of a snapshot on the integers,
    and the age of a snapshot in whole microseconds.  Here both are
    computed as the code computes them: the deadline by [timedelta] and the
    addition of [datetime], which raise outside their range, the age by the
    float of [total_seconds].  The operations of the two embeddings do the
    same whenever the deadline of the snapshot is a [datetime] and the
    snapshot is less than [2^33] seconds old. *)

Module Bounded.

Section Cache.

Variable env : Env.
Variable self : Service.

Definition _is_cache_valid : M bool :=
  fun st =>
    match _models_cache st, _models_cache_time st with
    | Some _, Some cache_time =>
        (delta <- lift_sum (timedelta_seconds (cache_duration self)) ;;
         cache_expiry <- lift_sum (datetime_add cache_time delta) ;;
         t <- now env ;;
         ret (t <? cache_expiry)%Z) st
    | _, _ => (Return false, st)
    end.

Definition get_available_models (use_cache : bool) : M (ListObj PyVal) :=
  valid <- (if use_cache then _is_cache_valid else ret false) ;;
  if valid : bool then cached_models else fetch_models env self.

Definition refresh_models_cache : M (ListObj PyVal) :=
  get_available_models false.

Definition get_cache_info : M Dict :=
  fun st =>
    match _models_cache st, _models_cache_time st with
    | Some cache, Some cache_time =>
        (t <- now env ;;
         total_seconds <- lift (int_truediv (t - cache_time) 1000000) ;;
         let cache_age_seconds := Qtruncate total_seconds in
         valid <- _is_cache_valid ;;
         ret [ ("cached", PyBool true);
               ("cache_time", PyStr (isoformat env cache_time));
               ("cache_age_seconds", PyInt cache_age_seconds);
               ("cache_valid", PyBool valid);
               ("models_count", PyInt (Z.of_nat (length (items cache))));
               ("cache_duration_seconds", PyInt (cache_duration self)) ]) st
    | _, _ =>
        (Return [ ("cached", PyBool false);
                  ("cache_time", PyNone);
                  ("cache_age_seconds", PyNone);
                  ("cache_valid", PyBool false);
                  ("models_count", PyInt 0) ],
         st)
    end.

End Cache.

End Bounded.

(** ** The generation workflows *)

Section Workflows.

Variable env : Env.
Variable self : Service.

(** [time.time()] *)
Definition time_now : M Q :=
  fun st => (Return (time_time env (time_reads st)), tick_time st).

(** [MetaPromptConfig.format_prompt] *)
Definition format_prompt (c : MetaPromptConfig) (objective : string) : M string :=
  match str_format env (template c) objective with
  | inl e => raise e
  | inr s => ret s
  end.

(** The keyword arguments [refine_prompt] passes to [_make_request]. *)
Definition refine_kwargs (model : PyVal) (formatted_prompt : string)
           (meta_prompt_config : MetaPromptConfig) : Kwargs :=
  {| kw_json :=
       Some (PyDict [ ("model", model);
                      ("prompt", PyStr formatted_prompt);
                      ("stream", PyBool false);
                      ("options", to_dict (parameters meta_prompt_config)) ]);
     kw_timeout := None |}.

Definition refine_prompt (objective : string) (target_model : PyVal) : M string :=
  let model := py_or target_model (default_model env) in
  let meta_prompt_config := get_meta_prompt_config env in
  formatted_prompt <- format_prompt meta_prompt_config objective ;;
  try_except
    (response <- _make_request env self "POST" "api/generate"
                   (refine_kwargs model formatted_prompt meta_prompt_config) ;;
     data <- response_json response ;;
     r <- lift (py_get data "response" (PyStr "")) ;;
     refined_prompt <- lift (py_strip r) ;;
     if PyStr.is_empty refined_prompt
     then raise (OllamaConnectionError
                   "Received empty response from Ollama during prompt refinement")
     else ret refined_prompt)
    (reraise_or_wrap "Failed to refine prompt: ").

(** The keyword arguments [test_prompt] passes to [_make_request]. *)
Definition test_kwargs (model : PyVal) (full_prompt : string)
           (temperature request_timeout : PyVal) : Kwargs :=
  {| kw_json :=
       Some (PyDict [ ("model", model);
                      ("prompt", PyStr full_prompt);
                      ("stream", PyBool false);
                      ("options",
                        PyDict [ ("temperature", temperature);
                                 ("top_p", PyFloat (9 # 10)) ]) ]);
     kw_timeout := Some request_timeout |}.

Definition full_prompt_of (system_prompt user_input : string) : string :=
  system_prompt ++ PyStr.nl ++ PyStr.nl ++ "User: " ++ user_input
  ++ PyStr.nl ++ PyStr.nl ++ "Assistant:".

Definition test_prompt (system_prompt user_input : string)
           (model temperature timeout_ : PyVal) : M Dict :=
  let model := py_or model (default_model env) in
  let temperature := if_not_none temperature (default_temperature env) in
  let request_timeout := if_not_none timeout_ (PyInt (timeout self)) in
  let full_prompt := full_prompt_of system_prompt user_input in
  start_time <- time_now ;;
  try_except
    (response <- _make_request env self "POST" "api/generate"
                   (test_kwargs model full_prompt temperature request_timeout) ;;
     end_time <- time_now ;;
     let execution_time := (end_time - start_time)%Q in
     data <- response_json response ;;
     r <- lift (py_get data "response" (PyStr "")) ;;
     ai_response <- lift (py_strip r) ;;
     if PyStr.is_empty ai_response
     then raise (OllamaConnectionError
                   "Received empty response from Ollama during prompt testing")
     else ret [ ("response", PyStr ai_response);
                ("execution_time", PyFloat (py_round execution_time 2));
                ("model", model);
                ("temperature", temperature);
                ("timeout", request_timeout);
                ("system_prompt", PyStr system_prompt);
                ("user_input", PyStr user_input) ])
    (reraise_or_wrap "Failed to test prompt: ").

End Workflows.

(** ** Sample worlds *)

(** A 200 response with the given decoded body. *)
Definition ok_response (body : PyVal) : Response :=
  {| status_code := 200; reason := "OK"; url_of := "";
     text := ""; json := inr body |}.

(** A service built with the defaults of [__init__], but for the number of
    attempts. *)
Definition sample_service (retries : Z) : Service :=
  {| endpoint := "http://localhost:11434"; timeout := 30;
     max_retries := retries; cache_duration := 300 |}.

(** The same service with a cache meant never to expire: a duration of
    [10^12] seconds. *)
Definition long_cache_service (retries : Z) : Service :=
  {| endpoint := "http://localhost:11434"; timeout := 30;
     max_retries := retries; cache_duration := 10 ^ 12 |}.

(** A world around a given network and clock.  Its formatter appends the
    objective to the template. *)
Definition sample_env_with (net : nat -> Request -> PyExc + Response)
           (clock : nat -> Z) (model temperature : PyVal) : Env :=
  {| session_request := net;
     datetime_now := clock;
     time_time := fun k => inject_Z (Z.of_nat k);
     isoformat := PyStr.of_int;
     str_format := fun t o => inr (t ++ o);
     default_model := model;
     default_temperature := temperature;
     get_meta_prompt_config :=
       {| template := "Objective: ";
          parameters := {| mp_temperature := 3 # 10; mp_top_p := 9 # 10;
                           mp_top_k := 0; mp_repeat_penalty := 11 # 10 |} |} |}.

(** A configuration with default model [llama2] and default temperature
    0.7. *)
Definition sample_env (net : nat -> Request -> PyExc + Response)
           (clock : nat -> Z) : Env :=
  sample_env_with net clock (PyStr "llama2") (PyFloat (7 # 10)).

(** A network that times out [n] times, then answers 200 with [body]. *)
Definition timeouts_then_ok (n : nat) (body : PyVal)
  : nat -> Request -> PyExc + Response :=
  fun k _ =>
    if (k <? n)%nat then inl (RequestsTimeout "Read timed out.")
    else inr (ok_response body).

(** A network that always answers 200 with the given decoded body. *)
Definition always_ok (body : PyVal) : nat -> Request -> PyExc + Response :=
  fun _ _ => inr (ok_response body).

(** A network that always answers with the given status and body text. *)
Definition always_status (status : Z) (phrase body : string)
  : nat -> Request -> PyExc + Response :=
  fun _ rq =>
    inr {| status_code := status; reason := phrase; url_of := req_url rq;
           text := body; json := inl "Expecting value: line 1 column 1 (char 0)" |}.

(** A network that refuses every connection. *)
Definition always_refused : nat -> Request -> PyExc + Response :=
  fun _ _ => inl (RequestsConnectionError "Connection refused").

(** A listing with one model of 4 000 000 bytes. *)
Definition sample_listing : PyVal :=
  PyDict [ ("models",
             PyList [ PyDict [ ("name", PyStr "llama2:latest");
                               ("size", PyInt 4000000);
                               ("modified_at", PyStr "2024-01-01T00:00:00Z");
                               ("digest", PyStr "abc123") ] ]) ].

(** A clock that reads 0 s, then 100 s, then 300 s from then on. *)
Definition sample_clock (k : nat) : Z :=
  match k with
  | O => 0%Z
  | S O => 100000000%Z
  | _ => 300000000%Z
  end.

(** ** Vocabulary of the statements *)

(** [type(e).__name__] *)
Definition class_name (e : PyExc) : string :=
  match e with
  | OllamaConnectionError _ => "OllamaConnectionError"
  | OllamaTimeoutError _ => "OllamaTimeoutError"
  | RequestsTimeout _ => "Timeout"
  | RequestsConnectionError _ => "ConnectionError"
  | HTTPError _ => "HTTPError"
  | TypeError _ => "TypeError"
  | AttributeError _ => "AttributeError"
  | OtherException cls _ => cls
  end.

(** A string all of whose characters satisfy [p] (the empty string
    included); with [isspace], a string made of whitespace only. *)
Fixpoint all_by (p : ascii -> bool) (s : string) : bool :=
  match s with
  | EmptyString => true
  | String c s' => p c && all_by p s'
  end.

Definition all_space (s : string) : bool := all_by PyStr.isspace s.

(** The first and the last character of a string, if it has any. *)
Definition first_char (s : string) : option ascii :=
  match s with
  | EmptyString => None
  | String c _ => Some c
  end.

Fixpoint last_char (s : string) : option ascii :=
  match s with
  | EmptyString => None
  | String c s' =>
      match s' with
      | EmptyString => Some c
      | String _ _ => last_char s'
      end
  end.

(** [t] has no character satisfying [p] at either end. *)
Definition clean_ends (p : ascii -> bool) (t : string) : Prop :=
  (forall c, first_char t = Some c -> p c = false) /\
  (forall c, last_char t = Some c -> p c = false).

(** [t] is [s] trimmed: [s] is [t] with whitespace only before it and
    after it, and [t] neither starts nor ends with whitespace. *)
Definition trimmed (s t : string) : Prop :=
  exists a b,
    s = a ++ t ++ b /\ all_space a = true /\ all_space b = true /\
    clean_ends PyStr.isspace t.

(** The [model] entry of the JSON payload of a request, and the
    [temperature] entry of its [options]. *)
Definition request_model (rq : Request) : option PyVal :=
  match req_json rq with
  | Some (PyDict kv) => dict_get kv "model"
  | _ => None
  end.

Definition request_temperature (rq : Request) : option PyVal :=
  match req_json rq with
  | Some (PyDict kv) =>
      match dict_get kv "options" with
      | Some (PyDict opts) => dict_get opts "temperature"
      | _ => None
      end
  | _ => None
  end.

(** The deadline [cache_time + timedelta(seconds=self.cache_duration)] of a
    snapshot taken at [cache_time]. *)
Definition expiry (self : Service) (cache_time : Z) : Z :=
  (cache_time + cache_duration self * 1000000)%Z.

(** The deadline of a snapshot taken at [cache_time] can be built: the
    duration is a [timedelta] and the deadline a [datetime]. *)
Definition deadline_in_range (self : Service) (cache_time : Z) : Prop :=
  (Z.abs (cache_duration self / 86400) <= 999999999)%Z /\
  (datetime_min <= expiry self cache_time <= datetime_max)%Z.

(** The identities of list objects are given out in order: the cached
    list has one that was given out before. *)
Definition heap_ok (st : State) : Prop :=
  forall c, _models_cache st = Some c -> (oid c < next_oid st)%nat.

Unset Implicit Arguments.

(** What a call of the transport may change: it appends [n] copies of its
    request to [sent] and some waits to [slept], nothing else. *)
Definition transport_frame (rq : Request) (n : nat) (st st' : State) : Prop :=
  _models_cache st' = _models_cache st /\
  _models_cache_time st' = _models_cache_time st /\
  now_reads st' = now_reads st /\
  time_reads st' = time_reads st /\
  next_oid st' = next_oid st /\
  sent st' = (sent st ++ repeat rq n)%list /\
  exists waits, slept st' = (slept st ++ waits)%list.

(** The waits of the first [n] retries: [2^0, ..., 2^(n-1)]. *)
Definition backoff_waits (n : nat) : list Z :=
  map (fun attempt => (2 ^ Z.of_nat attempt)%Z) (seq 0 n).

Definition total (l : list Z) : Z := fold_right Z.add 0%Z l.

(** The state one turn of the loop leaves when its attempt failed with a
    retried failure: the request, then the backoff sleep if one is due. *)
Definition after_retry (self : Service) (rq : Request) (attempt : nat)
           (st : State) : State :=
  if (Z.of_nat attempt <? max_retries self - 1)%Z
  then log_sleep (2 ^ Z.of_nat attempt) (log_request rq st)
  else log_request rq st.

(** ** The connection checks of the service *)

Section Health.

Variable env : Env.
Variable self : Service.

(** [except (OllamaConnectionError, OllamaTimeoutError) as e: h e]: any
    other exception goes on to the caller. *)
Definition except_ollama {A : Type} (h : PyExc -> M A) (e : PyExc) : M A :=
  if is_ollama_error e then h e else raise e.

Definition check_connection : M Dict :=
  try_except
    (response <- _make_request env self "GET" "api/tags" no_kwargs ;;
     ret [ ("connected", PyBool true);
           ("endpoint", PyStr (endpoint self));
           ("status", PyStr "healthy");
           ("message", PyStr "Successfully connected to Ollama") ])
    (except_ollama
       (fun e =>
          ret [ ("connected", PyBool false);
                ("endpoint", PyStr (endpoint self));
                ("status", PyStr "error");
                ("message", PyStr (str_exc e)) ])).

Definition health_check : M bool :=
  try_except
    (_make_request env self "GET" "api/tags" no_kwargs ;;;
     ret true)
    (except_ollama (fun _ => ret false)).

End Health.

(** The outcomes of an attempt that the transport retries, each with the
    failure it leaves in [last_exception]: a timeout, a refused connection,
    a 5xx response. *)
Inductive retried_as (self : Service) : PyExc + Response -> PyExc -> Prop :=
| retried_timeout (m : string) :
    retried_as self (inl (RequestsTimeout m))
      (OllamaTimeoutError
         ("Request timed out after " ++ PyStr.of_int (timeout self)
          ++ " seconds"))
| retried_refused (m : string) :
    retried_as self (inl (RequestsConnectionError m))
      (OllamaConnectionError
         ("Failed to connect to Ollama at " ++ endpoint self))
| retried_server_error (r : Response) :
    (500 <= status_code r <= 599)%Z ->
    retried_as self (inr r)
      (OllamaConnectionError
         ("Ollama server error: " ++ PyStr.of_int (status_code r))).

(** The same service at another endpoint. *)
Definition at_endpoint (self : Service) (e : string) : Service :=
  {| endpoint := e; timeout := timeout self;
     max_retries := max_retries self; cache_duration := cache_duration self |}.

(** A network that answers every request with a timeout. *)
Definition always_timeout : nat -> Request -> PyExc + Response :=
  fun _ _ => inl (RequestsTimeout "Read timed out.").

(** ** Validation of the meta-prompt configuration ([prompts_config.py]) *)

(** [isinstance(v, (int, float))] and [isinstance(v, int)]; a [bool] is an
    [int]. *)
Definition is_number (v : PyVal) : bool :=
  match v with
  | PyBool _ | PyInt _ | PyFloat _ => true
  | _ => false
  end.

Definition is_int (v : PyVal) : bool :=
  match v with
  | PyBool _ | PyInt _ => true
  | _ => false
  end.

(** [isinstance(v, str)] *)
Definition is_str (v : PyVal) : bool :=
  match v with
  | PyStr _ => true
  | _ => false
  end.

(** The value a number has in a comparison. *)
Definition num_value (v : PyVal) : Q :=
  match v with
  | PyBool b => if b then 1 else 0
  | PyInt n => inject_Z n
  | PyFloat x => x
  | _ => 0
  end.

(** [sub in s] for two strings. *)
Fixpoint str_contains (sub s : string) : bool :=
  String.prefix sub s
  || match s with
     | EmptyString => false
     | String _ s' => str_contains sub s'
     end.

(** What an attribute of a [MetaPromptParameters] object may hold at run
    time: a value of [PyVal], or one of the floats that are no rational,
    [nan], [inf] and [-inf], which [float()] in [_load_config] makes of
    [.nan] and [.inf] in the YAML file. *)
Inductive Attr : Type :=
| AttrVal (v : PyVal)
| AttrNaN
| AttrInf (negative : bool).

(** [isinstance(a, (int, float))] and [isinstance(a, int)] *)
Definition attr_is_number (a : Attr) : bool :=
  match a with
  | AttrVal v => is_number v
  | AttrNaN | AttrInf _ => true
  end.

Definition attr_is_int (a : Attr) : bool :=
  match a with
  | AttrVal v => is_int v
  | AttrNaN | AttrInf _ => false
  end.

(** [lo <= a <= hi] for two float literals and a number [a]: every
    comparison with [nan] is false, and an infinity is on one side of
    both bounds. *)
Definition attr_between (lo hi : Q) (a : Attr) : bool :=
  match a with
  | AttrVal v => Qle_bool lo (num_value v) && Qle_bool (num_value v) hi
  | AttrNaN | AttrInf _ => false
  end.

(** [a < 0] for a number [a]. *)
Definition attr_negative (a : Attr) : bool :=
  match a with
  | AttrVal v => negb (Qle_bool 0 (num_value v))
  | AttrNaN => false
  | AttrInf negative => negative
  end.

Record ParametersObj : Type := {
  temperature_of : Attr;
  top_p_of : Attr;
  top_k_of : Attr;
  repeat_penalty_of : Attr
}.

(** The object built from four numbers that are rationals: floats, and an
    [int] for [top_k]. *)
Definition parameters_obj (p : MetaPromptParameters) : ParametersObj :=
  {| temperature_of := AttrVal (PyFloat (mp_temperature p));
     top_p_of := AttrVal (PyFloat (mp_top_p p));
     top_k_of := AttrVal (PyInt (mp_top_k p));
     repeat_penalty_of := AttrVal (PyFloat (mp_repeat_penalty p)) |}.

(** [MetaPromptParameters.validate]: four [if] statements in a row, each
    one setting at most its own key of [errors]. *)
Definition MetaPromptParameters_validate (self : ParametersObj) : Dict :=
  ((if negb (attr_is_number (temperature_of self))
    then [("temperature", PyStr "Temperature must be a number")]
    else if negb (attr_between 0 2 (temperature_of self))
    then [("temperature", PyStr "Temperature must be between 0.0 and 2.0")]
    else [])
   ++ (if negb (attr_is_number (top_p_of self))
       then [("top_p", PyStr "Top P must be a number")]
       else if negb (attr_between 0 1 (top_p_of self))
       then [("top_p", PyStr "Top P must be between 0.0 and 1.0")]
       else [])
   ++ (if negb (attr_is_int (top_k_of self))
       then [("top_k", PyStr "Top K must be an integer")]
       else if attr_negative (top_k_of self)
       then [("top_k", PyStr "Top K must be non-negative")]
       else [])
   ++ (if negb (attr_is_number (repeat_penalty_of self))
       then [("repeat_penalty", PyStr "Repeat penalty must be a number")]
       else if attr_negative (repeat_penalty_of self)
       then [("repeat_penalty", PyStr "Repeat penalty must be non-negative")]
       else []))%list.

(** [MetaPromptConfig.validate], on the values of [template] and
    [parameters]. *)
Definition MetaPromptConfig_validate (template_ : PyVal)
           (parameters_ : ParametersObj) : Dict :=
  ((if negb (truthy template_) || negb (is_str template_)
    then [("template",
            PyStr "Meta-prompt template must be a non-empty string")]
    else
      match template_ with
      | PyStr s =>
          if negb (str_contains "{objective}" s)
          then [("template",
                  PyStr "Meta-prompt template must contain {objective} placeholder")]
          else []
      | _ => []
      end)
   ++ (let param_errors := MetaPromptParameters_validate parameters_ in
       if truthy (PyDict param_errors)
       then [("parameters", PyDict param_errors)]
       else []))%list.

(** The result of [float(...)]: a float, rational or not. *)
Definition is_float_attr (a : Attr) : Prop :=
  a = AttrNaN \/ (exists negative, a = AttrInf negative)
  \/ exists x, a = AttrVal (PyFloat x).

(** A number that is rational and lies between [lo] and [hi]. *)
Definition number_within (lo hi : Q) (a : Attr) : Prop :=
  exists v, a = AttrVal v /\ is_number v = true /\ (lo <= num_value v <= hi)%Q.

(** ** The start-up checks ([run.py]) *)

(** What calling one check function does: it returns a value, raises an
    exception, or leaves through [sys.exit]. *)
Inductive CheckOutcome : Type :=
| CheckReturns (v : PyVal)
| CheckRaises (e : PyExc)
| CheckExits (code : Z).

(** [v is False] *)
Definition is_False (v : PyVal) : bool :=
  match v with
  | PyBool false => true
  | _ => false
  end.

(** The loop of [run_initialization_checks] over the checks that are left,
    [failed_checks] being the names collected so far.  [inl code] is a
    [SystemExit] that leaves the function; [inr] is the list at the end of
    the loop.  What the function logs is not part of the model. *)
Fixpoint run_checks (checks : list (string * CheckOutcome))
         (failed_checks : list string) : Z + list string :=
  match checks with
  | [] => inr failed_checks
  | (check_name, outcome) :: rest =>
      match outcome with
      | CheckReturns v =>
          if is_False v
          then run_checks rest (failed_checks ++ [check_name])%list
          else run_checks rest failed_checks
      | CheckExits code => inl code
      | CheckRaises _ => run_checks rest (failed_checks ++ [check_name])%list
      end
  end.

(** [run_initialization_checks], given what each of its five checks does:
    the exit code of a [SystemExit], or the value returned,
    [len(failed_checks) == 0]. *)
Definition run_initialization_checks
           (python_version virtual_environment dependencies database
              ollama_connection : CheckOutcome) : Z + bool :=
  match run_checks [ ("Python Version", python_version);
                     ("Virtual Environment", virtual_environment);
                     ("Dependencies", dependencies);
                     ("Database", database);
                     ("Ollama Connection", ollama_connection) ] [] with
  | inl code => inl code
  | inr failed_checks => inr (length failed_checks =? 0)%nat
  end.



(** ** The schema migration ([migrations/add_objective_column.py]) *)

(** What the database does when [migrate] talks to it: whether the file
    exists, whether [sqlite3.connect] raises, the column names
    [PRAGMA table_info(prompts)] lists (or what executing it raises), and
    whether the [ALTER TABLE] and the commit raise. *)
Record Database : Type := {
  db_path : string;
  db_exists : bool;
  connect_raises : option PyExc;
  table_info : PyExc + list string;
  alter_raises : option PyExc;
  commit_raises : option PyExc
}.

(** What [migrate] does to the outside, in order: what it prints, the
    connection it opens, the statements and the commit it issues, the
    connection it closes. *)
Inductive DbAction : Type :=
| Print (msg : string)
| Connect
| Execute (sql : string)
| Commit
| Close.

(** [migrate]: its result and what it did.  The [try] statement is the
    inner [match]; the [finally] clause closes the connection, and finds
    [conn] unbound when [sqlite3.connect] was what raised. *)
Definition migrate (db : Database) : Result bool * list DbAction :=
  if negb (db_exists db)
  then (Return false, [Print ("Database not found at " ++ db_path db)])
  else
    match connect_raises db with
    | Some e =>
        (Raise (OtherException "UnboundLocalError"
                  "cannot access local variable 'conn' where it is not associated with a value"),
         [Print ("Migration failed: " ++ str_exc e)])
    | None =>
        let pragma := Execute "PRAGMA table_info(prompts)" in
        match table_info db with
        | inl e =>
            (Return false,
             [Connect; pragma; Print ("Migration failed: " ++ str_exc e); Close])
        | inr columns =>
            if existsb (String.eqb "objective") columns
            then
              (Return true,
               [Connect; pragma;
                Print "Column 'objective' already exists in prompts table";
                Close])
            else
              let adding :=
                Print "Adding 'objective' column to prompts table..." in
              let alter :=
                Execute "ALTER TABLE prompts ADD COLUMN objective TEXT" in
              match alter_raises db with
              | Some e =>
                  (Return false,
                   [Connect; pragma; adding; alter;
                    Print ("Migration failed: " ++ str_exc e); Close])
              | None =>
                  match commit_raises db with
                  | Some e =>
                      (Return false,
                       [Connect; pragma; adding; alter; Commit;
                        Print ("Migration failed: " ++ str_exc e); Close])
                  | None =>
                      (Return true,
                       [Connect; pragma; adding; alter; Commit;
                        Print "Migration completed successfully!"; Close])
                  end
              end
        end
    end.

(** * Properties of the transport *)

Section TransportFacts.

Variable env : Env.
Variable self : Service.

Lemma transport_frame_refl rq st : transport_frame rq 0 st st.
Proof.
  unfold transport_frame; simpl.
  rewrite app_nil_r. repeat split; try reflexivity.
  exists []. now rewrite app_nil_r.
Qed.

Lemma transport_frame_request rq n st st' :
  transport_frame rq n (log_request rq st) st' ->
  transport_frame rq (S n) st st'.
Proof.
  unfold transport_frame; simpl.
  intros (Hc & Ht & Hn & Hr & Ho & Hs & Hw).
  repeat split; try assumption.
  rewrite Hs, <- app_assoc. reflexivity.
Qed.

Lemma transport_frame_sleep rq n secs st st' :
  transport_frame rq n (log_sleep secs st) st' ->
  transport_frame rq n st st'.
Proof.
  unfold transport_frame; simpl.
  intros (Hc & Ht & Hn & Hr & Ho & Hs & (w & Hw)).
  repeat split; try assumption.
  exists (secs :: w). rewrite Hw, <- app_assoc. reflexivity.
Qed.

Lemma transport_frame_retry rq n attempt st st' :
  transport_frame rq n (after_retry self rq attempt st) st' ->
  transport_frame rq (S n) st st'.
Proof.
  unfold after_retry.
  destruct (Z.of_nat attempt <? max_retries self - 1)%Z; intros H.
  - apply transport_frame_request. eapply transport_frame_sleep; eassumption.
  - apply transport_frame_request. assumption.
Qed.

Lemma attempt_returns rq attempt st r :
  session_request env (length (sent st)) rq = inr r ->
  is_http_error r = false ->
  attempt_body env self rq attempt st = (Return (inl r), log_request rq st).
Proof.
  intros Hreq Hok.
  unfold attempt_body, bind, try_except, do_request, raise_for_status.
  rewrite Hreq, Hok. reflexivity.
Qed.

Lemma attempt_timeout rq attempt st m :
  session_request env (length (sent st)) rq = inl (RequestsTimeout m) ->
  attempt_body env self rq attempt st =
  (Return (inr (OllamaTimeoutError
                  ("Request timed out after " ++ PyStr.of_int (timeout self)
                   ++ " seconds"))),
   after_retry self rq attempt st).
Proof.
  intros Hreq.
  unfold attempt_body, bind, try_except, do_request, after_retry.
  rewrite Hreq. unfold ret.
  destruct (Z.of_nat attempt <? max_retries self - 1)%Z; reflexivity.
Qed.

Lemma attempt_client_error rq attempt st r :
  session_request env (length (sent st)) rq = inr r ->
  (400 <= status_code r <= 499)%Z ->
  attempt_body env self rq attempt st =
  (Raise (OllamaConnectionError
            ("Ollama API error: " ++ PyStr.of_int (status_code r)
             ++ " - " ++ text r)),
   log_request rq st).
Proof.
  intros Hreq Hst.
  unfold attempt_body, bind, try_except, do_request, raise_for_status,
    is_http_error.
  rewrite Hreq.
  replace (400 <=? status_code r)%Z with true by (symmetry; apply Z.leb_le; lia).
  replace (status_code r <? 600)%Z with true by (symmetry; apply Z.ltb_lt; lia).
  simpl.
  replace (status_code r >=? 500)%Z with false
    by (symmetry; rewrite Z.geb_leb; apply Z.leb_gt; lia).
  reflexivity.
Qed.

(** Every way one turn of the loop can end. *)
Lemma attempt_body_cases rq attempt st :
  (exists r, attempt_body env self rq attempt st
             = (Return (inl r), log_request rq st))
  \/ (exists e, is_ollama_error e = true /\
                attempt_body env self rq attempt st
                = (Return (inr e), after_retry self rq attempt st))
  \/ (exists e, is_ollama_error e = true /\
                attempt_body env self rq attempt st
                = (Raise e, log_request rq st)).
Proof.
  unfold attempt_body, bind, try_except, do_request, raise_for_status,
    after_retry, time_sleep, raise, ret.
  destruct (session_request env (length (sent st)) rq) as [e | r].
  - destruct e as [m | m | m | m | resp | m | m | c m];
      try (right; left;
           destruct (Z.of_nat attempt <? max_retries self - 1)%Z;
           eexists; (split; [| reflexivity]); reflexivity).
    destruct (status_code resp >=? 500)%Z.
    + right; left.
      destruct (Z.of_nat attempt <? max_retries self - 1)%Z;
        eexists; (split; [| reflexivity]); reflexivity.
    + right; right. eexists; (split; [| reflexivity]); reflexivity.
  - destruct (is_http_error r).
    + destruct (status_code r >=? 500)%Z.
      * right; left.
        destruct (Z.of_nat attempt <? max_retries self - 1)%Z;
          eexists; (split; [| reflexivity]); reflexivity.
      * right; right. eexists; (split; [| reflexivity]); reflexivity.
    + left. exists r. reflexivity.
Qed.

(** One unfolding of the loop. *)
Lemma for_attempts_cons rq attempt rest last st :
  for_attempts env self rq (attempt :: rest) last st =
  match attempt_body env self rq attempt st with
  | (Return (inl response), st') => (Return response, st')
  | (Return (inr e), st') => for_attempts env self rq rest (Some e) st'
  | (Raise e, st') => (Raise e, st')
  end.
Proof.
  simpl. unfold bind at 1.
  destruct (attempt_body env self rq attempt st) as [[[r | e] | e] st'];
    reflexivity.
Qed.

(** The loop only sends copies of its request, at most one per attempt, and
    at least one if there is an attempt to make. *)
Lemma for_attempts_frame rq attempts :
  forall last st,
  exists n,
    (n <= length attempts)%nat /\
    (attempts <> [] -> (1 <= n)%nat) /\
    transport_frame rq n st (snd (for_attempts env self rq attempts last st)).
Proof.
  induction attempts as [| attempt rest IH]; intros last st.
  - exists 0%nat. split; [reflexivity |]. split; [congruence |].
    destruct last; apply transport_frame_refl.
  - rewrite for_attempts_cons.
    destruct (attempt_body_cases rq attempt st)
      as [(r & E) | [(e & He & E) | (e & He & E)]]; rewrite E.
    + exists 1%nat. simpl. split; [lia |]. split; [lia |].
      apply transport_frame_request, transport_frame_refl.
    + destruct (IH (Some e) (after_retry self rq attempt st))
        as (n & Hn & _ & Hf).
      exists (S n). simpl. split; [lia |]. split; [lia |].
      eapply transport_frame_retry; eassumption.
    + exists 1%nat. simpl. split; [lia |]. split; [lia |].
      apply transport_frame_request, transport_frame_refl.
Qed.

(** Once an attempt has been made, the loop fails with a typed failure
    only. *)
Lemma for_attempts_typed rq attempts :
  forall last st e,
  attempts <> [] \/ (exists e0, last = Some e0 /\ is_ollama_error e0 = true) ->
  fst (for_attempts env self rq attempts last st) = Raise e ->
  is_ollama_error e = true.
Proof.
  induction attempts as [| attempt rest IH]; intros last st e Hpre.
  - destruct Hpre as [Hne | (e0 & -> & He0)]; [congruence |].
    simpl. unfold raise; simpl. intros H; inversion H; subst; assumption.
  - rewrite for_attempts_cons.
    destruct (attempt_body_cases rq attempt st)
      as [(r & E) | [(e1 & He1 & E) | (e1 & He1 & E)]]; rewrite E.
    + simpl; discriminate.
    + apply IH. right. exists e1. split; [reflexivity | assumption].
    + simpl. intros H; inversion H; subst; assumption.
Qed.

(** [N] timeouts, then a response that passes [raise_for_status], with at
    least [N + 1] attempts left: the loop returns that response after
    waiting [2^a, ..., 2^(a+N-1)]. *)
Lemma for_attempts_timeouts rq resp :
  forall (N a k : nat) last st,
  (Z.of_nat (a + N) < max_retries self)%Z ->
  (forall i, (i < N)%nat ->
     exists m, session_request env (length (sent st) + i) rq
               = inl (RequestsTimeout m)) ->
  session_request env (length (sent st) + N) rq = inr resp ->
  is_http_error resp = false ->
  exists st',
    for_attempts env self rq (seq a (N + S k)) last st = (Return resp, st') /\
    sent st' = (sent st ++ repeat rq (S N))%list /\
    slept st' = (slept st
                 ++ map (fun attempt => (2 ^ Z.of_nat attempt)%Z) (seq a N))%list /\
    _models_cache st' = _models_cache st /\
    _models_cache_time st' = _models_cache_time st /\
    now_reads st' = now_reads st /\
    time_reads st' = time_reads st /\
    next_oid st' = next_oid st.
Proof.
  induction N as [| N IH]; intros a k last st Hlt Hfail Hok Hstatus.
  - simpl (seq a (0 + S k)). rewrite for_attempts_cons.
    rewrite Nat.add_0_r in Hok.
    rewrite (attempt_returns rq a st resp Hok Hstatus).
    eexists; split; [reflexivity |]. simpl.
    rewrite app_nil_r. repeat split; reflexivity.
  - simpl (seq a (S N + S k)). rewrite for_attempts_cons.
    destruct (Hfail 0%nat ltac:(lia)) as (m & Hm).
    rewrite Nat.add_0_r in Hm.
    rewrite (attempt_timeout rq a st m Hm).
    unfold after_retry.
    replace (Z.of_nat a <? max_retries self - 1)%Z with true
      by (symmetry; apply Z.ltb_lt; lia).
    set (st1 := log_sleep (2 ^ Z.of_nat a) (log_request rq st)).
    assert (Hlen : length (sent st1) = S (length (sent st))).
    { subst st1; simpl. rewrite length_app; simpl; lia. }
    destruct (IH (S a) k
                (Some (OllamaTimeoutError
                         ("Request timed out after "
                          ++ PyStr.of_int (timeout self) ++ " seconds")))
                st1) as (st' & Hrun & Hsent & Hslept & Hrest).
    + lia.
    + intros i Hi. rewrite Hlen.
      replace (S (length (sent st)) + i)%nat
        with (length (sent st) + S i)%nat by lia.
      apply Hfail; lia.
    + rewrite Hlen.
      replace (S (length (sent st)) + N)%nat
        with (length (sent st) + S N)%nat by lia.
      assumption.
    + assumption.
    + exists st'. split; [exact Hrun |].
      split.
      { rewrite Hsent. subst st1; simpl. rewrite <- app_assoc. reflexivity. }
      split.
      { rewrite Hslept. subst st1; simpl. rewrite <- app_assoc. reflexivity. }
      exact Hrest.
Qed.

Lemma total_app l1 l2 : total (l1 ++ l2) = (total l1 + total l2)%Z.
Proof.
  unfold total. induction l1 as [| x l1 IH]; simpl; [reflexivity |].
  rewrite IH. lia.
Qed.

(** [2^0 + ... + 2^(n-1) = 2^n - 1] *)
Lemma total_backoff_waits n : total (backoff_waits n) = (2 ^ Z.of_nat n - 1)%Z.
Proof.
  unfold backoff_waits.
  induction n as [| n IH]; [reflexivity |].
  rewrite seq_S, map_app, total_app, IH.
  change (total (map (fun attempt => (2 ^ Z.of_nat attempt)%Z) [(0 + n)%nat]))
    with (2 ^ Z.of_nat n + 0)%Z.
  rewrite Nat2Z.inj_succ, Z.pow_succ_r by lia. lia.
Qed.

End TransportFacts.

(** C1, as amended.  For every [N < max_retries]: if the first [N] attempts
    of a transport request each fail with a timeout and the next attempt
    returns a response that passes [raise_for_status], then [_make_request]
    returns that response after [N + 1] attempts, and the waits slept before
    it are [2^0, 2^1, ..., 2^(N-1)], a total of [2^N - 1]. *)
Theorem make_request_succeeds_after_timeouts
        (env : Env) (self : Service) (method path : string) (kwargs : Kwargs)
        (st : State) (N : nat) (resp : Response) :
  (Z.of_nat N < max_retries self)%Z ->
  (forall i, (i < N)%nat ->
     exists m, session_request env (length (sent st) + i)
                 (build_request self method path kwargs)
               = inl (RequestsTimeout m)) ->
  session_request env (length (sent st) + N)
    (build_request self method path kwargs) = inr resp ->
  is_http_error resp = false ->
  exists st',
    _make_request env self method path kwargs st = (Return resp, st') /\
    sent st' = (sent st
                ++ repeat (build_request self method path kwargs) (S N))%list /\
    slept st' = (slept st ++ backoff_waits N)%list /\
    total (slept st') = (total (slept st) + (2 ^ Z.of_nat N - 1))%Z.
Proof.
  intros Hlt Hfail Hok Hstatus.
  unfold _make_request, range.
  set (rq := build_request self method path kwargs) in *.
  replace (Z.to_nat (max_retries self))
    with (N + S (Z.to_nat (max_retries self) - N - 1))%nat by lia.
  destruct (for_attempts_timeouts env self rq resp N 0
              (Z.to_nat (max_retries self) - N - 1) None st
              Hlt Hfail Hok Hstatus)
    as (st' & Hrun & Hsent & Hslept & _).
  exists st'.
  split; [exact Hrun |]. split; [exact Hsent |].
  split; [exact Hslept |].
  rewrite Hslept, total_app.
  change (map (fun attempt => (2 ^ Z.of_nat attempt)%Z) (seq 0 N))
    with (backoff_waits N).
  rewrite total_backoff_waits. reflexivity.
Qed.

Lemma make_request_succeeds_after_timeouts_witness :
  let env := sample_env (timeouts_then_ok 2 PyNone) (fun _ => 0%Z) in
  let self := sample_service 3 in
  exists st',
    _make_request env self "GET" "api/tags" no_kwargs init_state
    = (Return (ok_response PyNone), st') /\
    sent st' = (sent init_state
                ++ repeat (build_request self "GET" "api/tags" no_kwargs) 3)%list /\
    slept st' = (slept init_state ++ backoff_waits 2)%list /\
    total (slept st') = (total (slept init_state) + (2 ^ Z.of_nat 2 - 1))%Z.
Proof.
  intros env self.
  apply (make_request_succeeds_after_timeouts env self "GET" "api/tags"
           no_kwargs init_state 2 (ok_response PyNone)).
  - reflexivity.
  - intros i Hi. exists "Read timed out.".
    destruct i as [| [| i]]; [reflexivity | reflexivity | lia].
  - reflexivity.
  - reflexivity.
Defined.

(** C1 as stated fails at [N = max_retries]: with [max_retries = 3], three
    timeouts use up every attempt; the request that would have succeeded is
    never sent, the call raises the timeout failure, and only the waits 1
    and 2 were slept. *)
Lemma make_request_N_eq_max_retries_fails :
  let env := sample_env (timeouts_then_ok 3 PyNone) (fun _ => 0%Z) in
  let self := sample_service 3 in
  let rq := build_request self "GET" "api/tags" no_kwargs in
  (Z.of_nat 3 <= max_retries self)%Z /\
  (forall i, (i < 3)%nat ->
     session_request env (length (sent init_state) + i) rq
     = inl (RequestsTimeout "Read timed out.")) /\
  session_request env (length (sent init_state) + 3) rq
  = inr (ok_response PyNone) /\
  is_http_error (ok_response PyNone) = false /\
  fst (_make_request env self "GET" "api/tags" no_kwargs init_state)
  = Raise (OllamaTimeoutError "Request timed out after 30 seconds") /\
  sent (snd (_make_request env self "GET" "api/tags" no_kwargs init_state))
  = [rq; rq; rq] /\
  slept (snd (_make_request env self "GET" "api/tags" no_kwargs init_state))
  = [1; 2]%Z.
Proof.
  intros env self rq.
  split; [discriminate |].
  split.
  { intros i Hi. destruct i as [| [| [| i]]]; try reflexivity. lia. }
  repeat split.
Qed.

(** C2, as amended.  When the first attempt of [_make_request] gets a
    response with status in [400, 499], that attempt is the only one: no
    retry, no backoff sleep, and the call fails at once with
    [OllamaConnectionError], the class also used for connection and
    server failures, whose message contains the status code and the
    response body. *)
Theorem make_request_client_error_not_retried
        (env : Env) (self : Service) (method path : string) (kwargs : Kwargs)
        (st : State) (r : Response) :
  (1 <= max_retries self)%Z ->
  session_request env (length (sent st))
    (build_request self method path kwargs) = inr r ->
  (400 <= status_code r <= 499)%Z ->
  exists st',
    _make_request env self method path kwargs st
    = (Raise (OllamaConnectionError
                ("Ollama API error: " ++ PyStr.of_int (status_code r)
                 ++ " - " ++ text r)),
       st') /\
    sent st' = (sent st ++ [build_request self method path kwargs])%list /\
    slept st' = slept st.
Proof.
  intros Hretries Hreq Hstatus.
  unfold _make_request, range.
  destruct (Z.to_nat (max_retries self)) as [| n] eqn:En; [lia |].
  cbn [seq]. rewrite for_attempts_cons.
  rewrite (attempt_client_error env self _ 0%nat st r Hreq Hstatus).
  eexists. split; [reflexivity |]. split; reflexivity.
Qed.

Lemma make_request_client_error_not_retried_witness :
  let env := sample_env (always_status 404 "Not Found" "model not found")
                        (fun _ => 0%Z) in
  let self := sample_service 3 in
  exists st',
    _make_request env self "POST" "api/generate" no_kwargs init_state
    = (Raise (OllamaConnectionError
                ("Ollama API error: " ++ PyStr.of_int 404
                 ++ " - " ++ "model not found")),
       st') /\
    sent st' = (sent init_state
                ++ [build_request self "POST" "api/generate" no_kwargs])%list /\
    slept st' = slept init_state.
Proof.
  intros env self.
  apply (make_request_client_error_not_retried env self "POST" "api/generate"
           no_kwargs init_state
           {| status_code := 404; reason := "Not Found";
              url_of := "http://localhost:11434/api/generate";
              text := "model not found";
              json := inl "Expecting value: line 1 column 1 (char 0)" |}).
  - discriminate.
  - reflexivity.
  - split; discriminate.
Defined.

(** C2 as stated fails on the failure kind: the failure raised for a 404
    is not a [ClientRequestFailure] nor of any class of its own; it is an
    [OllamaConnectionError], as is the failure raised when every connection
    is refused. *)
Lemma client_error_kind_not_distinct :
  let self := sample_service 3 in
  let env404 := sample_env (always_status 404 "Not Found" "model not found")
                           (fun _ => 0%Z) in
  let envdown := sample_env always_refused (fun _ => 0%Z) in
  exists e404 edown,
    fst (_make_request env404 self "POST" "api/generate" no_kwargs init_state)
    = Raise e404 /\
    fst (_make_request envdown self "POST" "api/generate" no_kwargs init_state)
    = Raise edown /\
    e404 = OllamaConnectionError "Ollama API error: 404 - model not found" /\
    edown = OllamaConnectionError
              "Failed to connect to Ollama at http://localhost:11434" /\
    class_name e404 <> "ClientRequestFailure" /\
    class_name e404 = class_name edown.
Proof.
  intros self env404 envdown.
  eexists. eexists.
  split; [reflexivity |]. split; [reflexivity |].
  split; [reflexivity |]. split; [reflexivity |].
  split; [discriminate | reflexivity].
Qed.

(** C10.  With [max_retries >= 1], every failure [_make_request] raises is
    an [OllamaConnectionError] or an [OllamaTimeoutError].  With
    [max_retries = 0] the loop has no attempt to make, nothing is sent, and
    the final [raise last_exception] is reached with [last_exception = None]:
    the failure is not one of the two typed ones. *)
Theorem make_request_failures_typed
        (env : Env) (self : Service) (method path : string) (kwargs : Kwargs)
        (st : State) :
  ((1 <= max_retries self)%Z ->
   forall e st',
     _make_request env self method path kwargs st = (Raise e, st') ->
     (exists m, e = OllamaConnectionError m)
     \/ (exists m, e = OllamaTimeoutError m))
  /\
  (max_retries self = 0%Z ->
   range (max_retries self) = [] /\
   _make_request env self method path kwargs st = py_raise None st /\
   exists e,
     _make_request env self method path kwargs st = (Raise e, st) /\
     is_ollama_error e = false).
Proof.
  split.
  - intros Hretries e st' Hrun.
    assert (He : is_ollama_error e = true).
    { apply (for_attempts_typed env self
               (build_request self method path kwargs)
               (range (max_retries self)) None st e).
      - left. unfold range.
        destruct (Z.to_nat (max_retries self)) eqn:En; [lia | discriminate].
      - unfold _make_request in Hrun. rewrite Hrun. reflexivity. }
    destruct e; try discriminate He; [left | right]; eexists; reflexivity.
  - intros Hzero. unfold _make_request. rewrite Hzero.
    split; [reflexivity |]. split; [reflexivity |].
    eexists. split; reflexivity.
Qed.

Lemma make_request_failures_typed_witness :
  let envdown := sample_env always_refused (fun _ => 0%Z) in
  ((exists m, OllamaConnectionError
                "Failed to connect to Ollama at http://localhost:11434"
              = OllamaConnectionError m)
   \/ (exists m, OllamaConnectionError
                   "Failed to connect to Ollama at http://localhost:11434"
                 = OllamaTimeoutError m))
  /\
  (range (max_retries (sample_service 0)) = [] /\
   _make_request envdown (sample_service 0) "GET" "api/tags" no_kwargs init_state
   = py_raise None init_state /\
   exists e,
     _make_request envdown (sample_service 0) "GET" "api/tags" no_kwargs init_state
     = (Raise e, init_state) /\
     is_ollama_error e = false).
Proof.
  intros envdown.
  split.
  - apply (proj1 (make_request_failures_typed envdown (sample_service 2)
                    "GET" "api/tags" no_kwargs init_state)
             ltac:(discriminate)
             (OllamaConnectionError
                "Failed to connect to Ollama at http://localhost:11434")
             (snd (_make_request envdown (sample_service 2) "GET" "api/tags"
                     no_kwargs init_state))).
    reflexivity.
  - apply (proj2 (make_request_failures_typed envdown (sample_service 0)
                    "GET" "api/tags" no_kwargs init_state)).
    reflexivity.
Defined.

(** * Properties of the generation workflows *)

Section StripFacts.

Variable p : ascii -> bool.

Lemma lstrip_by_all s : all_by p (PyStr.lstrip_by p s) = all_by p s.
Proof.
  induction s as [| c s IH]; simpl; [reflexivity |].
  destruct (p c) eqn:E; simpl; [exact IH | now rewrite E].
Qed.

Lemma rstrip_by_empty s : PyStr.is_empty (PyStr.rstrip_by p s) = all_by p s.
Proof.
  induction s as [| c s IH]; simpl; [reflexivity |].
  destruct (PyStr.rstrip_by p s) eqn:E; simpl in *.
  - rewrite <- IH, andb_true_r. destruct (p c); reflexivity.
  - rewrite <- IH, andb_false_r. reflexivity.
Qed.

End StripFacts.

(** [not s.strip()] holds exactly for the whitespace-only strings. *)
Lemma strip_is_empty s : PyStr.is_empty (PyStr.strip s) = all_space s.
Proof.
  unfold PyStr.strip.
  rewrite rstrip_by_empty, lstrip_by_all. reflexivity.
Qed.

Section MoreStripFacts.

Variable p : ascii -> bool.

Lemma is_empty_eq s : PyStr.is_empty s = true -> s = "".
Proof. destruct s; [reflexivity | discriminate]. Qed.

Lemma rstrip_by_all s : all_by p s = true -> PyStr.rstrip_by p s = "".
Proof.
  intros H. apply is_empty_eq. rewrite rstrip_by_empty. exact H.
Qed.

Lemma rstrip_by_app_all s t :
  all_by p t = true -> PyStr.rstrip_by p (s ++ t) = PyStr.rstrip_by p s.
Proof.
  intros Ht. induction s as [| c s IH]; simpl.
  - apply rstrip_by_all. exact Ht.
  - rewrite IH. reflexivity.
Qed.

Lemma lstrip_by_app_all s t :
  all_by p t = true -> PyStr.lstrip_by p (t ++ s) = PyStr.lstrip_by p s.
Proof.
  induction t as [| c t IH]; simpl; [reflexivity |].
  intros H. apply andb_true_iff in H. destruct H as [Hc Ht].
  rewrite Hc. apply IH. exact Ht.
Qed.

Lemma lstrip_by_idem s :
  PyStr.lstrip_by p (PyStr.lstrip_by p s) = PyStr.lstrip_by p s.
Proof.
  induction s as [| c s IH]; simpl; [reflexivity |].
  destruct (p c) eqn:E; [exact IH |]. simpl. rewrite E. reflexivity.
Qed.

Lemma rstrip_by_idem s :
  PyStr.rstrip_by p (PyStr.rstrip_by p s) = PyStr.rstrip_by p s.
Proof.
  induction s as [| c s IH]; simpl; [reflexivity |].
  destruct (PyStr.rstrip_by p s) as [| d r] eqn:E.
  - destruct (p c) eqn:Ec; simpl; [reflexivity |]. rewrite Ec. reflexivity.
  - simpl in IH |- *. rewrite IH. reflexivity.
Qed.

(** Stripping on the right keeps a first character that stays. *)
Lemma lstrip_by_rstrip_by s :
  PyStr.lstrip_by p (PyStr.rstrip_by p (PyStr.lstrip_by p s))
  = PyStr.rstrip_by p (PyStr.lstrip_by p s).
Proof.
  induction s as [| c s IH]; simpl; [reflexivity |].
  destruct (p c) eqn:E; [exact IH |].
  simpl. destruct (PyStr.rstrip_by p s); rewrite ?E; simpl; rewrite E;
    reflexivity.
Qed.

End MoreStripFacts.

Lemma strip_idem s : PyStr.strip (PyStr.strip s) = PyStr.strip s.
Proof.
  unfold PyStr.strip.
  rewrite lstrip_by_rstrip_by. apply rstrip_by_idem.
Qed.

Section TrimFacts.

Variable p : ascii -> bool.

Lemma lstrip_by_all_empty s : all_by p s = true -> PyStr.lstrip_by p s = "".
Proof.
  induction s as [| c s IH]; simpl; [reflexivity |].
  intros H. apply andb_true_iff in H. destruct H as [Hc Hs].
  rewrite Hc. apply IH. exact Hs.
Qed.

(** What [lstrip] removes satisfies [p], and what it leaves does not start
    with such a character. *)
Lemma lstrip_by_split s :
  exists a,
    s = a ++ PyStr.lstrip_by p s /\ all_by p a = true /\
    forall c, first_char (PyStr.lstrip_by p s) = Some c -> p c = false.
Proof.
  induction s as [| c s (a & Hs & Ha & Hfirst)]; simpl.
  - exists "". repeat split. discriminate.
  - destruct (p c) eqn:E.
    + exists (String c a). simpl. rewrite <- Hs, E, Ha. repeat split.
      exact Hfirst.
    + exists "". repeat split. simpl. intros d H. inversion H; subst.
      exact E.
Qed.

(** What [rstrip] removes satisfies [p], and what it leaves does not end
    with such a character. *)
Lemma rstrip_by_split s :
  exists b,
    s = PyStr.rstrip_by p s ++ b /\ all_by p b = true /\
    forall c, last_char (PyStr.rstrip_by p s) = Some c -> p c = false.
Proof.
  induction s as [| c s (b & Hs & Hb & Hlast)]; simpl.
  - exists "". repeat split. discriminate.
  - destruct (PyStr.rstrip_by p s) as [| d r] eqn:E.
    + simpl in Hs. destruct (p c) eqn:Ec.
      * exists (String c b). subst b. simpl. rewrite Ec, Hb.
        repeat split. discriminate.
      * exists b. subst b. simpl. repeat split; [exact Hb |].
        intros d H. inversion H; subst. exact Ec.
    + exists b. split; [simpl; rewrite Hs at 1; reflexivity |].
      split; [exact Hb |].
      intros c0 H. apply Hlast. exact H.
Qed.

(** [rstrip] leaves the first character where it is. *)
Lemma first_char_rstrip_by s c :
  first_char (PyStr.rstrip_by p s) = Some c -> first_char s = Some c.
Proof.
  destruct s as [| d s]; simpl; [discriminate |].
  destruct (PyStr.rstrip_by p s); [destruct (p d) |]; simpl;
    try discriminate; exact (fun H => H).
Qed.

(** A string that does not end with such a character is left as it is. *)
Lemma rstrip_by_clean s :
  (forall c, last_char s = Some c -> p c = false) -> PyStr.rstrip_by p s = s.
Proof.
  induction s as [| c s IH]; [reflexivity |].
  destruct s as [| d s].
  - intros H. simpl. rewrite (H c eq_refl). reflexivity.
  - intros H. specialize (IH H). simpl in IH |- *. rewrite IH. reflexivity.
Qed.

End TrimFacts.

(** [s.strip()] is [s] trimmed, and nothing else is. *)
Lemma strip_trimmed s : trimmed s (PyStr.strip s).
Proof.
  unfold PyStr.strip.
  destruct (lstrip_by_split PyStr.isspace s) as (a & Hs & Ha & Hfirst).
  destruct (rstrip_by_split PyStr.isspace (PyStr.lstrip_by PyStr.isspace s))
    as (b & Hu & Hb & Hlast).
  exists a, b. split; [rewrite <- Hu; exact Hs |].
  split; [exact Ha |]. split; [exact Hb |].
  split; [| exact Hlast].
  intros c H. apply Hfirst. apply (first_char_rstrip_by _ _ _ H).
Qed.

Lemma trimmed_unique s t : trimmed s t -> t = PyStr.strip s.
Proof.
  intros (a & b & -> & Ha & Hb & Hfirst & Hlast).
  unfold PyStr.strip.
  rewrite (lstrip_by_app_all PyStr.isspace (t ++ b) a Ha).
  destruct t as [| c t].
  - simpl. rewrite (lstrip_by_all_empty PyStr.isspace b Hb). reflexivity.
  - cbn [append PyStr.lstrip_by]. rewrite (Hfirst c eq_refl).
    change (String c (t ++ b)) with (String c t ++ b).
    rewrite (rstrip_by_app_all PyStr.isspace (String c t) b Hb).
    symmetry. apply rstrip_by_clean. exact Hlast.
Qed.

Section WorkflowFacts.

Variable env : Env.
Variable self : Service.

(** What [refine_prompt] makes of a response the transport returned. *)
Lemma refine_prompt_run objective target_model fp st st' resp data s :
  str_format env (template (get_meta_prompt_config env)) objective = inr fp ->
  _make_request env self "POST" "api/generate"
    (refine_kwargs (py_or target_model (default_model env)) fp
       (get_meta_prompt_config env)) st
  = (Return resp, st') ->
  json resp = inr data ->
  py_get data "response" (PyStr "") = Return (PyStr s) ->
  refine_prompt env self objective target_model st
  = if all_space s
    then (Raise (OllamaConnectionError
                   "Received empty response from Ollama during prompt refinement"),
          st')
    else (Return (PyStr.strip s), st').
Proof.
  intros Hfmt Hreq Hjson Htext.
  unfold refine_prompt, format_prompt. rewrite Hfmt.
  unfold bind at 1, ret at 1. unfold try_except.
  unfold bind at 1. rewrite Hreq.
  unfold bind at 1, response_json. rewrite Hjson. unfold ret at 1.
  unfold bind at 1, lift at 1. rewrite Htext.
  unfold bind at 1, lift at 1. cbn [py_strip].
  rewrite strip_is_empty.
  destruct (all_space s); reflexivity.
Qed.

(** What [test_prompt] makes of a response the transport returned. *)
Lemma test_prompt_run system_prompt user_input model temperature timeout_
      st st' resp data s :
  _make_request env self "POST" "api/generate"
    (test_kwargs (py_or model (default_model env))
       (full_prompt_of system_prompt user_input)
       (if_not_none temperature (default_temperature env))
       (if_not_none timeout_ (PyInt (timeout self)))) (tick_time st)
  = (Return resp, st') ->
  json resp = inr data ->
  py_get data "response" (PyStr "") = Return (PyStr s) ->
  test_prompt env self system_prompt user_input model temperature timeout_ st
  = if all_space s
    then (Raise (OllamaConnectionError
                   "Received empty response from Ollama during prompt testing"),
          tick_time st')
    else (Return
            [ ("response", PyStr (PyStr.strip s));
              ("execution_time",
                PyFloat (py_round (time_time env (time_reads st')
                                   - time_time env (time_reads st)) 2));
              ("model", py_or model (default_model env));
              ("temperature",
                if_not_none temperature (default_temperature env));
              ("timeout", if_not_none timeout_ (PyInt (timeout self)));
              ("system_prompt", PyStr system_prompt);
              ("user_input", PyStr user_input) ],
          tick_time st').
Proof.
  intros Hreq Hjson Htext.
  unfold test_prompt.
  unfold bind at 1, time_now at 1. unfold try_except.
  unfold bind at 1. rewrite Hreq.
  unfold bind at 1, time_now at 1.
  unfold bind at 1, response_json. rewrite Hjson. unfold ret at 1.
  unfold bind at 1, lift at 1. rewrite Htext.
  unfold bind at 1, lift at 1. cbn [py_strip].
  rewrite strip_is_empty.
  destruct (all_space s); reflexivity.
Qed.

End WorkflowFacts.

(** C6.  Let the transport return a response whose decoded body is a dict
    with the text [s] under [response] (or [s] empty when the key is
    absent).  If [s] is empty or whitespace only, [refine_prompt] and
    [test_prompt] both raise [OllamaConnectionError] with their "empty
    response" message.  Otherwise both succeed with [s] trimmed: the one
    string [t], not empty, that [s] is made of with whitespace only around
    it and that neither starts nor ends with whitespace; [refine_prompt]
    returns it, [test_prompt] returns it under [response]. *)
Theorem blank_generation_response_is_failure
        (env : Env) (self : Service) (st st' : State) (resp : Response)
        (data : PyVal) (s : string) :
  json resp = inr data ->
  py_get data "response" (PyStr "") = Return (PyStr s) ->
  (forall objective target_model fp,
     str_format env (template (get_meta_prompt_config env)) objective = inr fp ->
     _make_request env self "POST" "api/generate"
       (refine_kwargs (py_or target_model (default_model env)) fp
          (get_meta_prompt_config env)) st
     = (Return resp, st') ->
     (all_space s = true ->
      refine_prompt env self objective target_model st
      = (Raise (OllamaConnectionError
                  "Received empty response from Ollama during prompt refinement"),
         st'))
     /\
     (all_space s = false ->
      exists t,
        trimmed s t /\ t <> "" /\ (forall t', trimmed s t' -> t' = t) /\
        refine_prompt env self objective target_model st = (Return t, st')))
  /\
  (forall system_prompt user_input model temperature timeout_,
     _make_request env self "POST" "api/generate"
       (test_kwargs (py_or model (default_model env))
          (full_prompt_of system_prompt user_input)
          (if_not_none temperature (default_temperature env))
          (if_not_none timeout_ (PyInt (timeout self)))) (tick_time st)
     = (Return resp, st') ->
     (all_space s = true ->
      test_prompt env self system_prompt user_input model temperature timeout_ st
      = (Raise (OllamaConnectionError
                  "Received empty response from Ollama during prompt testing"),
         tick_time st'))
     /\
     (all_space s = false ->
      exists t result,
        trimmed s t /\ t <> "" /\ (forall t', trimmed s t' -> t' = t) /\
        test_prompt env self system_prompt user_input model temperature
          timeout_ st
        = (Return result, tick_time st') /\
        dict_get result "response" = Some (PyStr t))).
Proof.
  intros Hjson Htext.
  assert (Hne : all_space s = false -> PyStr.strip s <> "").
  { intros Hs E. rewrite <- strip_is_empty, E in Hs. discriminate Hs. }
  assert (Huniq : forall t', trimmed s t' -> t' = PyStr.strip s)
    by (intros t'; apply trimmed_unique).
  split.
  - intros objective target_model fp Hfmt Hreq.
    rewrite (refine_prompt_run env self objective target_model fp st st'
               resp data s Hfmt Hreq Hjson Htext).
    split; intros Hs; rewrite Hs; [reflexivity |].
    exists (PyStr.strip s).
    split; [apply strip_trimmed |]. split; [exact (Hne Hs) |].
    split; [exact Huniq | reflexivity].
  - intros system_prompt user_input model temperature timeout_ Hreq.
    rewrite (test_prompt_run env self system_prompt user_input model
               temperature timeout_ st st' resp data s Hreq Hjson Htext).
    split; intros Hs; rewrite Hs; [reflexivity |].
    exists (PyStr.strip s). eexists.
    split; [apply strip_trimmed |]. split; [exact (Hne Hs) |].
    split; [exact Huniq |]. split; reflexivity.
Qed.

(** A body of three spaces is refused by both workflows; of the body
    ["  Hello there "] both return ["Hello there"]. *)
Lemma blank_generation_response_witness :
  let blank := PyDict [("response", PyStr "   ")] in
  let text := PyDict [("response", PyStr "  Hello there ")] in
  let env_of body := sample_env (always_ok body) (fun _ => 0%Z) in
  let self := sample_service 3 in
  let refine_sent body :=
    snd (_make_request (env_of body) self "POST" "api/generate"
           (refine_kwargs (PyStr "llama2") "Objective: Review code"
              (get_meta_prompt_config (env_of body))) init_state) in
  let test_sent body :=
    snd (_make_request (env_of body) self "POST" "api/generate"
           (test_kwargs (PyStr "llama2") (full_prompt_of "S" "U")
              (PyFloat (7 # 10)) (PyInt 30)) (tick_time init_state)) in
  (refine_prompt (env_of blank) self "Review code" PyNone init_state
   = (Raise (OllamaConnectionError
               "Received empty response from Ollama during prompt refinement"),
      refine_sent blank)
   /\
   test_prompt (env_of blank) self "S" "U" PyNone PyNone PyNone init_state
   = (Raise (OllamaConnectionError
               "Received empty response from Ollama during prompt testing"),
      tick_time (test_sent blank)))
  /\
  (refine_prompt (env_of text) self "Review code" PyNone init_state
   = (Return "Hello there", refine_sent text)
   /\
   exists result,
     test_prompt (env_of text) self "S" "U" PyNone PyNone PyNone init_state
     = (Return result, tick_time (test_sent text)) /\
     dict_get result "response" = Some (PyStr "Hello there")).
Proof.
  intros blank text env_of self refine_sent test_sent.
  assert (Htrim : trimmed "  Hello there " "Hello there").
  { exists "  ", " ". repeat split; intros c H; inversion H; reflexivity. }
  split; split.
  - exact (proj1 (proj1 (blank_generation_response_is_failure
                           (env_of blank) self init_state _
                           (ok_response blank) blank "   " eq_refl eq_refl)
                    "Review code" PyNone "Objective: Review code"
                    eq_refl eq_refl) eq_refl).
  - exact (proj1 (proj2 (blank_generation_response_is_failure
                           (env_of blank) self init_state _
                           (ok_response blank) blank "   " eq_refl eq_refl)
                    "S" "U" PyNone PyNone PyNone eq_refl) eq_refl).
  - destruct (proj2 (proj1 (blank_generation_response_is_failure
                              (env_of text) self init_state _
                              (ok_response text) text "  Hello there "
                              eq_refl eq_refl)
                       "Review code" PyNone "Objective: Review code"
                       eq_refl eq_refl) eq_refl)
      as (t & _ & _ & Huniq & Hrun).
    rewrite (Huniq _ Htrim). exact Hrun.
  - destruct (proj2 (proj2 (blank_generation_response_is_failure
                              (env_of text) self init_state _
                              (ok_response text) text "  Hello there "
                              eq_refl eq_refl)
                       "S" "U" PyNone PyNone PyNone eq_refl) eq_refl)
      as (t & result & _ & _ & Huniq & Hrun & Hresp).
    exists result. rewrite (Huniq _ Htrim). split; [exact Hrun | exact Hresp].
Defined.

(** C5.  [test_prompt] resolves its parameters one by one.  A temperature
    that was given (anything but [None], so 0.0 too) is the temperature of
    the request and of the result, whatever the configured default is.
    With a default of 0.7 and [temperature = 0.0], the result has
    [temperature == 0.0]. *)
Theorem test_prompt_keeps_explicit_temperature
        (env : Env) (self : Service) (system_prompt user_input : string)
        (model temperature timeout_ : PyVal) (st st' : State)
        (resp : Response) (data : PyVal) (s : string) :
  temperature <> PyNone ->
  _make_request env self "POST" "api/generate"
    (test_kwargs (py_or model (default_model env))
       (full_prompt_of system_prompt user_input)
       temperature
       (if_not_none timeout_ (PyInt (timeout self)))) (tick_time st)
  = (Return resp, st') ->
  json resp = inr data ->
  py_get data "response" (PyStr "") = Return (PyStr s) ->
  all_space s = false ->
  exists result,
    test_prompt env self system_prompt user_input model temperature timeout_ st
    = (Return result, tick_time st') /\
    dict_get result "temperature" = Some temperature /\
    dict_get result "model" = Some (py_or model (default_model env)) /\
    dict_get result "timeout"
    = Some (if_not_none timeout_ (PyInt (timeout self))) /\
    request_temperature
      (build_request self "POST" "api/generate"
         (test_kwargs (py_or model (default_model env))
            (full_prompt_of system_prompt user_input)
            temperature
            (if_not_none timeout_ (PyInt (timeout self)))))
    = Some temperature.
Proof.
  intros Hgiven Hreq Hjson Htext Hblank.
  assert (Ht : if_not_none temperature (default_temperature env) = temperature).
  { destruct temperature; try reflexivity. congruence. }
  eexists. split.
  - rewrite (test_prompt_run env self system_prompt user_input model
               temperature timeout_ st st' resp data s);
      [rewrite Hblank, Ht; reflexivity | rewrite Ht; exact Hreq
       | exact Hjson | exact Htext].
  - repeat split.
Qed.

Lemma test_prompt_keeps_explicit_temperature_witness :
  let body := PyDict [("response", PyStr "Hello")] in
  let env := sample_env (always_ok body) (fun _ => 0%Z) in
  let self := sample_service 3 in
  default_temperature env = PyFloat (7 # 10) /\
  exists result,
    test_prompt env self "S" "U" PyNone (PyFloat 0) PyNone init_state
    = (Return result,
       tick_time
         (snd (_make_request env self "POST" "api/generate"
                 (test_kwargs (PyStr "llama2") (full_prompt_of "S" "U")
                    (PyFloat 0) (PyInt 30)) (tick_time init_state)))) /\
    dict_get result "temperature" = Some (PyFloat 0) /\
    dict_get result "model" = Some (PyStr "llama2") /\
    dict_get result "timeout" = Some (PyInt 30) /\
    request_temperature
      (build_request self "POST" "api/generate"
         (test_kwargs (PyStr "llama2") (full_prompt_of "S" "U")
            (PyFloat 0) (PyInt 30)))
    = Some (PyFloat 0).
Proof.
  intros body env self. split; [reflexivity |].
  apply (test_prompt_keeps_explicit_temperature env self "S" "U"
           PyNone (PyFloat 0) PyNone init_state _
           (ok_response body) body "Hello").
  - discriminate.
  - reflexivity.
  - reflexivity.
  - reflexivity.
  - reflexivity.
Defined.

(** Closes a goal about the state left by the body of a workflow once the
    transport has answered: every branch ends in the same state. *)
Ltac same_state :=
  unfold reraise_or_wrap, raise, ret; simpl;
  repeat match goal with
         | |- context [if ?b then _ else _] => destruct b; simpl
         end;
  reflexivity.

Section RequestFacts.

Variable env : Env.
Variable self : Service.

(** The handler of the workflows leaves the state alone. *)
Lemma reraise_or_wrap_state (A : Type) prefix e st :
  snd (reraise_or_wrap (A := A) prefix e st) = st.
Proof. unfold reraise_or_wrap. destruct (is_ollama_error e); reflexivity. Qed.

Lemma refine_prompt_sent objective target_model st :
  sent (snd (refine_prompt env self objective target_model st)) =
  match str_format env (template (get_meta_prompt_config env)) objective with
  | inl _ => sent st
  | inr fp =>
      sent (snd (_make_request env self "POST" "api/generate"
                   (refine_kwargs (py_or target_model (default_model env)) fp
                      (get_meta_prompt_config env)) st))
  end.
Proof.
  unfold refine_prompt, format_prompt.
  destruct (str_format env (template (get_meta_prompt_config env)) objective)
    as [e | fp]; [reflexivity |].
  unfold bind at 1, ret at 1. unfold try_except. unfold bind at 1.
  destruct (_make_request env self "POST" "api/generate"
              (refine_kwargs (py_or target_model (default_model env)) fp
                 (get_meta_prompt_config env)) st) as [[resp | e] st1].
  - unfold bind, response_json, lift, raise, ret.
    destruct (json resp) as [msg | data]; [same_state |].
    destruct (py_get data "response" (PyStr "")) as [r | e]; [| same_state].
    destruct (py_strip r) as [t | e]; same_state.
  - same_state.
Qed.

Lemma test_prompt_sent system_prompt user_input model temperature timeout_ st :
  sent (snd (test_prompt env self system_prompt user_input model temperature
               timeout_ st)) =
  sent (snd (_make_request env self "POST" "api/generate"
               (test_kwargs (py_or model (default_model env))
                  (full_prompt_of system_prompt user_input)
                  (if_not_none temperature (default_temperature env))
                  (if_not_none timeout_ (PyInt (timeout self))))
               (tick_time st))).
Proof.
  unfold test_prompt.
  unfold bind at 1, time_now at 1. unfold try_except. unfold bind at 1.
  destruct (_make_request env self "POST" "api/generate"
              (test_kwargs (py_or model (default_model env))
                 (full_prompt_of system_prompt user_input)
                 (if_not_none temperature (default_temperature env))
                 (if_not_none timeout_ (PyInt (timeout self))))
              (tick_time st)) as [[resp | e] st1].
  - unfold bind, time_now, response_json, lift, raise, ret.
    destruct (json resp) as [msg | data]; [same_state |].
    destruct (py_get data "response" (PyStr "")) as [r | e]; [| same_state].
    destruct (py_strip r) as [t | e]; same_state.
  - same_state.
Qed.

(** The requests one call of [_make_request] sends. *)
Lemma make_request_sent method path kwargs st :
  exists n,
    (Z.of_nat n <= Z.max 0 (max_retries self))%Z /\
    ((1 <= max_retries self)%Z -> (1 <= n)%nat) /\
    transport_frame (build_request self method path kwargs) n st
      (snd (_make_request env self method path kwargs st)).
Proof.
  unfold _make_request.
  destruct (for_attempts_frame env self
              (build_request self method path kwargs)
              (range (max_retries self)) None st) as (n & Hn & Hpos & Hf).
  exists n. unfold range in *. rewrite length_seq in Hn.
  split; [lia |]. split; [| exact Hf].
  intros H. apply Hpos.
  destruct (Z.to_nat (max_retries self)) eqn:E; [lia | discriminate].
Qed.

End RequestFacts.

(** C3, as amended.  [refine_prompt] and [test_prompt] resolve the model to
    the caller's value when it is truthy and to [config.default_model]
    otherwise, and every request they send carries that value as [model].
    Nothing checks that a model was found: with [max_retries >= 1] (and a
    template that formats) at least one request is sent whatever the
    resolved value is, [None] included. *)
Theorem generation_requests_carry_resolved_model
        (env : Env) (self : Service) (st : State) :
  (forall objective target_model,
     exists n rq,
       sent (snd (refine_prompt env self objective target_model st))
       = (sent st ++ repeat rq n)%list /\
       request_model rq = Some (py_or target_model (default_model env)) /\
       ((1 <= max_retries self)%Z ->
        (exists fp, str_format env (template (get_meta_prompt_config env))
                      objective = inr fp) ->
        (1 <= n)%nat))
  /\
  (forall system_prompt user_input model temperature timeout_,
     exists n rq,
       sent (snd (test_prompt env self system_prompt user_input model
                    temperature timeout_ st))
       = (sent st ++ repeat rq n)%list /\
       request_model rq = Some (py_or model (default_model env)) /\
       ((1 <= max_retries self)%Z -> (1 <= n)%nat)).
Proof.
  split.
  - intros objective target_model.
    rewrite refine_prompt_sent.
    destruct (str_format env (template (get_meta_prompt_config env)) objective)
      as [e | fp] eqn:Hfmt.
    + exists 0%nat,
        (build_request self "POST" "api/generate"
           (refine_kwargs (py_or target_model (default_model env)) ""
              (get_meta_prompt_config env))).
      split; [simpl; now rewrite app_nil_r |]. split; [reflexivity |].
      intros _ (fp & Hfp). discriminate Hfp.
    + destruct (make_request_sent env self "POST" "api/generate"
                  (refine_kwargs (py_or target_model (default_model env)) fp
                     (get_meta_prompt_config env)) st)
        as (n & _ & Hpos & Hframe).
      exists n. eexists. split; [apply Hframe |]. split; [reflexivity |].
      intros H _. exact (Hpos H).
  - intros system_prompt user_input model temperature timeout_.
    rewrite test_prompt_sent.
    destruct (make_request_sent env self "POST" "api/generate"
                (test_kwargs (py_or model (default_model env))
                   (full_prompt_of system_prompt user_input)
                   (if_not_none temperature (default_temperature env))
                   (if_not_none timeout_ (PyInt (timeout self))))
                (tick_time st))
      as (n & _ & Hpos & Hframe).
    exists n. eexists. split; [apply Hframe |]. split; [reflexivity |].
    exact Hpos.
Qed.

Lemma generation_requests_carry_resolved_model_witness :
  let env := sample_env (always_ok (PyDict [("response", PyStr "ok")]))
                        (fun _ => 0%Z) in
  let self := sample_service 3 in
  (exists n rq,
     sent (snd (refine_prompt env self "Review code" (PyStr "") init_state))
     = (sent init_state ++ repeat rq n)%list /\
     request_model rq = Some (PyStr "llama2") /\
     (1 <= n)%nat)
  /\
  (exists n rq,
     sent (snd (test_prompt env self "S" "U" (PyStr "mistral") PyNone PyNone
                  init_state))
     = (sent init_state ++ repeat rq n)%list /\
     request_model rq = Some (PyStr "mistral") /\
     (1 <= n)%nat).
Proof.
  intros env self.
  split.
  - destruct (proj1 (generation_requests_carry_resolved_model env self
                       init_state) "Review code" (PyStr ""))
      as (n & rq & Hsent & Hmodel & Hpos).
    exists n, rq. split; [exact Hsent |]. split; [exact Hmodel |].
    apply Hpos; [discriminate |].
    exists "Objective: Review code". reflexivity.
  - destruct (proj2 (generation_requests_carry_resolved_model env self
                       init_state) "S" "U" (PyStr "mistral") PyNone PyNone)
      as (n & rq & Hsent & Hmodel & Hpos).
    exists n, rq. split; [exact Hsent |]. split; [exact Hmodel |].
    apply Hpos. discriminate.
Defined.

(** C3 as stated fails when no model is present: with no caller model and
    [config.default_model = None], neither workflow fails; each sends its
    request with [model = None] and returns the answer. *)
Lemma null_model_is_sent_not_refused :
  let env := sample_env_with (always_ok (PyDict [("response", PyStr "ok")]))
                             (fun _ => 0%Z) PyNone (PyFloat (7 # 10)) in
  let self := sample_service 3 in
  py_or PyNone (default_model env) = PyNone /\
  fst (refine_prompt env self "Review code" PyNone init_state) = Return "ok" /\
  map request_model
      (sent (snd (refine_prompt env self "Review code" PyNone init_state)))
  = [Some PyNone] /\
  (exists result,
     fst (test_prompt env self "S" "U" PyNone PyNone PyNone init_state)
     = Return result /\
     dict_get result "model" = Some PyNone) /\
  map request_model
      (sent (snd (test_prompt env self "S" "U" PyNone PyNone PyNone init_state)))
  = [Some PyNone].
Proof.
  intros env self.
  split; [reflexivity |]. split; [reflexivity |]. split; [reflexivity |].
  split; [| reflexivity].
  eexists. split; reflexivity.
Qed.

(** * Properties of the model listing and its cache *)

Lemma round_half_even_close q :
  (Qabs (inject_Z (round_half_even q) - q) <= 1 # 2)%Q.
Proof.
  unfold round_half_even.
  pose proof (Qfloor_le q) as Hlo.
  pose proof (Qlt_floor q) as Hhi.
  rewrite inject_Z_plus in Hhi. change (inject_Z 1) with 1%Q in Hhi.
  apply Qabs_Qle_condition.
  destruct (q - inject_Z (Qfloor q) ?= 1 # 2)%Q eqn:E.
  - apply Qeq_alt in E.
    destruct (Z.even (Qfloor q));
      [| rewrite inject_Z_plus; change (inject_Z 1) with 1%Q]; split; lra.
  - apply Qlt_alt in E. split; lra.
  - apply Qgt_alt in E. rewrite inject_Z_plus.
    change (inject_Z 1) with 1%Q. split; lra.
Qed.


(** ** Rounding to a float *)




Lemma inject_Z_pow2_pos z : (0 <= z)%Z -> (0 < inject_Z (2 ^ z))%Q.
Proof.
  intros H. change 0%Q with (inject_Z 0). rewrite <- Zlt_Qlt.
  apply Z.pow_pos_nonneg; lia.
Qed.

Lemma Qshift_up q a :
  (0 <= a)%Z -> (Qshift q a == q * inject_Z (2 ^ a))%Q.
Proof.
  intros H. unfold Qshift.
  replace (0 <=? a)%Z with true by (symmetry; apply Z.leb_le; exact H).
  reflexivity.
Qed.



Lemma round_half_even_floor q : (Qfloor q <= round_half_even q)%Z.
Proof.
  unfold round_half_even.
  destruct (q - inject_Z (Qfloor q) ?= 1 # 2)%Q;
    [destruct (Z.even (Qfloor q)) | |]; lia.
Qed.

(** The whole seconds of a span of microseconds, as
    [int(d.total_seconds())] computes them through a float: exact up to
    [2^33] seconds. *)
Lemma int_truediv_seconds (delta : Z) :
  (0 <= delta < 2 ^ 33 * 1000000)%Z ->
  exists x, int_truediv delta 1000000 = Return x /\
            Qtruncate x = (delta / 1000000)%Z.
Proof.
  intros [H0 Hlt]. unfold int_truediv.
  set (q := (inject_Z delta / inject_Z 1000000)%Q).
  destruct (Z.eq_dec delta 0) as [-> | Hne].
  { eexists. split; reflexivity. }
  assert (Hpos : (0 < delta)%Z) by lia.
  assert (Hnum : Qnum q = delta /\ Qden q = 1000000%positive).
  { unfold q. cbn. split; [lia | reflexivity]. }
  destruct Hnum as [Hnum Hden].
  assert (Hq0 : (0 < q)%Q).
  { unfold Qlt. rewrite Hnum. cbn. lia. }
  assert (Hq33 : (q < inject_Z (2 ^ 33))%Q).
  { unfold Qlt. rewrite Hnum, Hden. cbn [inject_Z Qnum Qden]. lia. }
  set (N := (delta / 1000000)%Z).
  assert (HN : (N * 1000000 <= delta /\ delta + 1 <= (N + 1) * 1000000)%Z).
  { unfold N. pose proof (Z.div_mod delta 1000000 ltac:(lia)).
    pose proof (Z.mod_pos_bound delta 1000000 ltac:(lia)). lia. }
  assert (HN0 : (0 <= N)%Z) by (apply Z.div_pos; lia).
  (* the exponent is at most 32 *)
  assert (HE : (Qlog2 q <= 32)%Z).
  { unfold Qlog2. rewrite Hnum, Hden.
    change (Z.log2 (Z.pos 1000000)) with 19%Z.
    rewrite Z.abs_eq by lia.
    assert (HL : (Z.log2 delta < 53)%Z)
      by (apply Z.log2_lt_pow2; [lia |]; lia).
    destruct (Qle_bool (Qshift 1 (Z.log2 delta - 19)) (Qabs q)) eqn:Et;
      [| lia].
    destruct (Z_le_gt_dec (Z.log2 delta - 19) 32) as [Hle | Hgt];
      [exact Hle | exfalso].
    replace (Z.log2 delta - 19)%Z with 33%Z in Et by lia.
    apply Qle_bool_iff in Et. rewrite Qabs_pos in Et by lra.
    rewrite Qshift_up in Et by lia. lra. }
  unfold to_float.
  replace (Qeq_bool q 0) with false.
  2:{ symmetry. apply not_true_is_false. intros H. apply Qeq_bool_iff in H.
      lra. }
  cbv zeta.
  set (a := (52 - Z.max (Qlog2 q) (-1022))%Z).
  assert (Ha : (20 <= a <= 1074)%Z) by (unfold a; lia).
  replace (Z.max (Qlog2 q) (-1022) - 52)%Z with (- a)%Z by (unfold a; lia).
  rewrite Z.opp_involutive.
  set (S := (2 ^ a)%Z).
  assert (HS : (2 ^ 20 <= S)%Z) by (apply Z.pow_le_mono_r; lia).
  assert (HSpos : (0 < inject_Z S)%Q) by (apply inject_Z_pow2_pos; lia).
  set (m := round_half_even (Qshift q a)).
  assert (Hx : (Qshift q a == q * inject_Z S)%Q) by (apply Qshift_up; lia).
  assert (Hqlo : (inject_Z N <= q)%Q).
  { unfold Qle. rewrite Hnum, Hden. cbn [inject_Z Qnum Qden]. lia. }
  assert (Hqhi : (q * inject_Z 1000000 + 1 <= inject_Z (N + 1) * inject_Z 1000000)%Q).
  { assert (E : (q * inject_Z 1000000 == inject_Z delta)%Q)
      by (unfold q; field; discriminate).
    rewrite E. change 1%Q with (inject_Z 1).
    rewrite <- inject_Z_mult, <- inject_Z_plus, <- Zle_Qle. lia. }
  assert (Hmlo : (N * S <= m)%Z).
  { apply Z.le_trans with (Qfloor (Qshift q a)); [| apply round_half_even_floor].
    rewrite <- (Qfloor_Z (N * S)). apply Qfloor_resp_le.
    rewrite Hx, inject_Z_mult.
    apply Qmult_le_compat_r; [exact Hqlo | apply Qlt_le_weak, HSpos]. }
  assert (Hmhi : (m < (N + 1) * S)%Z).
  { pose proof (round_half_even_close (Qshift q a)) as Hc. fold m in Hc.
    apply Qabs_Qle_condition in Hc. destruct Hc as [_ Hc].
    rewrite Hx in Hc.
    rewrite Zlt_Qlt, inject_Z_mult.
    assert (HS' : (inject_Z 1000000 < inject_Z S)%Q)
      by (rewrite <- Zlt_Qlt; lia).
    change (inject_Z 1000000) with (1000000 # 1)%Q in *.
    rewrite inject_Z_plus in *. change (inject_Z 1) with 1%Q in *.
    nra. }
  assert (Hshift : Qshift (inject_Z m) (- a) = (inject_Z m / inject_Z S)%Q).
  { unfold Qshift. replace (0 <=? - a)%Z with false
      by (symmetry; apply Z.leb_gt; lia).
    rewrite Z.opp_involutive. reflexivity. }
  rewrite Hshift.
  assert (Hm0 : (0 <= m)%Z) by nia.
  assert (Hr : (Qabs (inject_Z m / inject_Z S) < inject_Z (2 ^ 1024))%Q).
  { rewrite Qabs_pos.
    - apply Qlt_shift_div_r; [exact HSpos |].
      rewrite <- inject_Z_mult, <- Zlt_Qlt.
      assert (N + 1 <= 2 ^ 33)%Z by lia. nia.
    - apply Qle_shift_div_l; [exact HSpos |].
      rewrite Qmult_0_l. change 0%Q with (inject_Z 0). rewrite <- Zle_Qle.
      exact Hm0. }
  replace (Qle_bool (inject_Z (2 ^ 1024)) (Qabs (inject_Z m / inject_Z S)))
    with false
    by (symmetry; apply not_true_is_false; intros H;
        apply Qle_bool_iff in H; revert H; apply Qlt_not_le; exact Hr).
  eexists. split; [reflexivity |].
  unfold Qtruncate, Qdiv, Qinv, inject_Z. cbn [Qnum Qden].
  destruct S as [| pS | pS] eqn:ES; try lia.
  cbn [Qmult Qnum Qden]. rewrite Z.mul_1_r. change (1 * pS)%positive with pS.
  rewrite Z.quot_div_nonneg by lia.
  symmetry. apply (Z.div_unique m (Z.pos pS) N (m - N * Z.pos pS)); lia.
Qed.




(** A record of 4 000 000 bytes is listed with 3.8 MB, one of 262 144 bytes
    (a quarter of a MB, a tie) with 0.2. *)
Example size_mb_examples :
  size_mb_of (PyDict [("size", PyInt 4000000)]) = Return (PyFloat (38 # 10)) /\
  size_mb_of (PyDict [("size", PyInt 262144)]) = Return (PyFloat (2 # 10)) /\
  size_mb_of (PyDict [("size", PyStr "big")])
  = Raise (TypeError "unsupported operand type(s) for /: 'str' and 'int'").
Proof. repeat split. Qed.

Section CacheFacts.

Variable env : Env.
Variable self : Service.

(** The validity test never writes the cache. *)
Lemma is_cache_valid_cache st :
  _models_cache (snd (_is_cache_valid env self st)) = _models_cache st /\
  _models_cache_time (snd (_is_cache_valid env self st)) = _models_cache_time st /\
  sent (snd (_is_cache_valid env self st)) = sent st.
Proof.
  unfold _is_cache_valid.
  destruct (_models_cache st) eqn:Ec, (_models_cache_time st) eqn:Et;
    simpl; rewrite ?Ec, ?Et; repeat split.
Qed.

(** The test succeeds only on a snapshot. *)
Lemma is_cache_valid_true st st' :
  _is_cache_valid env self st = (Return true, st') ->
  exists c t,
    _models_cache st = Some c /\ _models_cache_time st = Some t /\
    (datetime_now env (now_reads st) < expiry self t)%Z /\ st' = tick_now st.
Proof.
  unfold _is_cache_valid.
  destruct (_models_cache st) as [c |], (_models_cache_time st) as [t |];
    try discriminate.
  unfold bind, now, ret. intros H. inversion H as [[Hlt Hst]].
  exists c, t. repeat split. apply Z.ltb_lt. exact Hlt.
Qed.

Lemma is_cache_valid_fresh st c t :
  _models_cache st = Some c -> _models_cache_time st = Some t ->
  _is_cache_valid env self st
  = (Return (datetime_now env (now_reads st) <? expiry self t)%Z, tick_now st).
Proof.
  intros Hc Ht. unfold _is_cache_valid. rewrite Hc, Ht. reflexivity.
Qed.

Lemma is_cache_valid_unset st :
  _models_cache st = None \/ _models_cache_time st = None ->
  _is_cache_valid env self st = (Return false, st).
Proof.
  unfold _is_cache_valid.
  intros [H | H]; rewrite H; [| destruct (_models_cache st)]; reflexivity.
Qed.

(** A failed fetch leaves both cache attributes as they were. *)
Lemma fetch_models_raise_keeps_cache st e st' :
  fetch_models env self st = (Raise e, st') ->
  _models_cache st' = _models_cache st /\
  _models_cache_time st' = _models_cache_time st.
Proof.
  unfold fetch_models, try_except. unfold bind at 1.
  destruct (make_request_sent env self "GET" "api/tags" no_kwargs st)
    as (n & _ & _ & Hc & Ht & _).
  destruct (_make_request env self "GET" "api/tags" no_kwargs st)
    as [[resp | e0] st1]; simpl in Hc, Ht.
  - unfold bind at 1, response_json.
    destruct (json resp) as [msg | data].
    + unfold raise at 1, reraise_or_wrap. simpl.
      intros H; inversion H; subst. split; assumption.
    + unfold ret at 1. unfold bind at 1, new_list at 1.
      unfold bind at 1, lift at 1.
      destruct (rbind (py_get data "models" (PyList [])) py_iter) as [raw | e1].
      * unfold bind at 1, lift at 1.
        destruct (model_infos raw) as [infos | e1].
        -- discriminate.
        -- unfold reraise_or_wrap.
           destruct (is_ollama_error e1); unfold raise;
             intros H; inversion H; subst; split; assumption.
      * unfold reraise_or_wrap.
        destruct (is_ollama_error e1); unfold raise;
          intros H; inversion H; subst; split; assumption.
  - unfold reraise_or_wrap.
    destruct (is_ollama_error e0); unfold raise;
      intros H; inversion H; subst; split; assumption.
Qed.

(** A fetch whose transport returns a listing that decodes and maps. *)
Lemma fetch_models_success st resp st1 data raw infos :
  _make_request env self "GET" "api/tags" no_kwargs st = (Return resp, st1) ->
  json resp = inr data ->
  rbind (py_get data "models" (PyList [])) py_iter = Return raw ->
  model_infos raw = Return infos ->
  fetch_models env self st
  = (Return {| oid := next_oid st1; items := infos |},
     with_cache_time (Some (datetime_now env (now_reads st1)))
       (tick_now
          (with_cache (Some {| oid := S (next_oid st1); items := infos |})
             (tick_oid (tick_oid st1))))).
Proof.
  intros Hreq Hjson Hraw Hinfos.
  unfold fetch_models, try_except. unfold bind at 1. rewrite Hreq.
  unfold bind at 1, response_json. rewrite Hjson. unfold ret at 1.
  unfold bind at 1, new_list at 1.
  unfold bind at 1, lift at 1. rewrite Hraw.
  unfold bind at 1, lift at 1. rewrite Hinfos.
  reflexivity.
Qed.

(** A fetch sends what its transport call sends. *)
Lemma fetch_models_sent st :
  sent (snd (fetch_models env self st))
  = sent (snd (_make_request env self "GET" "api/tags" no_kwargs st)).
Proof.
  unfold fetch_models, try_except. unfold bind at 1.
  destruct (_make_request env self "GET" "api/tags" no_kwargs st)
    as [[resp | e] st1]; [| same_state].
  unfold bind at 1, response_json.
  destruct (json resp) as [msg | data]; [same_state |].
  unfold ret at 1. unfold bind at 1, new_list at 1.
  unfold bind at 1, lift at 1.
  destruct (rbind (py_get data "models" (PyList [])) py_iter) as [raw | e];
    [| same_state].
  unfold bind at 1, lift at 1.
  destruct (model_infos raw) as [infos | e]; same_state.
Qed.

(** The first attempt succeeds: one request, no wait. *)
Lemma make_request_first_try method path kwargs st resp :
  (1 <= max_retries self)%Z ->
  session_request env (length (sent st)) (build_request self method path kwargs)
  = inr resp ->
  is_http_error resp = false ->
  _make_request env self method path kwargs st
  = (Return resp, log_request (build_request self method path kwargs) st).
Proof.
  intros Hretries Hreq Hok.
  unfold _make_request, range.
  destruct (Z.to_nat (max_retries self)) as [| n] eqn:En; [lia |].
  cbn [seq]. rewrite for_attempts_cons.
  rewrite (attempt_returns env self _ 0%nat st resp Hreq Hok). reflexivity.
Qed.

End CacheFacts.

(** ** The cache operations within the range of [datetime] *)

Lemma deadline_in_range_dec (self : Service) (t : Z) :
  deadline_in_range self t \/ ~ deadline_in_range self t.
Proof.
  unfold deadline_in_range.
  destruct (Z_le_gt_dec (Z.abs (cache_duration self / 86400)) 999999999);
    [| right; lia].
  destruct (Z_le_gt_dec datetime_min (expiry self t)); [| right; lia].
  destruct (Z_le_gt_dec (expiry self t) datetime_max); [left | right]; lia.
Qed.

Section BoundedFacts.

Variable env : Env.
Variable self : Service.

(** Within the range the test is the comparison of the reading with the
    deadline. *)
Lemma bounded_valid_in_range st c t :
  _models_cache st = Some c -> _models_cache_time st = Some t ->
  deadline_in_range self t ->
  Bounded._is_cache_valid env self st
  = (Return (datetime_now env (now_reads st) <? expiry self t)%Z, tick_now st).
Proof.
  intros Hc Ht [Hd [Hlo Hhi]].
  unfold Bounded._is_cache_valid. rewrite Hc, Ht.
  unfold bind at 1, timedelta_seconds. cbv zeta.
  replace (Z.abs (cache_duration self / 86400) <=? 999999999)%Z with true
    by (symmetry; apply Z.leb_le; exact Hd).
  cbn [lift_sum]. unfold ret at 1.
  unfold bind at 1, datetime_add. fold (expiry self t).
  replace (datetime_min <=? expiry self t)%Z with true
    by (symmetry; apply Z.leb_le; exact Hlo).
  replace (expiry self t <=? datetime_max)%Z with true
    by (symmetry; apply Z.leb_le; exact Hhi).
  reflexivity.
Qed.

(** Beyond it the deadline cannot be built: [OverflowError], before the
    clock is read. *)
Lemma bounded_valid_out_of_range st c t :
  _models_cache st = Some c -> _models_cache_time st = Some t ->
  ~ deadline_in_range self t ->
  exists msg,
    Bounded._is_cache_valid env self st = (Raise (OverflowError msg), st).
Proof.
  intros Hc Ht Hout.
  unfold Bounded._is_cache_valid. rewrite Hc, Ht.
  unfold bind at 1, timedelta_seconds. cbv zeta.
  destruct (Z.abs (cache_duration self / 86400) <=? 999999999)%Z eqn:Ed;
    [| eexists; reflexivity].
  cbn [lift_sum]. unfold ret at 1.
  unfold bind at 1, datetime_add. fold (expiry self t).
  destruct ((datetime_min <=? expiry self t)%Z
            && (expiry self t <=? datetime_max)%Z) eqn:Er;
    [| eexists; reflexivity].
  exfalso. apply Hout.
  apply andb_true_iff in Er. destruct Er as [Hlo Hhi].
  apply Z.leb_le in Ed, Hlo, Hhi. repeat split; assumption.
Qed.

Lemma bounded_valid_unset st :
  _models_cache st = None \/ _models_cache_time st = None ->
  Bounded._is_cache_valid env self st = (Return false, st).
Proof.
  unfold Bounded._is_cache_valid.
  intros [H | H]; rewrite H; [| destruct (_models_cache st)]; reflexivity.
Qed.

(** The three cases of the test. *)
Lemma bounded_valid_cases st :
  (Bounded._is_cache_valid env self st = (Return false, st) /\
   (_models_cache st = None \/ _models_cache_time st = None))
  \/
  (exists c t,
     _models_cache st = Some c /\ _models_cache_time st = Some t /\
     deadline_in_range self t /\
     Bounded._is_cache_valid env self st
     = (Return (datetime_now env (now_reads st) <? expiry self t)%Z,
        tick_now st))
  \/
  (exists c t msg,
     _models_cache st = Some c /\ _models_cache_time st = Some t /\
     ~ deadline_in_range self t /\
     Bounded._is_cache_valid env self st = (Raise (OverflowError msg), st)).
Proof.
  destruct (_models_cache st) as [c |] eqn:Hc;
    [| left; split;
       [apply bounded_valid_unset; left; exact Hc | left; reflexivity]].
  destruct (_models_cache_time st) as [t |] eqn:Ht;
    [| left; split;
       [apply bounded_valid_unset; right; exact Ht | right; reflexivity]].
  right. destruct (deadline_in_range_dec self t) as [Hin | Hout].
  - left. exists c, t.
    split; [reflexivity |]. split; [reflexivity |]. split; [exact Hin |].
    apply (bounded_valid_in_range st c t Hc Ht Hin).
  - right.
    destruct (bounded_valid_out_of_range st c t Hc Ht Hout) as (msg & H).
    exists c, t, msg.
    split; [reflexivity |]. split; [reflexivity |]. split; [exact Hout |].
    exact H.
Qed.

(** Where the deadline of the snapshot, if there is one, can be built, the
    listing is the one of section [Cache]. *)
Lemma bounded_listing_agrees use_cache st :
  (forall c t,
     _models_cache st = Some c -> _models_cache_time st = Some t ->
     deadline_in_range self t) ->
  Bounded.get_available_models env self use_cache st
  = get_available_models env self use_cache st.
Proof.
  intros Hin.
  unfold Bounded.get_available_models, get_available_models.
  destruct use_cache; [| reflexivity].
  unfold bind.
  destruct (_models_cache st) as [c |] eqn:Hc.
  - destruct (_models_cache_time st) as [t |] eqn:Ht.
    + rewrite (bounded_valid_in_range st c t Hc Ht (Hin c t eq_refl eq_refl)).
      rewrite (is_cache_valid_fresh env self st c t Hc Ht). reflexivity.
    + rewrite (bounded_valid_unset st (or_intror Ht)).
      rewrite (is_cache_valid_unset env self st (or_intror Ht)). reflexivity.
  - rewrite (bounded_valid_unset st (or_introl Hc)).
    rewrite (is_cache_valid_unset env self st (or_introl Hc)). reflexivity.
Qed.

(** Where besides the snapshot is between 0 and [2^33] seconds old, the
    report on the cache is the one of section [Cache]. *)
Lemma bounded_cache_info_agrees st :
  (forall c t,
     _models_cache st = Some c -> _models_cache_time st = Some t ->
     deadline_in_range self t /\
     (0 <= datetime_now env (now_reads st) - t < 2 ^ 33 * 1000000)%Z) ->
  Bounded.get_cache_info env self st = get_cache_info env self st.
Proof.
  intros Hin. unfold Bounded.get_cache_info, get_cache_info.
  destruct (_models_cache st) as [c |] eqn:Hc; [| reflexivity].
  destruct (_models_cache_time st) as [t |] eqn:Ht; [| reflexivity].
  destruct (Hin c t eq_refl eq_refl) as [Hd Hage].
  destruct (int_truediv_seconds _ Hage) as (x & Hx & Htrunc).
  unfold bind, now, lift. rewrite Hx.
  rewrite (bounded_valid_in_range (tick_now st) c t Hc Ht Hd).
  rewrite (is_cache_valid_fresh env self (tick_now st) c t Hc Ht).
  rewrite Htrunc, Z.quot_div_nonneg by lia. reflexivity.
Qed.

(** A listing that bypasses the cache is the fetch. *)
Lemma bounded_bypass st :
  Bounded.get_available_models env self false st = fetch_models env self st.
Proof. reflexivity. Qed.

(** A listing over an expired snapshot is the fetch, after one reading of
    the clock. *)
Lemma bounded_expired st c t :
  _models_cache st = Some c -> _models_cache_time st = Some t ->
  deadline_in_range self t ->
  (cache_duration self * 1000000 <= datetime_now env (now_reads st) - t)%Z ->
  Bounded.get_available_models env self true st
  = fetch_models env self (tick_now st).
Proof.
  intros Hc Ht Hin Hage.
  unfold Bounded.get_available_models. unfold bind at 1.
  rewrite (bounded_valid_in_range st c t Hc Ht Hin).
  replace (datetime_now env (now_reads st) <? expiry self t)%Z with false
    by (symmetry; apply Z.ltb_ge; unfold expiry; lia).
  reflexivity.
Qed.

(** A listing over a fresh snapshot is a copy of it. *)
Lemma bounded_fresh st c t :
  _models_cache st = Some c -> _models_cache_time st = Some t ->
  deadline_in_range self t ->
  (datetime_now env (now_reads st) - t < cache_duration self * 1000000)%Z ->
  Bounded.get_available_models env self true st
  = (Return {| oid := next_oid st; items := items c |},
     tick_oid (tick_now st)).
Proof.
  intros Hc Ht Hin Hage.
  unfold Bounded.get_available_models. unfold bind at 1.
  rewrite (bounded_valid_in_range st c t Hc Ht Hin).
  replace (datetime_now env (now_reads st) <? expiry self t)%Z with true
    by (symmetry; apply Z.ltb_lt; unfold expiry; lia).
  unfold cached_models. cbn [_models_cache tick_now]. rewrite Hc.
  reflexivity.
Qed.

(** What a failed fetch raises. *)
Lemma fetch_models_transport_failure st e st1 :
  _make_request env self "GET" "api/tags" no_kwargs st = (Raise e, st1) ->
  fetch_models env self st
  = (Raise (if is_ollama_error e then e
            else OllamaConnectionError
                   ("Failed to parse models response: " ++ str_exc e)),
     st1).
Proof.
  intros Hreq. unfold fetch_models, try_except. unfold bind at 1.
  rewrite Hreq. unfold reraise_or_wrap.
  destruct (is_ollama_error e); reflexivity.
Qed.

Lemma fetch_models_undecodable st resp st1 msg :
  _make_request env self "GET" "api/tags" no_kwargs st = (Return resp, st1) ->
  json resp = inl msg ->
  fetch_models env self st
  = (Raise (OllamaConnectionError
              ("Failed to parse models response: " ++ msg)),
     st1).
Proof.
  intros Hreq Hjson. unfold fetch_models, try_except. unfold bind at 1.
  rewrite Hreq. unfold bind at 1, response_json. rewrite Hjson. reflexivity.
Qed.

(** A fetch that returns: the list it returns and the snapshot it leaves
    are two new objects. *)
Lemma fetch_models_returns st l st' :
  fetch_models env self st = (Return l, st') ->
  exists st1,
    next_oid st1 = next_oid st /\
    l = {| oid := next_oid st1; items := items l |} /\
    _models_cache st' = Some {| oid := S (next_oid st1); items := items l |} /\
    next_oid st' = S (S (next_oid st1)).
Proof.
  unfold fetch_models, try_except. unfold bind at 1.
  destruct (make_request_sent env self "GET" "api/tags" no_kwargs st)
    as (n & _ & _ & _ & _ & _ & _ & Hoid & _).
  destruct (_make_request env self "GET" "api/tags" no_kwargs st)
    as [[resp | e0] st1]; simpl in Hoid.
  2:{ unfold reraise_or_wrap.
      destruct (is_ollama_error e0); unfold raise; discriminate. }
  unfold bind at 1, response_json.
  destruct (json resp) as [msg | data]; [discriminate |].
  unfold ret at 1. unfold bind at 1, new_list at 1.
  unfold bind at 1, lift at 1.
  destruct (rbind (py_get data "models" (PyList [])) py_iter) as [raw | e1].
  2:{ unfold reraise_or_wrap.
      destruct (is_ollama_error e1); unfold raise; discriminate. }
  unfold bind at 1, lift at 1.
  destruct (model_infos raw) as [infos | e1].
  2:{ unfold reraise_or_wrap.
      destruct (is_ollama_error e1); unfold raise; discriminate. }
  intros H. inversion H; subst. exists st1.
  split; [exact Hoid |]. repeat split.
Qed.

(** A fetch that raises gives out no identity. *)
Lemma fetch_models_raise_keeps_oid st e st' :
  fetch_models env self st = (Raise e, st') ->
  _models_cache st' = _models_cache st /\ (next_oid st <= next_oid st')%nat.
Proof.
  intros H.
  split; [exact (proj1 (fetch_models_raise_keeps_cache env self st e st' H)) |].
  revert H.
  unfold fetch_models, try_except. unfold bind at 1.
  destruct (make_request_sent env self "GET" "api/tags" no_kwargs st)
    as (n & _ & _ & _ & _ & _ & _ & Hoid & _).
  destruct (_make_request env self "GET" "api/tags" no_kwargs st)
    as [[resp | e0] st1]; simpl in Hoid.
  2:{ unfold reraise_or_wrap.
      destruct (is_ollama_error e0); unfold raise;
        intros H; inversion H; subst; lia. }
  unfold bind at 1, response_json.
  destruct (json resp) as [msg | data].
  { unfold raise at 1, reraise_or_wrap. simpl.
    intros H; inversion H; subst. lia. }
  unfold ret at 1. unfold bind at 1, new_list at 1.
  unfold bind at 1, lift at 1.
  destruct (rbind (py_get data "models" (PyList [])) py_iter) as [raw | e1].
  2:{ unfold reraise_or_wrap.
      destruct (is_ollama_error e1); unfold raise;
        intros H; inversion H; subst; cbn; lia. }
  unfold bind at 1, lift at 1.
  destruct (model_infos raw) as [infos | e1]; [discriminate |].
  unfold reraise_or_wrap.
  destruct (is_ollama_error e1); unfold raise;
    intros H; inversion H; subst; cbn; lia.
Qed.

(** A listing keeps the identities in order, and the list it returns is a
    new object: neither the snapshot it found nor the one it leaves. *)
Lemma bounded_listing_heap use_cache st res st' :
  heap_ok st ->
  Bounded.get_available_models env self use_cache st = (res, st') ->
  heap_ok st' /\
  forall l,
    res = Return l ->
    (next_oid st <= oid l < next_oid st')%nat /\
    (forall c, _models_cache st = Some c -> oid l <> oid c) /\
    (forall c, _models_cache st' = Some c -> oid l <> oid c).
Proof.
  intros Hheap.
  assert (Hfetch : forall st0 : State,
            _models_cache st0 = _models_cache st ->
            next_oid st0 = next_oid st ->
            fetch_models env self st0 = (res, st') ->
            heap_ok st' /\
            forall l,
              res = Return l ->
              (next_oid st <= oid l < next_oid st')%nat /\
              (forall c, _models_cache st = Some c -> oid l <> oid c) /\
              (forall c, _models_cache st' = Some c -> oid l <> oid c)).
  { intros st0 Hc0 Ho0 Hrun. destruct res as [l | e].
    - destruct (fetch_models_returns st0 l st' Hrun)
        as (st1 & Ho1 & Hl & Hcache & Hnext).
      rewrite Ho1, Ho0 in Hl, Hcache, Hnext.
      split.
      + intros c Hc. rewrite Hcache in Hc. inversion Hc; subst c.
        cbn [oid]. lia.
      + intros l0 Hl0. inversion Hl0; subst l0.
        rewrite Hl. cbn [oid]. split; [lia |]. split.
        * intros c Hc. specialize (Hheap c Hc). lia.
        * intros c Hc. rewrite Hcache in Hc. inversion Hc; subst c.
          cbn [oid]. lia.
    - destruct (fetch_models_raise_keeps_oid st0 e st' Hrun) as [Hc Ho].
      split; [| discriminate].
      intros c Hc'. rewrite Hc, Hc0 in Hc'. specialize (Hheap c Hc'). lia. }
  unfold Bounded.get_available_models. unfold bind at 1.
  destruct use_cache; [| unfold ret at 1; apply Hfetch; reflexivity].
  destruct (bounded_valid_cases st)
    as [[Hv _] | [(c & t & Hc & Ht & Hin & Hv) | (c & t & msg & Hc & _ & _ & Hv)]];
    rewrite Hv.
  - apply Hfetch; reflexivity.
  - destruct (datetime_now env (now_reads st) <? expiry self t)%Z.
    + unfold cached_models. cbn [_models_cache tick_now]. rewrite Hc.
      intros H. inversion H; subst.
      pose proof (Hheap c Hc) as Hlt.
      split.
      * intros c0 Hc0. cbn in Hc0 |- *. rewrite ?Hc in Hc0.
        inversion Hc0; subst c0. lia.
      * intros l Hl. inversion Hl; subst l. cbn.
        split; [lia |].
        split; intros c0 Hc0; rewrite ?Hc in Hc0; inversion Hc0; subst c0;
          lia.
    + apply Hfetch; reflexivity.
  - intros H. inversion H; subst. split; [exact Hheap | discriminate].
Qed.

End BoundedFacts.

(** C9.  Whenever [get_available_models] raises, [_models_cache] and
    [_models_cache_time] have the values they had before the call.  A
    fetch that is forced, because the cache is bypassed or because the
    snapshot has expired, raises when the transport raises (the typed
    failure as it is, any other wrapped) and when the body does not decode:
    an expired snapshot is not served in its place.  So the cache is
    replaced only by a call that returns. *)
Theorem failed_fetch_keeps_cache (env : Env) (self : Service) (st : State) :
  (forall use_cache e st',
     Bounded.get_available_models env self use_cache st = (Raise e, st') ->
     _models_cache st' = _models_cache st /\
     _models_cache_time st' = _models_cache_time st)
  /\
  (forall e st1,
     _make_request env self "GET" "api/tags" no_kwargs st = (Raise e, st1) ->
     Bounded.get_available_models env self false st
     = (Raise (if is_ollama_error e then e
               else OllamaConnectionError
                      ("Failed to parse models response: " ++ str_exc e)),
        st1))
  /\
  (forall resp st1 msg,
     _make_request env self "GET" "api/tags" no_kwargs st = (Return resp, st1) ->
     json resp = inl msg ->
     Bounded.get_available_models env self false st
     = (Raise (OllamaConnectionError
                 ("Failed to parse models response: " ++ msg)),
        st1))
  /\
  (forall c t,
     _models_cache st = Some c -> _models_cache_time st = Some t ->
     deadline_in_range self t ->
     (cache_duration self * 1000000
      <= datetime_now env (now_reads st) - t)%Z ->
     (forall e st1,
        _make_request env self "GET" "api/tags" no_kwargs (tick_now st)
        = (Raise e, st1) ->
        Bounded.get_available_models env self true st
        = (Raise (if is_ollama_error e then e
                  else OllamaConnectionError
                         ("Failed to parse models response: " ++ str_exc e)),
           st1)
        /\ _models_cache st1 = Some c /\ _models_cache_time st1 = Some t)
     /\
     (forall resp st1 msg,
        _make_request env self "GET" "api/tags" no_kwargs (tick_now st)
        = (Return resp, st1) ->
        json resp = inl msg ->
        Bounded.get_available_models env self true st
        = (Raise (OllamaConnectionError
                    ("Failed to parse models response: " ++ msg)),
           st1)
        /\ _models_cache st1 = Some c /\ _models_cache_time st1 = Some t))
  /\
  (forall use_cache res st',
     Bounded.get_available_models env self use_cache st = (res, st') ->
     _models_cache st' <> _models_cache st
     \/ _models_cache_time st' <> _models_cache_time st ->
     exists models, res = Return models).
Proof.
  assert (Hraise : forall use_cache e st',
            Bounded.get_available_models env self use_cache st = (Raise e, st') ->
            _models_cache st' = _models_cache st /\
            _models_cache_time st' = _models_cache_time st).
  { intros use_cache e st'.
    unfold Bounded.get_available_models. unfold bind at 1.
    destruct use_cache;
      [| unfold ret at 1; apply fetch_models_raise_keeps_cache].
    destruct (bounded_valid_cases env self st)
      as [[Hv _] | [(c & t & Hc & Ht & Hin & Hv)
                   | (c & t & msg & Hc & _ & _ & Hv)]];
      rewrite Hv.
    - apply fetch_models_raise_keeps_cache.
    - destruct (datetime_now env (now_reads st) <? expiry self t)%Z.
      + unfold cached_models. cbn [_models_cache tick_now]. rewrite Hc.
        discriminate.
      + intros H. apply fetch_models_raise_keeps_cache in H. exact H.
    - intros H. inversion H; subst. split; reflexivity. }
  split; [exact Hraise |].
  split.
  { intros e st1 Hreq. rewrite bounded_bypass.
    apply fetch_models_transport_failure. exact Hreq. }
  split.
  { intros resp st1 msg Hreq Hjson. rewrite bounded_bypass.
    apply (fetch_models_undecodable env self st resp st1 msg Hreq Hjson). }
  split.
  { intros c t Hc Ht Hin Hage.
    pose proof (bounded_expired env self st c t Hc Ht Hin Hage) as Hexp.
    split.
    - intros e st1 Hreq.
      assert (Hrun := fetch_models_transport_failure env self _ e st1 Hreq).
      rewrite <- Hexp in Hrun. split; [exact Hrun |].
      destruct (Hraise true _ _ Hrun) as [H1 H2].
      rewrite H1, H2. split; assumption.
    - intros resp st1 msg Hreq Hjson.
      assert (Hrun := fetch_models_undecodable env self _ resp st1 msg
                        Hreq Hjson).
      rewrite <- Hexp in Hrun. split; [exact Hrun |].
      destruct (Hraise true _ _ Hrun) as [H1 H2].
      rewrite H1, H2. split; assumption. }
  intros use_cache res st' Hrun Hchanged.
  destruct res as [models | e]; [exists models; reflexivity |].
  destruct (Hraise use_cache e st' Hrun) as [H1 H2].
  destruct Hchanged as [H | H]; contradiction.
Qed.

(** A listing endpoint whose body is not JSON, asked with the cache
    bypassed and asked over a snapshot that expired 100 seconds ago. *)
Lemma failed_fetch_keeps_cache_witness :
  let env := sample_env (always_status 200 "OK" "<html>")
               (fun _ => 400000000%Z) in
  let self := sample_service 3 in
  let c := {| oid := 0%nat; items := [PyDict []] |} in
  let st := with_cache_time (Some 0%Z)
              (with_cache (Some c) (tick_oid init_state)) in
  let rq := build_request self "GET" "api/tags" no_kwargs in
  let failure :=
    OllamaConnectionError
      ("Failed to parse models response: "
       ++ "Expecting value: line 1 column 1 (char 0)") in
  (Bounded.get_available_models env self false st
   = (Raise failure, log_request rq st)
   /\ _models_cache (log_request rq st) = _models_cache st
   /\ _models_cache_time (log_request rq st) = _models_cache_time st)
  /\
  (Bounded.get_available_models env self true st
   = (Raise failure, log_request rq (tick_now st))
   /\ _models_cache (log_request rq (tick_now st)) = Some c
   /\ _models_cache_time (log_request rq (tick_now st)) = Some 0%Z).
Proof.
  intros env self c st rq failure.
  set (resp := {| status_code := 200; reason := "OK";
                  url_of := "http://localhost:11434/api/tags";
                  text := "<html>";
                  json := inl "Expecting value: line 1 column 1 (char 0)" |}).
  split.
  - assert (H : Bounded.get_available_models env self false st
                = (Raise failure, log_request rq st)).
    { apply (proj1 (proj2 (proj2 (failed_fetch_keeps_cache env self st)))
               resp (log_request rq st)
               "Expecting value: line 1 column 1 (char 0)");
        reflexivity. }
    split; [exact H |].
    exact (proj1 (failed_fetch_keeps_cache env self st) false _ _ H).
  - assert (Hin : deadline_in_range self 0)
      by (vm_compute; repeat split; discriminate).
    assert (Hage : (cache_duration self * 1000000
                    <= datetime_now env (now_reads st) - 0)%Z)
      by (vm_compute; discriminate).
    apply (proj2 (proj1 (proj2 (proj2 (proj2
             (failed_fetch_keeps_cache env self st)))) c 0%Z
             eq_refl eq_refl Hin Hage)
             resp (log_request rq (tick_now st))
             "Expecting value: line 1 column 1 (char 0)");
      reflexivity.
Defined.

(** C4, for a deadline that can be built.  With [use_cache] true and a
    snapshot younger than the TTL, [get_available_models] returns a new
    list with the items of the snapshot and sends nothing.  The list a
    call returns is a new object each time: not the snapshot the call
    found and not the one it leaves, in every state whose identities are
    in order.  They are in order in the state [__init__] leaves, and every
    call of [get_available_models] keeps them so, as do the other methods
    (lemma [heap_ok_kept]).  So, starting without a snapshot: a first call
    fetches with one request, a second call before the deadline sends
    nothing and returns the same items in another list, and a third call
    at or after the deadline sends again. *)
Theorem cached_listing_saves_network_calls (env : Env) (self : Service) :
  (forall st c t,
     _models_cache st = Some c ->
     _models_cache_time st = Some t ->
     deadline_in_range self t ->
     (datetime_now env (now_reads st) - t < cache_duration self * 1000000)%Z ->
     exists copy st',
       Bounded.get_available_models env self true st = (Return copy, st') /\
       items copy = items c /\
       oid copy = next_oid st /\
       sent st' = sent st /\
       _models_cache st' = Some c /\
       _models_cache_time st' = Some t)
  /\
  (heap_ok init_state /\
   forall use_cache st res st',
     heap_ok st ->
     Bounded.get_available_models env self use_cache st = (res, st') ->
     heap_ok st' /\
     forall l,
       res = Return l ->
       (next_oid st <= oid l < next_oid st')%nat /\
       (forall c, _models_cache st = Some c -> oid l <> oid c) /\
       (forall c, _models_cache st' = Some c -> oid l <> oid c))
  /\
  (forall st resp data raw infos,
     let rq := build_request self "GET" "api/tags" no_kwargs in
     let t0 := datetime_now env (now_reads st) in
     _models_cache st = None ->
     (1 <= max_retries self)%Z ->
     session_request env (length (sent st)) rq = inr resp ->
     is_http_error resp = false ->
     json resp = inr data ->
     rbind (py_get data "models" (PyList [])) py_iter = Return raw ->
     model_infos raw = Return infos ->
     deadline_in_range self t0 ->
     (datetime_now env (S (now_reads st)) - t0
      < cache_duration self * 1000000)%Z ->
     (cache_duration self * 1000000
      <= datetime_now env (S (S (now_reads st))) - t0)%Z ->
     exists first st1 second st2 snapshot,
       Bounded.get_available_models env self true st = (Return first, st1) /\
       Bounded.get_available_models env self true st1 = (Return second, st2) /\
       items first = infos /\
       items second = infos /\
       _models_cache st1 = Some snapshot /\
       _models_cache st2 = Some snapshot /\
       items snapshot = infos /\
       oid first <> oid second /\
       oid first <> oid snapshot /\
       oid second <> oid snapshot /\
       sent st1 = (sent st ++ [rq])%list /\
       sent st2 = (sent st ++ [rq])%list /\
       exists n,
         (1 <= n)%nat /\
         sent (snd (Bounded.get_available_models env self true st2))
         = ((sent st ++ [rq]) ++ repeat rq n)%list).
Proof.
  split; [| split].
  - intros st c t Hc Ht Hin Hage.
    rewrite (bounded_fresh env self st c t Hc Ht Hin Hage).
    eexists. eexists. split; [reflexivity |].
    cbn. repeat split; assumption.
  - split; [intros c Hc; discriminate Hc |].
    intros use_cache st res st'. apply bounded_listing_heap.
  - intros st resp data raw infos rq t0 Hnone Hretries Hreq Hok Hjson Hraw
           Hinfos Hin Hfresh Hout.
    (* first call *)
    assert (H1 : Bounded.get_available_models env self true st
                 = (Return {| oid := next_oid st; items := infos |},
                    with_cache_time (Some t0)
                      (tick_now
                         (with_cache
                            (Some {| oid := S (next_oid st); items := infos |})
                            (tick_oid (tick_oid (log_request rq st))))))).
    { unfold Bounded.get_available_models. unfold bind at 1.
      rewrite (bounded_valid_unset env self st (or_introl Hnone)).
      rewrite (fetch_models_success env self st resp (log_request rq st)
                 data raw infos
                 (make_request_first_try env self "GET" "api/tags" no_kwargs
                    st resp Hretries Hreq Hok)
                 Hjson Hraw Hinfos).
      reflexivity. }
    set (st1 := with_cache_time (Some t0)
                  (tick_now
                     (with_cache
                        (Some {| oid := S (next_oid st); items := infos |})
                        (tick_oid (tick_oid (log_request rq st)))))) in *.
    (* second call *)
    assert (H2 : Bounded.get_available_models env self true st1
                 = (Return {| oid := S (S (next_oid st)); items := infos |},
                    tick_oid (tick_now st1))).
    { apply (bounded_fresh env self st1
               {| oid := S (next_oid st); items := infos |} t0
               eq_refl eq_refl Hin).
      subst st1. cbn. exact Hfresh. }
    set (st2 := tick_oid (tick_now st1)) in *.
    exists {| oid := next_oid st; items := infos |}, st1,
           {| oid := S (S (next_oid st)); items := infos |}, st2,
           {| oid := S (next_oid st); items := infos |}.
    split; [exact H1 |]. split; [exact H2 |].
    split; [reflexivity |]. split; [reflexivity |].
    split; [reflexivity |]. split; [reflexivity |].
    split; [reflexivity |].
    split; [cbn; lia |]. split; [cbn; lia |]. split; [cbn; lia |].
    split; [reflexivity |]. split; [reflexivity |].
    (* third call *)
    rewrite (bounded_expired env self st2
               {| oid := S (next_oid st); items := infos |} t0
               eq_refl eq_refl Hin)
      by (subst st2 st1; cbn; exact Hout).
    rewrite fetch_models_sent.
    destruct (make_request_sent env self "GET" "api/tags" no_kwargs
                (tick_now st2)) as (n & _ & Hpos & Hframe).
    exists n. split; [exact (Hpos Hretries) |].
    destruct Hframe as (_ & _ & _ & _ & _ & Hsent & _).
    exact Hsent.
Qed.

Lemma cached_listing_saves_network_calls_witness :
  let env := sample_env (always_ok sample_listing) sample_clock in
  let self := sample_service 3 in
  let rq := build_request self "GET" "api/tags" no_kwargs in
  let c := {| oid := 0%nat; items := [PyDict [("name", PyStr "m")]] |} in
  let st := with_cache_time (Some 0%Z)
              (with_cache (Some c) (tick_oid init_state)) in
  let infos := [ PyDict [ ("name", PyStr "llama2:latest");
                          ("size", PyInt 4000000);
                          ("modified_at", PyStr "2024-01-01T00:00:00Z");
                          ("digest", PyStr "abc123");
                          ("size_mb", PyFloat (38 # 10)) ] ] in
  (exists copy st',
     Bounded.get_available_models env self true st = (Return copy, st') /\
     items copy = items c /\
     oid copy = next_oid st /\
     sent st' = sent st /\
     _models_cache st' = Some c /\
     _models_cache_time st' = Some 0%Z)
  /\
  (exists first st1 second st2 snapshot,
     Bounded.get_available_models env self true init_state
     = (Return first, st1) /\
     Bounded.get_available_models env self true st1 = (Return second, st2) /\
     items first = infos /\
     items second = infos /\
     _models_cache st1 = Some snapshot /\
     _models_cache st2 = Some snapshot /\
     items snapshot = infos /\
     oid first <> oid second /\
     oid first <> oid snapshot /\
     oid second <> oid snapshot /\
     sent st1 = (sent init_state ++ [rq])%list /\
     sent st2 = (sent init_state ++ [rq])%list /\
     exists n,
       (1 <= n)%nat /\
       sent (snd (Bounded.get_available_models env self true st2))
       = ((sent init_state ++ [rq]) ++ repeat rq n)%list)
  /\
  (heap_ok (snd (Bounded.get_available_models env self true init_state)) /\
   forall l,
     fst (Bounded.get_available_models env self true init_state) = Return l ->
     (next_oid init_state <= oid l
      < next_oid (snd (Bounded.get_available_models env self true init_state)))%nat
     /\
     (forall c, _models_cache init_state = Some c -> oid l <> oid c) /\
     (forall c,
        _models_cache (snd (Bounded.get_available_models env self true
                              init_state)) = Some c ->
        oid l <> oid c)).
Proof.
  intros env self rq c st infos.
  assert (Hin : deadline_in_range self 0)
    by (vm_compute; repeat split; discriminate).
  split; [| split].
  - apply (proj1 (cached_listing_saves_network_calls env self) st c 0%Z
             eq_refl eq_refl Hin).
    reflexivity.
  - apply (proj2 (proj2 (cached_listing_saves_network_calls env self))
             init_state
             (ok_response sample_listing) sample_listing
             [ PyDict [ ("name", PyStr "llama2:latest");
                        ("size", PyInt 4000000);
                        ("modified_at", PyStr "2024-01-01T00:00:00Z");
                        ("digest", PyStr "abc123") ] ] infos);
      try reflexivity; try exact Hin; discriminate.
  - apply (proj2 (proj1 (proj2 (cached_listing_saves_network_calls env self)))
             true init_state
             (fst (Bounded.get_available_models env self true init_state))
             (snd (Bounded.get_available_models env self true init_state))
             (proj1 (proj1 (proj2
                (cached_listing_saves_network_calls env self))))).
    reflexivity.
Defined.

(** C4 as the specification states it fails where the deadline cannot be
    built.  A service with a cache duration of [10^12] seconds, asked over
    a snapshot it has just taken: the snapshot is younger than the TTL, and
    the call raises [OverflowError] in place of returning the copy. *)
Lemma fresh_snapshot_beyond_datetime_range_raises :
  let env := sample_env (always_ok sample_listing) (fun _ => 0%Z) in
  let self := long_cache_service 3 in
  let c := {| oid := 0%nat; items := [PyDict [("name", PyStr "m")]] |} in
  let st := with_cache_time (Some 0%Z)
              (with_cache (Some c) (tick_oid init_state)) in
  (datetime_now env (now_reads st) - 0 < cache_duration self * 1000000)%Z /\
  Bounded.get_available_models env self true st
  = (Raise (OverflowError "date value out of range"), st).
Proof.
  intros env self c st. split; [reflexivity | reflexivity].
Qed.



(** * Further properties of the transport *)

Section RetryFacts.

Variable env : Env.
Variable self : Service.

Lemma attempt_retried rq attempt st e :
  retried_as self (session_request env (length (sent st)) rq) e ->
  attempt_body env self rq attempt st
  = (Return (inr e), after_retry self rq attempt st).
Proof.
  intros H.
  unfold attempt_body, bind, try_except, do_request, raise_for_status,
    after_retry, time_sleep, raise, ret, is_http_error.
  inversion H as [m Ho | m Ho | r Hr Ho]; clear H.
  - destruct (Z.of_nat attempt <? max_retries self - 1)%Z; reflexivity.
  - destruct (Z.of_nat attempt <? max_retries self - 1)%Z; reflexivity.
  - replace (400 <=? status_code r)%Z with true
      by (symmetry; apply Z.leb_le; lia).
    replace (status_code r <? 600)%Z with true
      by (symmetry; apply Z.ltb_lt; lia).
    simpl.
    replace (status_code r >=? 500)%Z with true
      by (symmetry; rewrite Z.geb_leb; apply Z.leb_le; lia).
    destruct (Z.of_nat attempt <? max_retries self - 1)%Z; reflexivity.
Qed.

(** The loop from attempt [a] on, [k] attempts being left: it sends [n]
    requests, between 1 and [k], and sleeps before each of them but the
    first. *)
Lemma for_attempts_waits rq :
  forall (k a : nat) last st,
  (a + S k)%nat = Z.to_nat (max_retries self) ->
  exists n,
    (1 <= n <= S k)%nat /\
    sent (snd (for_attempts env self rq (seq a (S k)) last st))
    = (sent st ++ repeat rq n)%list /\
    slept (snd (for_attempts env self rq (seq a (S k)) last st))
    = (slept st
       ++ map (fun attempt => (2 ^ Z.of_nat attempt)%Z) (seq a (n - 1)))%list.
Proof.
  induction k as [| k IH]; intros a last st Hsum.
  - cbn [seq]. rewrite for_attempts_cons.
    destruct (attempt_body_cases env self rq a st)
      as [(r & E) | [(e & He & E) | (e & He & E)]]; rewrite E;
      exists 1%nat; (split; [lia |]).
    + simpl. now rewrite app_nil_r.
    + unfold after_retry.
      replace (Z.of_nat a <? max_retries self - 1)%Z with false
        by (symmetry; apply Z.ltb_ge; lia).
      simpl. now rewrite app_nil_r.
    + simpl. now rewrite app_nil_r.
  - remember (S k) as k1 eqn:Hk1.
    cbn [seq]. rewrite for_attempts_cons.
    destruct (attempt_body_cases env self rq a st)
      as [(r & E) | [(e & He & E) | (e & He & E)]]; rewrite E.
    + exists 1%nat. split; [lia |]. simpl. now rewrite app_nil_r.
    + unfold after_retry.
      replace (Z.of_nat a <? max_retries self - 1)%Z with true
        by (symmetry; apply Z.ltb_lt; lia).
      subst k1.
      destruct (IH (S a) (Some e)
                  (log_sleep (2 ^ Z.of_nat a) (log_request rq st)))
        as (n & Hn & Hsent & Hslept); [lia |].
      exists (S n). split; [lia |]. split.
      * rewrite Hsent. simpl. rewrite <- app_assoc. reflexivity.
      * rewrite Hslept. simpl. rewrite <- app_assoc.
        destruct n as [| n]; [lia |].
        simpl. rewrite Nat.sub_0_r. reflexivity.
    + exists 1%nat. split; [lia |]. simpl. now rewrite app_nil_r.
Qed.

(** When every attempt that is left has a retried outcome, the loop makes
    them all and raises the failure of the last one. *)
Lemma for_attempts_exhausted rq :
  forall (k a : nat) last st,
  (a + S k)%nat = Z.to_nat (max_retries self) ->
  (forall i, (i <= k)%nat ->
     exists e, retried_as self
                 (session_request env (length (sent st) + i) rq) e) ->
  exists e st',
    retried_as self (session_request env (length (sent st) + k) rq) e /\
    for_attempts env self rq (seq a (S k)) last st = (Raise e, st') /\
    sent st' = (sent st ++ repeat rq (S k))%list /\
    slept st'
    = (slept st ++ map (fun attempt => (2 ^ Z.of_nat attempt)%Z) (seq a k))%list.
Proof.
  induction k as [| k IH]; intros a last st Hsum Hall.
  - destruct (Hall 0%nat (Nat.le_refl 0)) as (e & He).
    rewrite Nat.add_0_r in He.
    exists e. eexists. rewrite Nat.add_0_r. split; [exact He |].
    cbn [seq]. rewrite for_attempts_cons.
    rewrite (attempt_retried rq a st e He).
    unfold after_retry.
    replace (Z.of_nat a <? max_retries self - 1)%Z with false
      by (symmetry; apply Z.ltb_ge; lia).
    split; [reflexivity |]. simpl. split; [reflexivity |].
    now rewrite app_nil_r.
  - destruct (Hall 0%nat (Nat.le_0_l _)) as (e0 & He0).
    rewrite Nat.add_0_r in He0.
    remember (S k) as k1 eqn:Hk1.
    cbn [seq]. rewrite for_attempts_cons.
    rewrite (attempt_retried rq a st e0 He0).
    unfold after_retry.
    replace (Z.of_nat a <? max_retries self - 1)%Z with true
      by (symmetry; apply Z.ltb_lt; lia).
    subst k1.
    set (st1 := log_sleep (2 ^ Z.of_nat a) (log_request rq st)).
    assert (Hlen : length (sent st1) = S (length (sent st))).
    { subst st1; simpl. rewrite length_app; simpl; lia. }
    destruct (IH (S a) (Some e0) st1) as (e & st' & He & Hrun & Hsent & Hslept).
    + lia.
    + intros i Hi. rewrite Hlen.
      replace (S (length (sent st)) + i)%nat
        with (length (sent st) + S i)%nat by lia.
      apply Hall. lia.
    + exists e, st'. split.
      { rewrite Hlen in He.
        replace (length (sent st) + S k)%nat
          with (S (length (sent st)) + k)%nat by lia.
        exact He. }
      split; [exact Hrun |]. split.
      * rewrite Hsent. subst st1; simpl. rewrite <- app_assoc. reflexivity.
      * rewrite Hslept. subst st1; simpl. rewrite <- app_assoc. reflexivity.
Qed.

End RetryFacts.

(** X1.  When [max_retries >= 1] and every attempt ends in a timeout, a
    refused connection or a 5xx response, [_make_request] makes exactly
    [max_retries] attempts, sleeps [2^0, ..., 2^(max_retries - 2)] between
    them (nothing after the last), and raises the failure that belongs to
    the last attempt. *)
Theorem exhausted_retries_raise_last_failure
        (env : Env) (self : Service) (method path : string) (kwargs : Kwargs)
        (st : State) :
  (1 <= max_retries self)%Z ->
  (forall i, (Z.of_nat i < max_retries self)%Z ->
     exists e, retried_as self
                 (session_request env (length (sent st) + i)
                    (build_request self method path kwargs)) e) ->
  exists e st',
    retried_as self
      (session_request env
         (length (sent st) + (Z.to_nat (max_retries self) - 1))
         (build_request self method path kwargs)) e /\
    _make_request env self method path kwargs st = (Raise e, st') /\
    sent st' = (sent st
                ++ repeat (build_request self method path kwargs)
                     (Z.to_nat (max_retries self)))%list /\
    slept st' = (slept st
                 ++ backoff_waits (Z.to_nat (max_retries self) - 1))%list /\
    total (slept st')
    = (total (slept st) + (2 ^ (max_retries self - 1) - 1))%Z.
Proof.
  intros Hretries Hall.
  unfold _make_request, range.
  destruct (Z.to_nat (max_retries self)) as [| k] eqn:Ek; [lia |].
  destruct (for_attempts_exhausted env self
              (build_request self method path kwargs) k 0 None st)
    as (e & st' & He & Hrun & Hsent & Hslept).
  - simpl. lia.
  - intros i Hi. apply Hall. lia.
  - exists e, st'.
    replace (S k - 1)%nat with k by lia.
    split; [exact He |]. split; [exact Hrun |]. split; [exact Hsent |].
    split; [exact Hslept |].
    rewrite Hslept, total_app.
    change (map (fun attempt => (2 ^ Z.of_nat attempt)%Z) (seq 0 k))
      with (backoff_waits k).
    rewrite total_backoff_waits.
    replace (max_retries self - 1)%Z with (Z.of_nat k) by lia. reflexivity.
Qed.

Lemma exhausted_retries_raise_last_failure_witness :
  let env := sample_env always_timeout (fun _ => 0%Z) in
  let self := sample_service 3 in
  exists e st',
    retried_as self
      (session_request env
         (length (sent init_state) + (Z.to_nat (max_retries self) - 1))
         (build_request self "GET" "api/tags" no_kwargs)) e /\
    _make_request env self "GET" "api/tags" no_kwargs init_state
    = (Raise e, st') /\
    sent st' = (sent init_state
                ++ repeat (build_request self "GET" "api/tags" no_kwargs)
                     (Z.to_nat (max_retries self)))%list /\
    slept st' = (slept init_state
                 ++ backoff_waits (Z.to_nat (max_retries self) - 1))%list /\
    total (slept st')
    = (total (slept init_state) + (2 ^ (max_retries self - 1) - 1))%Z.
Proof.
  intros env self.
  apply (exhausted_retries_raise_last_failure env self "GET" "api/tags"
           no_kwargs init_state).
  - discriminate.
  - intros i _. eexists. exact (retried_timeout self "Read timed out.").
Defined.

(** X2.  Whatever the network does, one call of [_make_request] sends [n]
    copies of its request, with [n] at most [max_retries], and sleeps
    exactly before each of them but the first: the waits are
    [2^0, ..., 2^(n-2)], a total of [2^(n-1) - 1] when a request was sent. *)
Theorem make_request_sleeps_between_attempts
        (env : Env) (self : Service) (method path : string) (kwargs : Kwargs)
        (st : State) :
  exists n,
    (Z.of_nat n <= Z.max 0 (max_retries self))%Z /\
    sent (snd (_make_request env self method path kwargs st))
    = (sent st ++ repeat (build_request self method path kwargs) n)%list /\
    slept (snd (_make_request env self method path kwargs st))
    = (slept st ++ backoff_waits (n - 1))%list /\
    total (slept (snd (_make_request env self method path kwargs st)))
    = (total (slept st) + (2 ^ Z.of_nat (n - 1) - 1))%Z.
Proof.
  unfold _make_request, range.
  destruct (Z.to_nat (max_retries self)) as [| k] eqn:Ek.
  - exists 0%nat. simpl. rewrite !app_nil_r.
    split; [lia |]. split; [reflexivity |]. split; [reflexivity |]. lia.
  - destruct (for_attempts_waits env self
                (build_request self method path kwargs) k 0 None st)
      as (n & Hn & Hsent & Hslept); [simpl; lia |].
    exists n. split; [lia |]. split; [exact Hsent |].
    split; [exact Hslept |].
    rewrite Hslept, total_app.
    change (map (fun attempt => (2 ^ Z.of_nat attempt)%Z) (seq 0 (n - 1)))
      with (backoff_waits (n - 1)).
    rewrite total_backoff_waits. reflexivity.
Qed.

(** * Further properties of the string operations *)

(** X3.  The URL of a request is the endpoint without its trailing slashes,
    one slash, and the path without its leading slashes: adding slashes at
    the end of the endpoint or in front of the path does not change it, and
    neither part brings a slash of its own to the joint. *)
Theorem request_url_joins_with_one_slash
        (self : Service) (method path : string) (kwargs : Kwargs)
        (a b : string) :
  all_by (Ascii.eqb "/"%char) a = true ->
  all_by (Ascii.eqb "/"%char) b = true ->
  req_url (build_request (at_endpoint self (endpoint self ++ a)) method
             (b ++ path) kwargs)
  = req_url (build_request self method path kwargs)
  /\
  exists base rest,
    req_url (build_request self method path kwargs) = base ++ "/" ++ rest /\
    PyStr.rstrip "/"%char base = base /\
    PyStr.lstrip "/"%char rest = rest /\
    PyStr.rstrip "/"%char (endpoint self) = base /\
    PyStr.lstrip "/"%char path = rest.
Proof.
  intros Ha Hb. split.
  - unfold build_request, at_endpoint, PyStr.rstrip, PyStr.lstrip. simpl.
    rewrite (rstrip_by_app_all _ _ _ Ha), (lstrip_by_app_all _ _ _ Hb).
    reflexivity.
  - exists (PyStr.rstrip "/"%char (endpoint self)),
           (PyStr.lstrip "/"%char path).
    split; [reflexivity |].
    unfold PyStr.rstrip, PyStr.lstrip.
    split; [apply rstrip_by_idem |]. split; [apply lstrip_by_idem |].
    split; reflexivity.
Qed.

Lemma request_url_joins_with_one_slash_witness :
  let self := sample_service 3 in
  req_url (build_request (at_endpoint self (endpoint self ++ "//")) "GET"
             ("/" ++ "api/tags") no_kwargs)
  = req_url (build_request self "GET" "api/tags" no_kwargs)
  /\
  exists base rest,
    req_url (build_request self "GET" "api/tags" no_kwargs)
    = base ++ "/" ++ rest /\
    PyStr.rstrip "/"%char base = base /\
    PyStr.lstrip "/"%char rest = rest /\
    PyStr.rstrip "/"%char (endpoint self) = base /\
    PyStr.lstrip "/"%char "api/tags" = rest.
Proof.
  intros self.
  apply (request_url_joins_with_one_slash self "GET" "api/tags" no_kwargs
           "//" "/"); reflexivity.
Defined.

(** * Further properties of the workflows *)

Section MoreWorkflowFacts.

Variable env : Env.
Variable self : Service.

(** The handler of the public methods always raises, and what it raises is
    one of the two failures of the service. *)
Lemma reraise_or_wrap_raises (A : Type) prefix e st :
  exists e',
    reraise_or_wrap (A := A) prefix e st = (Raise e', st) /\
    is_ollama_error e' = true /\
    e' = (if is_ollama_error e then e
          else OllamaConnectionError (prefix ++ str_exc e)).
Proof.
  unfold reraise_or_wrap.
  destruct (is_ollama_error e) eqn:E; eexists; (split; [reflexivity |]);
    (split; [| reflexivity]); [exact E | reflexivity].
Qed.

Lemma try_reraise_typed (A : Type) (m : M A) prefix st e st' :
  try_except m (reraise_or_wrap prefix) st = (Raise e, st') ->
  is_ollama_error e = true.
Proof.
  unfold try_except.
  destruct (m st) as [[a | e0] st1]; [discriminate |].
  destruct (reraise_or_wrap_raises A prefix e0 st1) as (e' & -> & He & _).
  intros H; inversion H; subst. exact He.
Qed.

Lemma try_reraise_returns (A : Type) (m : M A) prefix st a st' :
  try_except m (reraise_or_wrap prefix) st = (Return a, st') ->
  m st = (Return a, st').
Proof.
  unfold try_except.
  destruct (m st) as [[a0 | e0] st1]; [trivial |].
  destruct (reraise_or_wrap_raises A prefix e0 st1) as (e' & -> & _).
  discriminate.
Qed.

(** What the body shared by the two workflows makes of a response, when it
    returns. *)
Lemma read_response_returns (A : Type) empty_msg resp (k : string -> M A)
      st a st' :
  (data <- response_json resp ;;
   r <- lift (py_get data "response" (PyStr "")) ;;
   t <- lift (py_strip r) ;;
   if PyStr.is_empty t then raise (OllamaConnectionError empty_msg) else k t)
    st = (Return a, st') ->
  exists data s,
    json resp = inr data /\
    py_get data "response" (PyStr "") = Return (PyStr s) /\
    all_space s = false /\
    k (PyStr.strip s) st = (Return a, st').
Proof.
  unfold bind at 1, response_json.
  destruct (json resp) as [msg | data] eqn:Hjson; [discriminate |].
  unfold ret at 1. unfold bind at 1, lift at 1.
  destruct (py_get data "response" (PyStr "")) as [r | e] eqn:Htext;
    [| discriminate].
  unfold bind at 1, lift at 1.
  destruct r as [| b | n | x | s | l | kv]; try discriminate.
  cbn [py_strip]. rewrite strip_is_empty.
  destruct (all_space s) eqn:E; [discriminate |].
  intros H. exists data, s.
  split; [reflexivity |]. split; [exact Htext |]. split; [exact E | exact H].
Qed.

Lemma refine_prompt_returns objective target_model st t st' :
  refine_prompt env self objective target_model st = (Return t, st') ->
  exists fp resp data s,
    str_format env (template (get_meta_prompt_config env)) objective = inr fp /\
    _make_request env self "POST" "api/generate"
      (refine_kwargs (py_or target_model (default_model env)) fp
         (get_meta_prompt_config env)) st
    = (Return resp, st') /\
    json resp = inr data /\
    py_get data "response" (PyStr "") = Return (PyStr s) /\
    all_space s = false /\
    t = PyStr.strip s.
Proof.
  unfold refine_prompt, format_prompt.
  destruct (str_format env (template (get_meta_prompt_config env)) objective)
    as [e | fp]; [discriminate |].
  unfold bind at 1, ret at 1. intros H.
  apply try_reraise_returns in H. unfold bind at 1 in H.
  destruct (_make_request env self "POST" "api/generate"
              (refine_kwargs (py_or target_model (default_model env)) fp
                 (get_meta_prompt_config env)) st)
    as [[resp | e] st1] eqn:Hreq; [| discriminate].
  apply read_response_returns in H.
  destruct H as (data & s & Hjson & Htext & Hblank & Hret).
  inversion Hret; subst.
  exists fp, resp, data, s. repeat split; assumption.
Qed.

Lemma test_prompt_returns system_prompt user_input model temperature timeout_
      st d st' :
  test_prompt env self system_prompt user_input model temperature timeout_ st
  = (Return d, st') ->
  exists resp st1 data s,
    _make_request env self "POST" "api/generate"
      (test_kwargs (py_or model (default_model env))
         (full_prompt_of system_prompt user_input)
         (if_not_none temperature (default_temperature env))
         (if_not_none timeout_ (PyInt (timeout self)))) (tick_time st)
    = (Return resp, st1) /\
    json resp = inr data /\
    py_get data "response" (PyStr "") = Return (PyStr s) /\
    all_space s = false /\
    st' = tick_time st1 /\
    d = [ ("response", PyStr (PyStr.strip s));
          ("execution_time",
            PyFloat (py_round (time_time env (time_reads st1)
                               - time_time env (time_reads st)) 2));
          ("model", py_or model (default_model env));
          ("temperature", if_not_none temperature (default_temperature env));
          ("timeout", if_not_none timeout_ (PyInt (timeout self)));
          ("system_prompt", PyStr system_prompt);
          ("user_input", PyStr user_input) ].
Proof.
  unfold test_prompt. unfold bind at 1, time_now at 1. intros H.
  apply try_reraise_returns in H. unfold bind at 1 in H.
  destruct (_make_request env self "POST" "api/generate"
              (test_kwargs (py_or model (default_model env))
                 (full_prompt_of system_prompt user_input)
                 (if_not_none temperature (default_temperature env))
                 (if_not_none timeout_ (PyInt (timeout self))))
              (tick_time st))
    as [[resp | e] st1] eqn:Hreq; [| discriminate].
  unfold bind at 1, time_now at 1 in H.
  apply read_response_returns in H.
  destruct H as (data & s & Hjson & Htext & Hblank & Hret).
  inversion Hret; subst.
  exists resp, st1, data, s. repeat split; assumption.
Qed.

(** What the workflows make of a failure of the transport. *)
Lemma test_prompt_transport_failure system_prompt user_input model temperature
      timeout_ st e st1 :
  _make_request env self "POST" "api/generate"
    (test_kwargs (py_or model (default_model env))
       (full_prompt_of system_prompt user_input)
       (if_not_none temperature (default_temperature env))
       (if_not_none timeout_ (PyInt (timeout self)))) (tick_time st)
  = (Raise e, st1) ->
  test_prompt env self system_prompt user_input model temperature timeout_ st
  = (Raise (if is_ollama_error e then e
            else OllamaConnectionError ("Failed to test prompt: " ++ str_exc e)),
     st1).
Proof.
  intros Hreq. unfold test_prompt.
  unfold bind at 1, time_now at 1. unfold try_except. unfold bind at 1.
  rewrite Hreq. unfold reraise_or_wrap.
  destruct (is_ollama_error e); reflexivity.
Qed.

End MoreWorkflowFacts.

(** X4.  [test_prompt] raises nothing but [OllamaConnectionError] and
    [OllamaTimeoutError], whatever the network and the configuration do,
    also for [max_retries = 0], where the failure of the transport is
    wrapped by the workflow.  So does [get_available_models], with one
    exception: the validity test runs before the [try] statement, and over
    a snapshot whose deadline cannot be built its [OverflowError] goes to
    the caller as it is, with nothing sent and nothing changed.
    [refine_prompt] may besides pass on what formatting the template
    raised, before anything is sent. *)
Theorem public_operations_raise_typed_failures
        (env : Env) (self : Service) (st : State) :
  (forall system_prompt user_input model temperature timeout_ e st',
     test_prompt env self system_prompt user_input model temperature timeout_ st
     = (Raise e, st') ->
     is_ollama_error e = true)
  /\
  (forall use_cache e st',
     Bounded.get_available_models env self use_cache st = (Raise e, st') ->
     is_ollama_error e = true
     \/ (class_name e = "OverflowError" /\ use_cache = true /\ st' = st /\
         exists c t,
           _models_cache st = Some c /\ _models_cache_time st = Some t /\
           ~ deadline_in_range self t))
  /\
  (forall c t,
     _models_cache st = Some c -> _models_cache_time st = Some t ->
     ~ deadline_in_range self t ->
     exists e,
       Bounded.get_available_models env self true st = (Raise e, st) /\
       class_name e = "OverflowError" /\ is_ollama_error e = false)
  /\
  (forall objective target_model e st',
     refine_prompt env self objective target_model st = (Raise e, st') ->
     is_ollama_error e = true
     \/ (str_format env (template (get_meta_prompt_config env)) objective = inl e
         /\ st' = st))
  /\
  (max_retries self = 0%Z ->
   forall system_prompt user_input model temperature timeout_,
     test_prompt env self system_prompt user_input model temperature timeout_ st
     = (Raise (OllamaConnectionError
                 ("Failed to test prompt: "
                  ++ "exceptions must derive from BaseException")),
        tick_time st)).
Proof.
  split; [| split; [| split; [| split]]].
  - intros system_prompt user_input model temperature timeout_ e st'.
    unfold test_prompt. unfold bind at 1, time_now at 1.
    apply try_reraise_typed.
  - intros use_cache e st'.
    unfold Bounded.get_available_models. unfold bind at 1.
    destruct use_cache;
      [| unfold ret at 1; intros H; left; revert H; apply try_reraise_typed].
    destruct (bounded_valid_cases env self st)
      as [[Hv _] | [(c & t & Hc & Ht & Hin & Hv)
                   | (c & t & msg & Hc & Ht & Hout & Hv)]];
      rewrite Hv.
    + intros H; left; revert H; apply try_reraise_typed.
    + destruct (datetime_now env (now_reads st) <? expiry self t)%Z.
      * unfold cached_models. cbn [_models_cache tick_now]. rewrite Hc.
        discriminate.
      * intros H; left; revert H; apply try_reraise_typed.
    + intros H. inversion H; subst. right.
      split; [reflexivity |]. split; [reflexivity |]. split; [reflexivity |].
      exists c, t. repeat split; assumption.
  - intros c t Hc Ht Hout.
    destruct (bounded_valid_out_of_range env self st c t Hc Ht Hout)
      as (msg & Hv).
    exists (OverflowError msg).
    unfold Bounded.get_available_models. unfold bind at 1. rewrite Hv.
    repeat split.
  - intros objective target_model e st'.
    unfold refine_prompt, format_prompt.
    destruct (str_format env (template (get_meta_prompt_config env)) objective)
      as [e0 | fp].
    + unfold bind at 1, raise at 1. intros H; inversion H; subst.
      right. split; reflexivity.
    + unfold bind at 1, ret at 1. intros H. left.
      exact (try_reraise_typed _ _ _ _ _ _ H).
  - intros Hzero system_prompt user_input model temperature timeout_.
    apply (test_prompt_transport_failure env self system_prompt user_input
             model temperature timeout_ st
             (TypeError "exceptions must derive from BaseException")
             (tick_time st)).
    unfold _make_request. rewrite Hzero. reflexivity.
Qed.

(** A refused connection is a typed failure of the listing; a deadline in
    the year 33658 is not; a service that makes no attempt fails
    [test_prompt] with a typed failure. *)
Lemma public_operations_raise_typed_failures_witness :
  let env := sample_env always_refused (fun _ => 0%Z) in
  let c := {| oid := 0%nat; items := [PyDict [("name", PyStr "m")]] |} in
  let st := with_cache_time (Some 0%Z)
              (with_cache (Some c) (tick_oid init_state)) in
  (is_ollama_error
     (OllamaConnectionError
        "Failed to connect to Ollama at http://localhost:11434") = true
   \/ (class_name
         (OllamaConnectionError
            "Failed to connect to Ollama at http://localhost:11434")
       = "OverflowError" /\ false = true
       /\ snd (Bounded.get_available_models env (sample_service 2) false
                 init_state) = init_state
       /\ exists c t,
            _models_cache init_state = Some c /\
            _models_cache_time init_state = Some t /\
            ~ deadline_in_range (sample_service 2) t))
  /\
  (exists e,
     Bounded.get_available_models env (long_cache_service 3) true st
     = (Raise e, st) /\
     class_name e = "OverflowError" /\ is_ollama_error e = false)
  /\
  test_prompt env (sample_service 0) "S" "U" PyNone PyNone PyNone init_state
  = (Raise (OllamaConnectionError
              ("Failed to test prompt: "
               ++ "exceptions must derive from BaseException")),
     tick_time init_state).
Proof.
  intros env c st. split; [| split].
  - apply (proj1 (proj2 (public_operations_raise_typed_failures env
                           (sample_service 2) init_state))
             false
             (OllamaConnectionError
                "Failed to connect to Ollama at http://localhost:11434")
             (snd (Bounded.get_available_models env (sample_service 2) false
                     init_state))).
    reflexivity.
  - apply (proj1 (proj2 (proj2 (public_operations_raise_typed_failures env
                                  (long_cache_service 3) st)))
             c 0%Z eq_refl eq_refl).
    vm_compute. intros [_ [_ H]]. apply H. reflexivity.
  - apply (proj2 (proj2 (proj2 (proj2
             (public_operations_raise_typed_failures env
                (sample_service 0) init_state))))).
    reflexivity.
Defined.

(** X5.  Text that [refine_prompt] or [test_prompt] returns is never
    blank and never has whitespace at either end: it is not the empty
    string and stripping it again changes nothing. *)
Theorem generation_text_is_trimmed_and_not_blank
        (env : Env) (self : Service) (st : State) :
  (forall objective target_model t st',
     refine_prompt env self objective target_model st = (Return t, st') ->
     t <> "" /\ PyStr.strip t = t)
  /\
  (forall system_prompt user_input model temperature timeout_ d st',
     test_prompt env self system_prompt user_input model temperature timeout_ st
     = (Return d, st') ->
     exists t,
       dict_get d "response" = Some (PyStr t) /\
       t <> "" /\ PyStr.strip t = t).
Proof.
  assert (Hstrip : forall s, all_space s = false ->
            PyStr.strip s <> "" /\ PyStr.strip (PyStr.strip s) = PyStr.strip s).
  { intros s Hs. split; [| apply strip_idem].
    intros Hempty. rewrite <- strip_is_empty, Hempty in Hs. discriminate. }
  split.
  - intros objective target_model t st' H.
    destruct (refine_prompt_returns env self _ _ _ _ _ H)
      as (fp & resp & data & s & _ & _ & _ & _ & Hs & ->).
    apply Hstrip. exact Hs.
  - intros system_prompt user_input model temperature timeout_ d st' H.
    destruct (test_prompt_returns env self _ _ _ _ _ _ _ _ H)
      as (resp & st1 & data & s & _ & _ & _ & Hs & _ & ->).
    exists (PyStr.strip s). split; [reflexivity |].
    apply Hstrip. exact Hs.
Qed.

Lemma generation_text_is_trimmed_and_not_blank_witness :
  let env := sample_env (always_ok (PyDict [("response", PyStr "  Hi there ")]))
                        (fun _ => 0%Z) in
  let self := sample_service 3 in
  ("Hi there" <> "" /\ PyStr.strip "Hi there" = "Hi there")
  /\
  (exists t,
     dict_get
       [ ("response", PyStr "Hi there");
         ("execution_time", PyFloat (py_round (1 - 0) 2));
         ("model", PyStr "llama2");
         ("temperature", PyFloat (7 # 10));
         ("timeout", PyInt 30);
         ("system_prompt", PyStr "S");
         ("user_input", PyStr "U") ] "response" = Some (PyStr t) /\
     t <> "" /\ PyStr.strip t = t).
Proof.
  intros env self. split.
  - apply (proj1 (generation_text_is_trimmed_and_not_blank env self init_state)
             "Greet" PyNone "Hi there"
             (snd (refine_prompt env self "Greet" PyNone init_state))).
    reflexivity.
  - apply (proj2 (generation_text_is_trimmed_and_not_blank env self init_state)
             "S" "U" PyNone PyNone PyNone _
             (snd (test_prompt env self "S" "U" PyNone PyNone PyNone
                     init_state))).
    reflexivity.
Defined.

(** X6.  Every request [test_prompt] sends is the same POST to
    [<endpoint>/api/generate]: the prompt is the system prompt, a blank
    line, [User: ] and the user input, a blank line and [Assistant:]; it is
    not streamed; [top_p] is 0.9; temperature and timeout are the resolved
    ones.  A result, when there is one, has the seven keys of the source in
    their order and gives back the system prompt and the user input
    unchanged. *)
Theorem test_prompt_sends_framed_prompt_and_echoes
        (env : Env) (self : Service) (system_prompt user_input : string)
        (model temperature timeout_ : PyVal) (st : State) :
  (exists n,
     sent (snd (test_prompt env self system_prompt user_input model
                  temperature timeout_ st))
     = (sent st
        ++ repeat
             {| req_method := "POST";
                req_url := PyStr.rstrip "/"%char (endpoint self)
                           ++ "/" ++ "api/generate";
                req_json :=
                  Some (PyDict
                          [ ("model", py_or model (default_model env));
                            ("prompt",
                              PyStr (system_prompt ++ PyStr.nl ++ PyStr.nl
                                     ++ "User: " ++ user_input
                                     ++ PyStr.nl ++ PyStr.nl ++ "Assistant:"));
                            ("stream", PyBool false);
                            ("options",
                              PyDict
                                [ ("temperature",
                                    if_not_none temperature
                                      (default_temperature env));
                                  ("top_p", PyFloat (9 # 10)) ]) ]);
                req_timeout := if_not_none timeout_ (PyInt (timeout self)) |}
             n)%list)
  /\
  (forall d st',
     test_prompt env self system_prompt user_input model temperature timeout_ st
     = (Return d, st') ->
     map fst d = [ "response"; "execution_time"; "model"; "temperature";
                   "timeout"; "system_prompt"; "user_input" ] /\
     dict_get d "system_prompt" = Some (PyStr system_prompt) /\
     dict_get d "user_input" = Some (PyStr user_input)).
Proof.
  split.
  - rewrite test_prompt_sent.
    destruct (make_request_sent env self "POST" "api/generate"
                (test_kwargs (py_or model (default_model env))
                   (full_prompt_of system_prompt user_input)
                   (if_not_none temperature (default_temperature env))
                   (if_not_none timeout_ (PyInt (timeout self))))
                (tick_time st))
      as (n & _ & _ & Hframe).
    exists n.
    destruct Hframe as (_ & _ & _ & _ & _ & Hsent & _).
    exact Hsent.
  - intros d st' H.
    destruct (test_prompt_returns env self _ _ _ _ _ _ _ _ H)
      as (resp & st1 & data & s & _ & _ & _ & _ & _ & ->).
    repeat split.
Qed.

Lemma test_prompt_sends_framed_prompt_and_echoes_witness :
  let env := sample_env (always_ok (PyDict [("response", PyStr "Hello")]))
                        (fun _ => 0%Z) in
  let self := sample_service 3 in
  let d := [ ("response", PyStr "Hello");
             ("execution_time", PyFloat (py_round (1 - 0) 2));
             ("model", PyStr "llama2");
             ("temperature", PyFloat (7 # 10));
             ("timeout", PyInt 5);
             ("system_prompt", PyStr "You are terse.");
             ("user_input", PyStr "Hi") ] in
  map fst d = [ "response"; "execution_time"; "model"; "temperature";
                "timeout"; "system_prompt"; "user_input" ] /\
  dict_get d "system_prompt" = Some (PyStr "You are terse.") /\
  dict_get d "user_input" = Some (PyStr "Hi").
Proof.
  intros env self d.
  apply (proj2 (test_prompt_sends_framed_prompt_and_echoes env self
                  "You are terse." "Hi" PyNone PyNone (PyInt 5) init_state)
           d
           (snd (test_prompt env self "You are terse." "Hi" PyNone PyNone
                   (PyInt 5) init_state))).
  reflexivity.
Defined.

(** X7.  A timeout given to [test_prompt] is the timeout of its requests,
    but not the one its failure names: when every attempt times out, the
    call raises [OllamaTimeoutError] with the message
    [Request timed out after <self.timeout> seconds], whatever timeout the
    caller asked for. *)
Theorem test_prompt_timeout_failure_names_instance_timeout
        (env : Env) (self : Service) (system_prompt user_input : string)
        (model temperature timeout_ : PyVal) (st : State) :
  timeout_ <> PyNone ->
  (1 <= max_retries self)%Z ->
  (forall i rq, exists m,
       session_request env (length (sent st) + i) rq
       = inl (RequestsTimeout m)) ->
  exists st',
    test_prompt env self system_prompt user_input model temperature timeout_ st
    = (Raise (OllamaTimeoutError
                ("Request timed out after " ++ PyStr.of_int (timeout self)
                 ++ " seconds")),
       st') /\
    exists rq,
      sent st' = (sent st ++ repeat rq (Z.to_nat (max_retries self)))%list /\
      req_timeout rq = timeout_.
Proof.
  intros Hgiven Hretries Hall.
  set (kw := test_kwargs (py_or model (default_model env))
               (full_prompt_of system_prompt user_input)
               (if_not_none temperature (default_temperature env))
               (if_not_none timeout_ (PyInt (timeout self)))).
  assert (Hrun : exists e st',
             retried_as self
               (session_request env
                  (length (sent st) + (Z.to_nat (max_retries self) - 1))
                  (build_request self "POST" "api/generate" kw)) e /\
             _make_request env self "POST" "api/generate" kw (tick_time st)
             = (Raise e, st') /\
             sent st' = (sent st
                         ++ repeat (build_request self "POST" "api/generate" kw)
                              (Z.to_nat (max_retries self)))%list).
  { unfold _make_request, range.
    destruct (Z.to_nat (max_retries self)) as [| k] eqn:Ek; [lia |].
    destruct (for_attempts_exhausted env self
                (build_request self "POST" "api/generate" kw) k 0 None
                (tick_time st))
      as (e & st' & He & Hrun & Hsent & _).
    - simpl. lia.
    - intros i _. destruct (Hall i (build_request self "POST" "api/generate" kw))
        as (m & Hm).
      eexists. cbn [sent tick_time]. rewrite Hm. apply retried_timeout.
    - exists e, st'. replace (S k - 1)%nat with k by lia.
      split; [exact He |]. split; [exact Hrun |]. exact Hsent. }
  destruct Hrun as (e & st' & He & Hrun & Hsent).
  destruct (Hall (Z.to_nat (max_retries self) - 1)%nat
              (build_request self "POST" "api/generate" kw)) as (m & Hm).
  rewrite Hm in He. inversion He; subst e.
  exists st'. split.
  - rewrite (test_prompt_transport_failure env self system_prompt user_input
               model temperature timeout_ st _ st' Hrun).
    reflexivity.
  - eexists. split; [exact Hsent |].
    subst kw. cbn. destruct timeout_; try reflexivity. congruence.
Qed.

Lemma test_prompt_timeout_failure_names_instance_timeout_witness :
  let env := sample_env always_timeout (fun _ => 0%Z) in
  let self := sample_service 2 in
  exists st',
    test_prompt env self "S" "U" PyNone PyNone (PyInt 5) init_state
    = (Raise (OllamaTimeoutError
                ("Request timed out after " ++ PyStr.of_int 30 ++ " seconds")),
       st') /\
    exists rq,
      sent st' = (sent init_state ++ repeat rq (Z.to_nat 2))%list /\
      req_timeout rq = PyInt 5.
Proof.
  intros env self.
  apply (test_prompt_timeout_failure_names_instance_timeout env self "S" "U"
           PyNone PyNone (PyInt 5) init_state).
  - discriminate.
  - discriminate.
  - intros i rq. exists "Read timed out.". reflexivity.
Defined.

(** * Properties of the connection checks *)

Section HealthFacts.

Variable env : Env.
Variable self : Service.

Lemma health_check_run st :
  health_check env self st
  = match _make_request env self "GET" "api/tags" no_kwargs st with
    | (Return _, st1) => (Return true, st1)
    | (Raise e, st1) =>
        if is_ollama_error e then (Return false, st1) else (Raise e, st1)
    end.
Proof.
  unfold health_check, try_except, except_ollama. unfold bind at 1.
  destruct (_make_request env self "GET" "api/tags" no_kwargs st)
    as [[resp | e] st1]; [reflexivity |].
  destruct (is_ollama_error e); reflexivity.
Qed.

Lemma check_connection_run st :
  check_connection env self st
  = match _make_request env self "GET" "api/tags" no_kwargs st with
    | (Return _, st1) =>
        (Return [ ("connected", PyBool true);
                  ("endpoint", PyStr (endpoint self));
                  ("status", PyStr "healthy");
                  ("message", PyStr "Successfully connected to Ollama") ],
         st1)
    | (Raise e, st1) =>
        if is_ollama_error e
        then (Return [ ("connected", PyBool false);
                       ("endpoint", PyStr (endpoint self));
                       ("status", PyStr "error");
                       ("message", PyStr (str_exc e)) ],
              st1)
        else (Raise e, st1)
    end.
Proof.
  unfold check_connection, try_except, except_ollama. unfold bind at 1.
  destruct (_make_request env self "GET" "api/tags" no_kwargs st)
    as [[resp | e] st1]; [reflexivity |].
  destruct (is_ollama_error e); reflexivity.
Qed.

(** With an attempt to make, the transport fails with a typed failure
    only. *)
Lemma make_request_typed method path kwargs st e st' :
  (1 <= max_retries self)%Z ->
  _make_request env self method path kwargs st = (Raise e, st') ->
  is_ollama_error e = true.
Proof.
  intros Hretries Hrun.
  apply (for_attempts_typed env self (build_request self method path kwargs)
           (range (max_retries self)) None st e).
  - left. unfold range.
    destruct (Z.to_nat (max_retries self)) eqn:En; [lia | discriminate].
  - unfold _make_request in Hrun. rewrite Hrun. reflexivity.
Qed.

End HealthFacts.

(** X8.  With [max_retries >= 1], [health_check] and [check_connection]
    never raise and agree: both leave the same state, [connected] is the
    boolean [health_check] returns, it is true exactly when the transport
    returned a response, and on failure [message] is the text of the
    failure.  With [max_retries = 0] both raise the [TypeError] of the
    transport: their [except] clause does not catch it. *)
Theorem connection_checks_agree (env : Env) (self : Service) (st : State) :
  ((1 <= max_retries self)%Z ->
   exists b d st',
     health_check env self st = (Return b, st') /\
     check_connection env self st = (Return d, st') /\
     dict_get d "connected" = Some (PyBool b) /\
     dict_get d "endpoint" = Some (PyStr (endpoint self)) /\
     dict_get d "status" = Some (PyStr (if b then "healthy" else "error")) /\
     (b = true <->
      exists resp,
        _make_request env self "GET" "api/tags" no_kwargs st
        = (Return resp, st')) /\
     (forall e,
        _make_request env self "GET" "api/tags" no_kwargs st = (Raise e, st') ->
        dict_get d "message" = Some (PyStr (str_exc e))))
  /\
  (max_retries self = 0%Z ->
   health_check env self st
   = (Raise (TypeError "exceptions must derive from BaseException"), st) /\
   check_connection env self st
   = (Raise (TypeError "exceptions must derive from BaseException"), st)).
Proof.
  split.
  - intros Hretries.
    rewrite health_check_run, check_connection_run.
    destruct (_make_request env self "GET" "api/tags" no_kwargs st)
      as [[resp | e] st1] eqn:Hreq.
    + exists true. eexists. exists st1.
      split; [reflexivity |]. split; [reflexivity |].
      split; [reflexivity |]. split; [reflexivity |].
      split; [reflexivity |]. split.
      * split; [intros _; exists resp; reflexivity | reflexivity].
      * intros e H. discriminate H.
    + rewrite (make_request_typed env self _ _ _ _ _ _ Hretries Hreq).
      exists false. eexists. exists st1.
      split; [reflexivity |]. split; [reflexivity |].
      split; [reflexivity |]. split; [reflexivity |].
      split; [reflexivity |]. split.
      * split; [discriminate | intros (resp & H); discriminate H].
      * intros e0 H. inversion H; subst. reflexivity.
  - intros Hzero.
    rewrite health_check_run, check_connection_run.
    unfold _make_request. rewrite Hzero. split; reflexivity.
Qed.

Lemma connection_checks_agree_witness :
  let env := sample_env always_refused (fun _ => 0%Z) in
  (exists b d st',
     health_check env (sample_service 2) init_state = (Return b, st') /\
     check_connection env (sample_service 2) init_state = (Return d, st') /\
     dict_get d "connected" = Some (PyBool b) /\
     dict_get d "endpoint" = Some (PyStr "http://localhost:11434") /\
     dict_get d "status" = Some (PyStr (if b then "healthy" else "error")) /\
     (b = true <->
      exists resp,
        _make_request env (sample_service 2) "GET" "api/tags" no_kwargs
          init_state = (Return resp, st')) /\
     (forall e,
        _make_request env (sample_service 2) "GET" "api/tags" no_kwargs
          init_state = (Raise e, st') ->
        dict_get d "message" = Some (PyStr (str_exc e))))
  /\
  (health_check env (sample_service 0) init_state
   = (Raise (TypeError "exceptions must derive from BaseException"),
      init_state) /\
   check_connection env (sample_service 0) init_state
   = (Raise (TypeError "exceptions must derive from BaseException"),
      init_state)).
Proof.
  intros env. split.
  - apply (proj1 (connection_checks_agree env (sample_service 2) init_state)).
    discriminate.
  - apply (proj2 (connection_checks_agree env (sample_service 0) init_state)).
    reflexivity.
Defined.

(** * Further properties of the cache *)

(** The order of the identities is kept by every method of the
    service: the listing (lemma [bounded_listing_heap]) and the ones
    below. *)
Section HeapFacts.

Variable env : Env.
Variable self : Service.

Lemma heap_ok_same st st' :
  _models_cache st' = _models_cache st -> next_oid st' = next_oid st ->
  heap_ok st -> heap_ok st'.
Proof.
  intros Hc Ho H c Hc'. rewrite Hc in Hc'. rewrite Ho. exact (H c Hc').
Qed.

Lemma make_request_heap method path kwargs st :
  heap_ok st -> heap_ok (snd (_make_request env self method path kwargs st)).
Proof.
  destruct (make_request_sent env self method path kwargs st)
    as (n & _ & _ & Hc & _ & _ & _ & Ho & _).
  apply heap_ok_same; assumption.
Qed.

Lemma tick_time_heap st : heap_ok st -> heap_ok (tick_time st).
Proof. apply heap_ok_same; reflexivity. Qed.

Lemma tick_now_heap st : heap_ok st -> heap_ok (tick_now st).
Proof. apply heap_ok_same; reflexivity. Qed.

(** [refine_prompt] leaves the state as it found it or as its request
    left it. *)
Lemma refine_prompt_state objective target_model st :
  snd (refine_prompt env self objective target_model st) = st
  \/ exists fp,
       snd (refine_prompt env self objective target_model st)
       = snd (_make_request env self "POST" "api/generate"
                (refine_kwargs (py_or target_model (default_model env)) fp
                   (get_meta_prompt_config env)) st).
Proof.
  unfold refine_prompt, format_prompt.
  destruct (str_format env (template (get_meta_prompt_config env)) objective)
    as [e | fp]; [left; reflexivity |].
  right. exists fp.
  unfold bind at 1, ret at 1. unfold try_except. unfold bind at 1.
  destruct (_make_request env self "POST" "api/generate"
              (refine_kwargs (py_or target_model (default_model env)) fp
                 (get_meta_prompt_config env)) st) as [[resp | e] st1].
  - unfold bind, response_json, lift, raise, ret.
    destruct (json resp) as [msg | data]; [same_state |].
    destruct (py_get data "response" (PyStr "")) as [r | e]; [| same_state].
    destruct (py_strip r) as [t | e]; same_state.
  - same_state.
Qed.

(** [test_prompt] leaves the state as its request left it, with one more
    reading of the timer when the request returned. *)
Lemma test_prompt_state system_prompt user_input model temperature timeout_ st :
  snd (test_prompt env self system_prompt user_input model temperature
         timeout_ st)
  = match _make_request env self "POST" "api/generate"
            (test_kwargs (py_or model (default_model env))
               (full_prompt_of system_prompt user_input)
               (if_not_none temperature (default_temperature env))
               (if_not_none timeout_ (PyInt (timeout self))))
            (tick_time st) with
    | (Return _, st1) => tick_time st1
    | (Raise _, st1) => st1
    end.
Proof.
  unfold test_prompt.
  unfold bind at 1, time_now at 1. unfold try_except. unfold bind at 1.
  destruct (_make_request env self "POST" "api/generate"
              (test_kwargs (py_or model (default_model env))
                 (full_prompt_of system_prompt user_input)
                 (if_not_none temperature (default_temperature env))
                 (if_not_none timeout_ (PyInt (timeout self))))
              (tick_time st)) as [[resp | e] st1].
  - unfold bind, time_now, response_json, lift, raise, ret.
    destruct (json resp) as [msg | data]; [same_state |].
    destruct (py_get data "response" (PyStr "")) as [r | e]; [| same_state].
    destruct (py_strip r) as [t | e]; same_state.
  - same_state.
Qed.

Lemma bounded_cache_info_heap st :
  heap_ok st -> heap_ok (snd (Bounded.get_cache_info env self st)).
Proof.
  unfold Bounded.get_cache_info.
  destruct (_models_cache st) as [c |] eqn:Hc;
    [destruct (_models_cache_time st) as [t |] eqn:Ht |];
    try (intros H; exact H).
  unfold bind at 1, now at 1. unfold bind at 1, lift at 1.
  destruct (int_truediv (datetime_now env (now_reads st) - t) 1000000)
    as [x | e]; [| apply tick_now_heap].
  unfold bind at 1.
  destruct (bounded_valid_cases env self (tick_now st))
    as [[Hv _] | [(c' & t' & _ & _ & _ & Hv) | (c' & t' & msg & _ & _ & _ & Hv)]];
    rewrite Hv; cbn [snd]; intros H;
    repeat apply tick_now_heap; exact H.
Qed.

(** Every method other than the listing keeps the identities in order. *)
Lemma heap_ok_kept st :
  heap_ok st ->
  heap_ok (snd (clear_models_cache st)) /\
  heap_ok (snd (Bounded.get_cache_info env self st)) /\
  heap_ok (snd (check_connection env self st)) /\
  heap_ok (snd (health_check env self st)) /\
  (forall objective target_model,
     heap_ok (snd (refine_prompt env self objective target_model st))) /\
  (forall system_prompt user_input model temperature timeout_,
     heap_ok (snd (test_prompt env self system_prompt user_input model
                     temperature timeout_ st))).
Proof.
  intros H.
  split; [intros c Hc; discriminate Hc |].
  split; [apply bounded_cache_info_heap; exact H |].
  pose proof (make_request_heap "GET" "api/tags" no_kwargs st H) as Hreq.
  split.
  { rewrite check_connection_run.
    destruct (_make_request env self "GET" "api/tags" no_kwargs st)
      as [[resp | e] st1]; [exact Hreq |].
    destruct (is_ollama_error e); exact Hreq. }
  split.
  { rewrite health_check_run.
    destruct (_make_request env self "GET" "api/tags" no_kwargs st)
      as [[resp | e] st1]; [exact Hreq |].
    destruct (is_ollama_error e); exact Hreq. }
  split.
  - intros objective target_model.
    destruct (refine_prompt_state objective target_model st)
      as [-> | (fp & ->)]; [exact H | apply make_request_heap; exact H].
  - intros system_prompt user_input model temperature timeout_.
    rewrite test_prompt_state.
    pose proof (make_request_heap "POST" "api/generate"
                  (test_kwargs (py_or model (default_model env))
                     (full_prompt_of system_prompt user_input)
                     (if_not_none temperature (default_temperature env))
                     (if_not_none timeout_ (PyInt (timeout self))))
                  (tick_time st) (tick_time_heap st H)) as Hreq'.
    destruct (_make_request env self "POST" "api/generate"
                (test_kwargs (py_or model (default_model env))
                   (full_prompt_of system_prompt user_input)
                   (if_not_none temperature (default_temperature env))
                   (if_not_none timeout_ (PyInt (timeout self))))
                (tick_time st)) as [[resp | e] st1];
      [apply tick_time_heap |]; exact Hreq'.
Qed.

End HeapFacts.

(** X9.  [get_cache_info] reads the clock and does nothing else: it sends
    nothing, sleeps for nothing, gives out no identity and leaves the cache
    as it is, whether it returns or raises.  Without a snapshot it
    returns at once.  Over a snapshot between 0 and [2^33] seconds old it
    returns when the deadline can be built, and then reports the number of
    cached models, the configured duration, the whole seconds between the
    snapshot and a first reading of the clock, and the validity at a second
    reading; if the clock does not run backwards, a snapshot reported valid
    has a reported age below the duration.  When the deadline cannot be
    built it raises [OverflowError], after the first reading. *)
Theorem get_cache_info_reads_only (env : Env) (self : Service) (st : State) :
  (forall res st',
     Bounded.get_cache_info env self st = (res, st') ->
     _models_cache st' = _models_cache st /\
     _models_cache_time st' = _models_cache_time st /\
     sent st' = sent st /\
     slept st' = slept st /\
     time_reads st' = time_reads st /\
     next_oid st' = next_oid st)
  /\
  (_models_cache st = None \/ _models_cache_time st = None ->
   exists d,
     Bounded.get_cache_info env self st = (Return d, st) /\
     dict_get d "cached" = Some (PyBool false) /\
     dict_get d "cache_valid" = Some (PyBool false) /\
     dict_get d "models_count" = Some (PyInt 0))
  /\
  (forall c t,
     _models_cache st = Some c -> _models_cache_time st = Some t ->
     let t1 := datetime_now env (now_reads st) in
     let t2 := datetime_now env (S (now_reads st)) in
     (0 <= t1 - t < 2 ^ 33 * 1000000)%Z ->
     (deadline_in_range self t ->
      exists d,
        Bounded.get_cache_info env self st = (Return d, tick_now (tick_now st)) /\
        dict_get d "cached" = Some (PyBool true) /\
        dict_get d "models_count" = Some (PyInt (Z.of_nat (length (items c)))) /\
        dict_get d "cache_duration_seconds"
        = Some (PyInt (cache_duration self)) /\
        dict_get d "cache_age_seconds" = Some (PyInt ((t1 - t) / 1000000)) /\
        dict_get d "cache_valid"
        = Some (PyBool (t2 - t <? cache_duration self * 1000000)%Z) /\
        ((t1 <= t2)%Z ->
         (t2 - t < cache_duration self * 1000000)%Z ->
         (0 <= (t1 - t) / 1000000 < cache_duration self)%Z))
     /\
     (~ deadline_in_range self t ->
      exists msg,
        Bounded.get_cache_info env self st
        = (Raise (OverflowError msg), tick_now st))).
Proof.
  split; [| split].
  - intros res st'. unfold Bounded.get_cache_info.
    destruct (_models_cache st) as [c |] eqn:Hc;
      [destruct (_models_cache_time st) as [t |] eqn:Ht |];
      try (intros H; inversion H; subst; repeat split; assumption).
    unfold bind at 1, now at 1. unfold bind at 1, lift at 1.
    destruct (int_truediv (datetime_now env (now_reads st) - t) 1000000)
      as [x | e]; [| intros H; inversion H; subst; repeat split; assumption].
    unfold bind at 1.
    destruct (bounded_valid_cases env self (tick_now st))
      as [[Hv _] | [(c' & t' & _ & _ & _ & Hv) | (c' & t' & msg & _ & _ & _ & Hv)]];
      rewrite Hv; intros H; inversion H; subst; repeat split; assumption.
  - intros H. unfold Bounded.get_cache_info.
    destruct H as [H | H]; rewrite H; [| destruct (_models_cache st)];
      eexists; (split; [reflexivity |]); repeat split.
  - intros c t Hc Ht t1 t2 Hage.
    destruct (int_truediv_seconds (t1 - t) Hage) as (x & Hx & Htrunc).
    assert (Hrun : Bounded.get_cache_info env self st
                   = (valid <- Bounded._is_cache_valid env self ;;
                      ret [ ("cached", PyBool true);
                            ("cache_time", PyStr (isoformat env t));
                            ("cache_age_seconds", PyInt (Qtruncate x));
                            ("cache_valid", PyBool valid);
                            ("models_count",
                              PyInt (Z.of_nat (length (items c))));
                            ("cache_duration_seconds",
                              PyInt (cache_duration self)) ])
                       (tick_now st)).
    { unfold Bounded.get_cache_info. rewrite Hc, Ht.
      unfold bind at 1, now at 1. unfold bind at 1, lift at 1.
      fold t1. rewrite Hx. reflexivity. }
    rewrite Hrun. unfold bind.
    split.
    + intros Hin.
      rewrite (bounded_valid_in_range env self (tick_now st) c t Hc Ht Hin).
      eexists. split; [reflexivity |].
      split; [reflexivity |]. split; [reflexivity |]. split; [reflexivity |].
      split; [cbn; rewrite Htrunc; reflexivity |].
      split.
      * cbn. unfold expiry. fold t2. f_equal. f_equal.
        destruct (t2 <? t + cache_duration self * 1000000)%Z eqn:E.
        -- symmetry. apply Z.ltb_lt. apply Z.ltb_lt in E. lia.
        -- symmetry. apply Z.ltb_ge. apply Z.ltb_ge in E. lia.
      * intros H1 H2. split; [apply Z.div_pos; lia |].
        apply Z.div_lt_upper_bound; lia.
    + intros Hout.
      destruct (bounded_valid_out_of_range env self (tick_now st) c t Hc Ht
                  Hout) as (msg & Hv).
      rewrite Hv. exists msg. reflexivity.
Qed.

(** A snapshot taken at 0, read at 100 s and at 300 s with a duration of
    300 s: 100 whole seconds old and no longer valid.  The same snapshot
    in a service with a duration of [10^12] seconds: [OverflowError]. *)
Lemma get_cache_info_reads_only_witness :
  let env := sample_env (always_ok sample_listing) sample_clock in
  let c := {| oid := 0%nat; items := [PyDict [("name", PyStr "m")]] |} in
  let st := tick_now
              (with_cache_time (Some 0%Z)
                 (with_cache (Some c) (tick_oid init_state))) in
  (exists d,
     Bounded.get_cache_info env (sample_service 3) st
     = (Return d, tick_now (tick_now st)) /\
     dict_get d "cache_age_seconds" = Some (PyInt 100) /\
     dict_get d "cache_valid" = Some (PyBool false))
  /\
  (exists msg,
     Bounded.get_cache_info env (long_cache_service 3) st
     = (Raise (OverflowError msg), tick_now st)).
Proof.
  intros env c st.
  assert (Hage : (0 <= datetime_now env (now_reads st) - 0
                  < 2 ^ 33 * 1000000)%Z)
    by (vm_compute; split; [discriminate | reflexivity]).
  split.
  - destruct (proj1 (proj2 (proj2 (get_cache_info_reads_only env
                                     (sample_service 3) st))
                       c 0%Z eq_refl eq_refl Hage))
      as (d & Hrun & _ & _ & _ & Hsecs & Hvalid & _).
    + vm_compute. repeat split; discriminate.
    + exists d. split; [exact Hrun |]. split; [exact Hsecs | exact Hvalid].
  - apply (proj2 (proj2 (proj2 (get_cache_info_reads_only env
                                  (long_cache_service 3) st))
                    c 0%Z eq_refl eq_refl Hage)).
    vm_compute. intros [_ [_ H]]. apply H. reflexivity.
Defined.

(** X10.  [clear_models_cache] unsets both cache attributes and sends
    nothing.  After it, [get_cache_info] reports [cached = False] with no
    models, and [get_available_models] with [use_cache] true goes to the
    network without consulting the clock: with [max_retries >= 1] it sends
    at least one request. *)
Theorem clear_cache_forces_fetch (env : Env) (self : Service) (st : State) :
  exists st1,
    clear_models_cache st = (Return tt, st1) /\
    _models_cache st1 = None /\
    _models_cache_time st1 = None /\
    sent st1 = sent st /\
    now_reads st1 = now_reads st /\
    get_available_models env self true st1 = fetch_models env self st1 /\
    (exists d,
       get_cache_info env self st1 = (Return d, st1) /\
       dict_get d "cached" = Some (PyBool false) /\
       dict_get d "models_count" = Some (PyInt 0)) /\
    ((1 <= max_retries self)%Z ->
     exists n,
       (1 <= n)%nat /\
       sent (snd (get_available_models env self true st1))
       = (sent st
          ++ repeat (build_request self "GET" "api/tags" no_kwargs) n)%list).
Proof.
  eexists. split; [reflexivity |].
  cbn [_models_cache _models_cache_time sent now_reads with_cache
         with_cache_time].
  split; [reflexivity |]. split; [reflexivity |].
  split; [reflexivity |]. split; [reflexivity |].
  split; [reflexivity |]. split.
  - eexists. split; [reflexivity |]. split; reflexivity.
  - intros Hretries.
    change (get_available_models env self true
              (with_cache_time None (with_cache None st)))
      with (fetch_models env self (with_cache_time None (with_cache None st))).
    rewrite fetch_models_sent.
    destruct (make_request_sent env self "GET" "api/tags" no_kwargs
                (with_cache_time None (with_cache None st)))
      as (n & _ & Hpos & Hframe).
    exists n. split; [exact (Hpos Hretries) |].
    destruct Hframe as (_ & _ & _ & _ & _ & Hsent & _). exact Hsent.
Qed.

Lemma clear_cache_forces_fetch_witness :
  let env := sample_env (always_ok sample_listing) sample_clock in
  let self := sample_service 3 in
  let c := {| oid := 0%nat; items := [PyDict [("name", PyStr "m")]] |} in
  let st := with_cache_time (Some 0%Z)
              (with_cache (Some c) (tick_oid init_state)) in
  exists n,
    (1 <= n)%nat /\
    sent (snd (get_available_models env self true
                 (snd (clear_models_cache st))))
    = (sent st ++ repeat (build_request self "GET" "api/tags" no_kwargs) n)%list.
Proof.
  intros env self c st.
  destruct (clear_cache_forces_fetch env self st)
    as (st1 & Hclear & _ & _ & _ & _ & _ & _ & Hfetch).
  rewrite Hclear. apply Hfetch. discriminate.
Defined.



(** * Further properties of the listing *)

Lemma model_info_shape (record info : PyVal) :
  model_info record = Return info ->
  exists kv d,
    record = PyDict kv /\
    info = PyDict d /\
    map fst d = [ "name"; "size"; "modified_at"; "digest"; "size_mb" ] /\
    dict_get d "name"
    = Some (match dict_get kv "name" with Some v => v | None => PyStr "" end) /\
    dict_get d "size"
    = Some (match dict_get kv "size" with Some v => v | None => PyInt 0 end) /\
    dict_get d "modified_at"
    = Some (match dict_get kv "modified_at" with
            | Some v => v | None => PyStr "" end) /\
    dict_get d "digest"
    = Some (match dict_get kv "digest" with Some v => v | None => PyStr "" end).
Proof.
  destruct record as [| b | n | x | s | l | kv]; try discriminate.
  unfold model_info. cbn [py_get rbind].
  destruct (size_mb_of (PyDict kv)) as [mb | e]; [| discriminate].
  cbn [rbind]. intros H. inversion H.
  exists kv. eexists. split; [reflexivity |]. split; [reflexivity |].
  repeat split.
Qed.

(** X12.  The listing is built all or nothing.  When it is built, it has
    one dict per raw record, in the order of the records, each with the
    keys [name], [size], [modified_at], [digest], [size_mb] and with the
    first four taken from the record or defaulted to [''] (to 0 for the
    size).  A single record that is not a JSON object makes the whole
    listing fail. *)
Theorem listing_is_all_or_nothing (raw : list PyVal) :
  (forall infos,
     model_infos raw = Return infos ->
     length infos = length raw /\
     forall i record,
       nth_error raw i = Some record ->
       exists kv d,
         record = PyDict kv /\
         nth_error infos i = Some (PyDict d) /\
         map fst d = [ "name"; "size"; "modified_at"; "digest"; "size_mb" ] /\
         dict_get d "name"
         = Some (match dict_get kv "name" with
                 | Some v => v | None => PyStr "" end) /\
         dict_get d "size"
         = Some (match dict_get kv "size" with
                 | Some v => v | None => PyInt 0 end) /\
         dict_get d "modified_at"
         = Some (match dict_get kv "modified_at" with
                 | Some v => v | None => PyStr "" end) /\
         dict_get d "digest"
         = Some (match dict_get kv "digest" with
                 | Some v => v | None => PyStr "" end))
  /\
  ((exists record, In record raw /\ forall kv, record <> PyDict kv) ->
   exists e, model_infos raw = Raise e).
Proof.
  split.
  - induction raw as [| r raw IH]; intros infos H.
    + inversion H. split; [reflexivity |].
      intros i record Hi. destruct i; discriminate Hi.
    + cbn [model_infos] in H.
      destruct (model_info r) as [d0 |] eqn:Hr; [| discriminate].
      cbn [rbind] in H.
      destruct (model_infos raw) as [ds |] eqn:Hraw; [| discriminate].
      cbn [rbind] in H. inversion H; subst infos.
      destruct (IH ds eq_refl) as [Hlen Hnth].
      split; [simpl; rewrite Hlen; reflexivity |].
      intros i record Hi. destruct i as [| i].
      * inversion Hi; subst record.
        destruct (model_info_shape r d0 Hr)
          as (kv & d & -> & -> & Hk & H1 & H2 & H3 & H4).
        exists kv, d. repeat split; assumption.
      * exact (Hnth i record Hi).
  - intros (record & Hin & Hnot).
    induction raw as [| r raw IH]; [contradiction |].
    cbn [model_infos].
    destruct Hin as [-> | Hin].
    + destruct record as [| b | n | x | s | l | kv];
        try (eexists; reflexivity).
      exfalso. apply (Hnot kv). reflexivity.
    + destruct (model_info r) as [d0 | e0]; [| eexists; reflexivity].
      destruct (IH Hin) as (e & ->). eexists. reflexivity.
Qed.

Lemma listing_is_all_or_nothing_witness :
  (length [ PyDict [ ("name", PyStr "a"); ("size", PyInt 0);
                     ("modified_at", PyStr ""); ("digest", PyStr "");
                     ("size_mb", PyInt 0) ] ]
   = length [ PyDict [("name", PyStr "a")] ])
  /\
  (exists e,
     model_infos [ PyDict [("name", PyStr "a")]; PyStr "b" ] = Raise e).
Proof.
  split.
  - apply (proj1 (listing_is_all_or_nothing [ PyDict [("name", PyStr "a")] ])
             _ eq_refl).
  - apply (proj2 (listing_is_all_or_nothing
                    [ PyDict [("name", PyStr "a")]; PyStr "b" ])).
    exists (PyStr "b"). split; [right; left; reflexivity | discriminate].
Defined.

(** X13.  What a forced listing makes of the bodies it can get.  A JSON
    object without [models], or with an empty list, string or object under
    it, gives an empty listing, which is cached like any other.  A body
    that is not a JSON object, and a [models] entry that is null or a
    number, make the call fail with [OllamaConnectionError]
    ([Failed to parse models response: ...]) and the cache is not written. *)
Theorem listing_body_edge_cases
        (env : Env) (self : Service) (st st1 : State) (resp : Response)
        (data : PyVal) :
  _make_request env self "GET" "api/tags" no_kwargs st = (Return resp, st1) ->
  json resp = inr data ->
  (forall kv,
     data = PyDict kv ->
     dict_get kv "models" = None
     \/ dict_get kv "models" = Some (PyList [])
     \/ dict_get kv "models" = Some (PyStr "")
     \/ dict_get kv "models" = Some (PyDict []) ->
     exists models c st2,
       get_available_models env self false st = (Return models, st2) /\
       items models = [] /\
       _models_cache st2 = Some c /\ items c = [])
  /\
  ((forall kv, data <> PyDict kv) ->
   get_available_models env self false st
   = (Raise (OllamaConnectionError
               ("Failed to parse models response: '" ++ type_name data
                ++ "' object has no attribute 'get'")),
      tick_oid st1))
  /\
  (forall kv v,
     data = PyDict kv ->
     dict_get kv "models" = Some v ->
     (v = PyNone \/ (exists b, v = PyBool b) \/ (exists n, v = PyInt n)
      \/ (exists x, v = PyFloat x)) ->
     get_available_models env self false st
     = (Raise (OllamaConnectionError
                 ("Failed to parse models response: '" ++ type_name v
                  ++ "' object is not iterable")),
        tick_oid st1)).
Proof.
  intros Hreq Hjson.
  assert (Hfail : forall e,
            rbind (py_get data "models" (PyList [])) py_iter = Raise e ->
            is_ollama_error e = false ->
            get_available_models env self false st
            = (Raise (OllamaConnectionError
                        ("Failed to parse models response: " ++ str_exc e)),
               tick_oid st1)).
  { intros e He Htyped.
    unfold get_available_models. unfold bind at 1, ret at 1.
    unfold fetch_models, try_except. unfold bind at 1. rewrite Hreq.
    unfold bind at 1, response_json. rewrite Hjson. unfold ret at 1.
    unfold bind at 1, new_list at 1.
    unfold bind at 1, lift at 1. rewrite He.
    unfold reraise_or_wrap. rewrite Htyped. reflexivity. }
  split; [| split].
  - intros kv -> Hmodels.
    assert (Hraw : rbind (py_get (PyDict kv) "models" (PyList [])) py_iter
                   = Return []).
    { cbn [py_get rbind].
      destruct Hmodels as [H | [H | [H | H]]]; rewrite H; reflexivity. }
    unfold get_available_models. unfold bind at 1, ret at 1.
    rewrite (fetch_models_success env self st resp st1 (PyDict kv) [] []
               Hreq Hjson Hraw eq_refl).
    eexists. eexists. eexists. split; [reflexivity |].
    split; [reflexivity |]. split; reflexivity.
  - intros Hnot.
    destruct data as [| b | n | x | s | l | kv];
      try (apply (Hfail _ eq_refl eq_refl)).
    exfalso. apply (Hnot kv). reflexivity.
  - intros kv v -> Hv Hscalar.
    assert (He : rbind (py_get (PyDict kv) "models" (PyList [])) py_iter
                 = Raise (TypeError ("'" ++ type_name v
                                     ++ "' object is not iterable"))).
    { cbn [py_get rbind]. rewrite Hv.
      destruct Hscalar as [-> | [(b & ->) | [(n & ->) | (x & ->)]]];
        reflexivity. }
    apply (Hfail _ He eq_refl).
Qed.

Lemma listing_body_edge_cases_witness :
  let env := sample_env (always_ok (PyDict [("models", PyNone)])) sample_clock in
  let self := sample_service 3 in
  get_available_models env self false init_state
  = (Raise (OllamaConnectionError
              ("Failed to parse models response: '" ++ type_name PyNone
               ++ "' object is not iterable")),
     tick_oid (log_request (build_request self "GET" "api/tags" no_kwargs)
                 init_state)).
Proof.
  intros env self.
  apply (proj2 (proj2 (listing_body_edge_cases env self init_state
                         (log_request
                            (build_request self "GET" "api/tags" no_kwargs)
                            init_state)
                         (ok_response (PyDict [("models", PyNone)]))
                         (PyDict [("models", PyNone)])
                         eq_refl eq_refl))
           [("models", PyNone)] PyNone eq_refl eq_refl).
  left. reflexivity.
Defined.

(** * Properties of the validation of the meta-prompt configuration *)

Lemma prefix_iff (sub s : string) :
  String.prefix sub s = true <-> exists b, s = sub ++ b.
Proof.
  revert s. induction sub as [| c sub IH]; intros s.
  - split; [intros _; exists s; reflexivity |].
    intros _. destruct s; reflexivity.
  - destruct s as [| d s]; simpl;
      [split; [discriminate | intros (b & H); discriminate] |].
    destruct (ascii_dec c d) as [-> | Hne].
    + rewrite IH. split; intros (b & H).
      * exists b. rewrite H. reflexivity.
      * exists b. inversion H. reflexivity.
    + split; [discriminate |]. intros (b & H). congruence.
Qed.

(** [sub in s] holds exactly when [s] is [sub] with something before and
    something after. *)
Lemma str_contains_iff (sub s : string) :
  str_contains sub s = true <-> exists a b, s = a ++ sub ++ b.
Proof.
  induction s as [| d s IH].
  - cbn [str_contains]. rewrite orb_false_r, prefix_iff. split.
    + intros (b & H). exists "", b. exact H.
    + intros (a & b & H). destruct a as [| c a]; [exists b; exact H |].
      discriminate H.
  - cbn [str_contains]. rewrite orb_true_iff, IH, prefix_iff. split.
    + intros [(b & H) | (a & b & H)].
      * exists "", b. exact H.
      * exists (String d a), b. rewrite H. reflexivity.
    + intros (a & b & H). destruct a as [| c a].
      * left. exists b. exact H.
      * right. inversion H. exists a, b. reflexivity.
Qed.

Lemma dict_get_app (a b : Dict) (k : string) :
  dict_get (a ++ b)%list k
  = match dict_get a k with Some v => Some v | None => dict_get b k end.
Proof.
  induction a as [| [k' v] a IH]; simpl; [reflexivity |].
  destruct (String.eqb k k'); [reflexivity | exact IH].
Qed.

Lemma has_key_app (a b : Dict) (k : string) :
  has_key (a ++ b)%list k = has_key a k || has_key b k.
Proof.
  unfold has_key. rewrite dict_get_app.
  destruct (dict_get a k); reflexivity.
Qed.

(** X14.  [MetaPromptParameters.validate] reports each field under its own
    key and nothing else, whatever the other fields hold.  The key of the
    temperature is absent exactly when the field is a rational number in
    [0, 2], that of [top_p] when it is one in [0, 1], that of [top_k] when
    it is an [int] that is not negative.  The key of [repeat_penalty] is
    absent when the field is a rational number that is not negative, and
    also when it is [inf] or [nan]: [nan < 0] is false, so a [nan] passes.
    No errors are returned exactly when no key is present. *)
Theorem parameters_errors_name_the_bad_fields (self : ParametersObj) :
  let errors := MetaPromptParameters_validate self in
  (has_key errors "temperature" = false <->
   number_within 0 2 (temperature_of self))
  /\
  (has_key errors "top_p" = false <-> number_within 0 1 (top_p_of self))
  /\
  (has_key errors "top_k" = false <->
   exists v, top_k_of self = AttrVal v /\ is_int v = true /\
             (0 <= num_value v)%Q)
  /\
  (has_key errors "repeat_penalty" = false <->
   repeat_penalty_of self = AttrNaN \/ repeat_penalty_of self = AttrInf false
   \/ exists v, repeat_penalty_of self = AttrVal v /\ is_number v = true /\
                (0 <= num_value v)%Q)
  /\
  (errors = [] <->
   has_key errors "temperature" = false /\ has_key errors "top_p" = false /\
   has_key errors "top_k" = false /\ has_key errors "repeat_penalty" = false)
  /\
  (forall k, has_key errors k = true ->
             k = "temperature" \/ k = "top_p" \/ k = "top_k"
             \/ k = "repeat_penalty").
Proof.
  cbv zeta. unfold MetaPromptParameters_validate, number_within.
  rewrite !has_key_app.
  assert (Hbetween : forall lo hi a,
            attr_is_number a = true /\ attr_between lo hi a = true <->
            exists v, a = AttrVal v /\ is_number v = true /\
                      (lo <= num_value v <= hi)%Q).
  { intros lo hi a. split.
    - intros [Hn Hb]. destruct a as [v | | n]; try discriminate Hb.
      cbn in Hn, Hb. apply andb_true_iff in Hb. destruct Hb as [H1 H2].
      apply Qle_bool_iff in H1, H2. exists v. repeat split; assumption.
    - intros (v & -> & Hn & H1 & H2). cbn. split; [exact Hn |].
      apply andb_true_iff. split; apply Qle_bool_iff; assumption. }
  assert (Hint : forall a,
            attr_is_int a = true /\ attr_negative a = false <->
            exists v, a = AttrVal v /\ is_int v = true /\ (0 <= num_value v)%Q).
  { intros a. split.
    - intros [Hn Hb]. destruct a as [v | | n]; try discriminate Hn.
      cbn in Hn, Hb. apply negb_false_iff, Qle_bool_iff in Hb.
      exists v. repeat split; assumption.
    - intros (v & -> & Hn & H0). cbn. split; [exact Hn |].
      apply negb_false_iff, Qle_bool_iff. exact H0. }
  assert (Hnonneg : forall a,
            attr_is_number a = true /\ attr_negative a = false <->
            a = AttrNaN \/ a = AttrInf false
            \/ exists v, a = AttrVal v /\ is_number v = true /\
                         (0 <= num_value v)%Q).
  { intros a. split.
    - intros [Hn Hb]. destruct a as [v | | n].
      + cbn in Hn, Hb. apply negb_false_iff, Qle_bool_iff in Hb.
        right. right. exists v. repeat split; assumption.
      + left. reflexivity.
      + cbn in Hb. subst n. right. left. reflexivity.
    - intros [-> | [-> | (v & -> & Hn & H0)]]; cbn; try (split; reflexivity).
      split; [exact Hn |]. apply negb_false_iff, Qle_bool_iff. exact H0. }
  rewrite <- (Hbetween 0 2 (temperature_of self)).
  rewrite <- (Hbetween 0 1 (top_p_of self)).
  rewrite <- (Hint (top_k_of self)).
  rewrite <- (Hnonneg (repeat_penalty_of self)).
  destruct (attr_is_number (temperature_of self));
  destruct (attr_between 0 2 (temperature_of self));
  destruct (attr_is_number (top_p_of self));
  destruct (attr_between 0 1 (top_p_of self));
  destruct (attr_is_int (top_k_of self));
  destruct (attr_negative (top_k_of self));
  destruct (attr_is_number (repeat_penalty_of self));
  destruct (attr_negative (repeat_penalty_of self));
  cbn [negb app has_key dict_get String.eqb Ascii.eqb Bool.eqb orb];
  (split; [| split; [| split; [| split; [| split]]]]);
  try (split; intros; try discriminate; try tauto;
       repeat match goal with H : _ /\ _ |- _ => destruct H end;
       try discriminate; try reflexivity; fail);
  intros k; unfold has_key; cbn [dict_get];
  repeat match goal with
         | |- context [String.eqb k ?n] =>
             destruct (String.eqb_spec k n); [tauto |]
         end;
  intros; discriminate.
Qed.

(** A temperature of 2.5 is reported under its own key; a [repeat_penalty]
    of [nan] is not reported. *)
Lemma parameters_errors_name_the_bad_fields_witness :
  let self := {| temperature_of := AttrVal (PyFloat (5 # 2));
                 top_p_of := AttrVal (PyFloat (9 # 10));
                 top_k_of := AttrVal (PyInt 0);
                 repeat_penalty_of := AttrNaN |} in
  has_key (MetaPromptParameters_validate self) "repeat_penalty" = false
  /\
  ("temperature" = "temperature" \/ "temperature" = "top_p"
   \/ "temperature" = "top_k" \/ "temperature" = "repeat_penalty").
Proof.
  intros self. split.
  - apply (proj2 (proj1 (proj2 (proj2 (proj2
             (parameters_errors_name_the_bad_fields self)))))).
    left. reflexivity.
  - apply (proj2 (proj2 (proj2 (proj2 (proj2
             (parameters_errors_name_the_bad_fields self)))))
             "temperature").
    reflexivity.
Defined.

Lemma parameters_obj_valid_iff (p : MetaPromptParameters) :
  MetaPromptParameters_validate (parameters_obj p) = [] <->
  (0 <= mp_temperature p <= 2)%Q /\ (0 <= mp_top_p p <= 1)%Q /\
  (0 <= mp_top_k p)%Z /\ (0 <= mp_repeat_penalty p)%Q.
Proof.
  unfold MetaPromptParameters_validate, parameters_obj.
  cbn [temperature_of top_p_of top_k_of repeat_penalty_of attr_is_number
         attr_is_int attr_between attr_negative is_number is_int num_value
         negb].
  assert (Hk : Qle_bool 0 (inject_Z (mp_top_k p)) = true <-> (0 <= mp_top_k p)%Z).
  { rewrite Qle_bool_iff. change 0%Q with (inject_Z 0).
    rewrite <- Zle_Qle. reflexivity. }
  rewrite <- Hk, <- !Qle_bool_iff.
  destruct (Qle_bool 0 (mp_temperature p)), (Qle_bool (mp_temperature p) 2),
    (Qle_bool 0 (mp_top_p p)), (Qle_bool (mp_top_p p) 1),
    (Qle_bool 0 (inject_Z (mp_top_k p))), (Qle_bool 0 (mp_repeat_penalty p));
    cbn; split; intros; try discriminate; try tauto;
    repeat match goal with H : _ /\ _ |- _ => destruct H end;
    try discriminate.
Qed.

(** The validation of parameters as the loader builds them: three floats
    and an [int]. *)
Lemma loaded_parameters_valid_iff (parameters_ : ParametersObj) (k : Z) :
  is_float_attr (temperature_of parameters_) ->
  is_float_attr (top_p_of parameters_) ->
  is_float_attr (repeat_penalty_of parameters_) ->
  top_k_of parameters_ = AttrVal (PyInt k) ->
  (MetaPromptParameters_validate parameters_ = [] <->
   (exists x, temperature_of parameters_ = AttrVal (PyFloat x)
              /\ (0 <= x <= 2)%Q) /\
   (exists x, top_p_of parameters_ = AttrVal (PyFloat x) /\ (0 <= x <= 1)%Q) /\
   (0 <= k)%Z /\
   (repeat_penalty_of parameters_ = AttrNaN
    \/ repeat_penalty_of parameters_ = AttrInf false
    \/ exists x, repeat_penalty_of parameters_ = AttrVal (PyFloat x)
                 /\ (0 <= x)%Q)).
Proof.
  intros Ht Hp Hr Hk.
  unfold MetaPromptParameters_validate. rewrite Hk.
  cbn [attr_is_int attr_negative is_int num_value negb].
  assert (Hk0 : Qle_bool 0 (inject_Z k) = true <-> (0 <= k)%Z).
  { rewrite Qle_bool_iff. change 0%Q with (inject_Z 0).
    rewrite <- Zle_Qle. reflexivity. }
  rewrite <- Hk0.
  assert (Hrange : forall lo hi a,
            is_float_attr a ->
            (attr_between lo hi a = true <->
             exists x, a = AttrVal (PyFloat x) /\ (lo <= x <= hi)%Q)).
  { intros lo hi a [-> | [(n & ->) | (x & ->)]]; cbn.
    - split; [discriminate | intros (x & H & _); discriminate H].
    - split; [discriminate | intros (x & H & _); discriminate H].
    - rewrite andb_true_iff, !Qle_bool_iff. split.
      + intros H. exists x. split; [reflexivity | exact H].
      + intros (y & H & Hy). inversion H; subst. exact Hy. }
  assert (Hnum : forall a, is_float_attr a -> attr_is_number a = true).
  { intros a [-> | [(n & ->) | (x & ->)]]; reflexivity. }
  assert (Hneg : forall a,
            is_float_attr a ->
            (attr_negative a = false <->
             a = AttrNaN \/ a = AttrInf false
             \/ exists x, a = AttrVal (PyFloat x) /\ (0 <= x)%Q)).
  { intros a [-> | [(n & ->) | (x & ->)]]; cbn.
    - split; [left; reflexivity | reflexivity].
    - split.
      + intros ->. right. left. reflexivity.
      + intros [H | [H | (x & H & _)]]; try discriminate H.
        inversion H. reflexivity.
    - rewrite negb_false_iff, Qle_bool_iff. split.
      + intros H. right. right. exists x. split; [reflexivity | exact H].
      + intros [H | [H | (y & H & Hy)]]; try discriminate H.
        inversion H; subst. exact Hy. }
  rewrite <- (Hrange 0 2 _ Ht), <- (Hrange 0 1 _ Hp), <- (Hneg _ Hr).
  rewrite (Hnum _ Ht), (Hnum _ Hp), (Hnum _ Hr).
  destruct (attr_between 0 2 (temperature_of parameters_)),
    (attr_between 0 1 (top_p_of parameters_)),
    (Qle_bool 0 (inject_Z k)),
    (attr_negative (repeat_penalty_of parameters_));
    cbn; split; intros; try discriminate; try tauto;
    repeat match goal with H : _ /\ _ |- _ => destruct H end;
    try discriminate.
Qed.

(** X15.  [MetaPromptConfig.validate] returns no errors exactly when the
    template is a string with [{objective}] somewhere in it and the
    parameters have no errors.  For parameters as the loader builds them,
    three floats and an [int], that is: the temperature is a rational
    float in [0, 2], [top_p] one in [0, 1], [top_k] is not negative, and
    [repeat_penalty] is a float that is not negative or is [nan].  Errors
    of the parameters are reported as a dict under [parameters], whatever
    the template is. *)
Theorem config_valid_iff_placeholder_and_ranges
        (template_ : PyVal) (parameters_ : ParametersObj) :
  (MetaPromptConfig_validate template_ parameters_ = [] <->
   (exists a b, template_ = PyStr (a ++ "{objective}" ++ b)) /\
   MetaPromptParameters_validate parameters_ = [])
  /\
  (forall k,
     is_float_attr (temperature_of parameters_) ->
     is_float_attr (top_p_of parameters_) ->
     is_float_attr (repeat_penalty_of parameters_) ->
     top_k_of parameters_ = AttrVal (PyInt k) ->
     (MetaPromptConfig_validate template_ parameters_ = [] <->
      (exists a b, template_ = PyStr (a ++ "{objective}" ++ b)) /\
      (exists x, temperature_of parameters_ = AttrVal (PyFloat x)
                 /\ (0 <= x <= 2)%Q) /\
      (exists x, top_p_of parameters_ = AttrVal (PyFloat x)
                 /\ (0 <= x <= 1)%Q) /\
      (0 <= k)%Z /\
      (repeat_penalty_of parameters_ = AttrNaN
       \/ repeat_penalty_of parameters_ = AttrInf false
       \/ exists x, repeat_penalty_of parameters_ = AttrVal (PyFloat x)
                    /\ (0 <= x)%Q)))
  /\
  (MetaPromptParameters_validate parameters_ <> [] ->
   dict_get (MetaPromptConfig_validate template_ parameters_) "parameters"
   = Some (PyDict (MetaPromptParameters_validate parameters_))).
Proof.
  assert (Hmain :
    MetaPromptConfig_validate template_ parameters_ = [] <->
    (exists a b, template_ = PyStr (a ++ "{objective}" ++ b)) /\
    MetaPromptParameters_validate parameters_ = []).
  { unfold MetaPromptConfig_validate. cbv zeta.
    split.
    - intros H. apply app_eq_nil in H. destruct H as [Ht Hp].
      split.
      + destruct template_ as [| b | n | x | s | l | kv];
          cbn [is_str negb] in Ht; rewrite ?orb_true_r in Ht;
          try discriminate Ht.
        cbn [truthy is_str negb orb] in Ht. rewrite orb_false_r in Ht.
        destruct (PyStr.is_empty s) eqn:Es; [discriminate Ht |].
        cbn [negb orb] in Ht.
        destruct (str_contains "{objective}" s) eqn:Ec; [| discriminate Ht].
        apply str_contains_iff in Ec. destruct Ec as (a & b & ->).
        exists a, b. reflexivity.
      + destruct (MetaPromptParameters_validate parameters_);
          [reflexivity | discriminate Hp].
    - intros [(a & b & ->) Hp]. rewrite Hp.
      cbn [truthy is_str negb orb].
      assert (Hc : str_contains "{objective}" (a ++ "{objective}" ++ b) = true).
      { apply str_contains_iff. exists a, b. reflexivity. }
      rewrite Hc.
      destruct (a ++ "{objective}" ++ b) eqn:E.
      + destruct a; discriminate E.
      + reflexivity. }
  split; [exact Hmain |]. split.
  - intros k Ht Hp Hr Hk.
    rewrite Hmain, (loaded_parameters_valid_iff parameters_ k Ht Hp Hr Hk).
    reflexivity.
  - intros Hne. unfold MetaPromptConfig_validate. cbv zeta.
    rewrite dict_get_app.
    destruct (MetaPromptParameters_validate parameters_) as [| e errs];
      [contradiction |].
    destruct template_ as [| b | n | x | s | l | kv];
      cbn [truthy is_str negb orb]; try reflexivity.
    + destruct b; reflexivity.
    + destruct (n =? 0)%Z; reflexivity.
    + destruct (Qnum x =? 0)%Z; reflexivity.
    + destruct (PyStr.is_empty s); cbn [negb orb]; [reflexivity |].
      destruct (str_contains "{objective}" s); reflexivity.
    + destruct l; reflexivity.
    + destruct kv; reflexivity.
Qed.

(** A configuration whose [repeat_penalty] was loaded from [.nan], with
    the rest in range, validates clean; one with a temperature of 2.5
    reports its parameters. *)
Lemma config_valid_iff_placeholder_and_ranges_witness :
  let loaded := {| temperature_of := AttrVal (PyFloat (3 # 10));
                   top_p_of := AttrVal (PyFloat (9 # 10));
                   top_k_of := AttrVal (PyInt 0);
                   repeat_penalty_of := AttrNaN |} in
  let bad := {| temperature_of := AttrVal (PyFloat (5 # 2));
                top_p_of := AttrVal (PyFloat (9 # 10));
                top_k_of := AttrVal (PyInt 0);
                repeat_penalty_of := AttrVal (PyFloat (11 # 10)) |} in
  MetaPromptConfig_validate (PyStr "Do this: {objective}.") loaded = []
  /\
  dict_get (MetaPromptConfig_validate (PyStr "no placeholder") bad) "parameters"
  = Some (PyDict [("temperature",
                    PyStr "Temperature must be between 0.0 and 2.0")]).
Proof.
  intros loaded bad. split.
  - apply (proj2 (proj1 (proj2 (config_valid_iff_placeholder_and_ranges
                                  (PyStr "Do this: {objective}.") loaded))
                    0%Z
                    (or_intror (or_intror (ex_intro _ (3 # 10) eq_refl)))
                    (or_intror (or_intror (ex_intro _ (9 # 10) eq_refl)))
                    (or_introl eq_refl) eq_refl)).
    split; [exists "Do this: ", "."; reflexivity |].
    split; [exists (3 # 10); split; [reflexivity | split; discriminate] |].
    split; [exists (9 # 10); split; [reflexivity | split; discriminate] |].
    split; [discriminate | left; reflexivity].
  - apply (proj2 (proj2 (config_valid_iff_placeholder_and_ranges
                           (PyStr "no placeholder") bad))).
    discriminate.
Defined.

(** * Properties of the start-up checks *)

(** The loop, when no check that is left exits: the names it adds are
    those of the checks that returned [False] or raised, in order. *)
Lemma run_checks_collects (checks : list (string * CheckOutcome)) :
  forall failed,
  (forall name code, ~ In (name, CheckExits code) checks) ->
  run_checks checks failed
  = inr (failed
         ++ map fst
              (filter (fun c => match snd c with
                                | CheckReturns v => is_False v
                                | CheckRaises _ => true
                                | CheckExits _ => false
                                end) checks))%list.
Proof.
  induction checks as [| [name o] checks IH]; intros failed Hno.
  - simpl. rewrite app_nil_r. reflexivity.
  - assert (Hrest : forall n c, ~ In (n, CheckExits c) checks).
    { intros n c Hin. apply (Hno n c). right. exact Hin. }
    cbn [run_checks filter snd].
    destruct o as [v | e | code].
    + destruct (is_False v).
      * rewrite (IH _ Hrest). cbn [map fst]. rewrite <- app_assoc. reflexivity.
      * apply (IH _ Hrest).
    + rewrite (IH _ Hrest). cbn [map fst]. rewrite <- app_assoc. reflexivity.
    + exfalso. apply (Hno name code). left. reflexivity.
Qed.

Ltac not_an_exit :=
  let c := fresh "c" in
  let H := fresh "H" in
  intros (c & H); discriminate H.

Ltac first_exit :=
  first
    [ left; reflexivity
    | right; left; split; [not_an_exit | reflexivity]
    | right; right; left;
      split; [not_an_exit | split; [not_an_exit | reflexivity]]
    | right; right; right; left;
      split; [not_an_exit
             | split; [not_an_exit | split; [not_an_exit | reflexivity]]]
    | right; right; right; right;
      split; [not_an_exit
             | split; [not_an_exit
                      | split; [not_an_exit
                               | split; [not_an_exit | reflexivity]]]] ].

Ltac exit_found :=
  repeat match goal with
         | H : _ \/ _ |- _ => destruct H
         | H : _ /\ _ |- _ => destruct H
         end;
  try discriminate;
  try (match goal with
       | H : CheckExits _ = CheckExits _ |- _ => inversion H; reflexivity
       end);
  try (exfalso;
       match goal with
       | H : ~ _ |- _ => apply H; eexists; reflexivity
       end).

(** X16.  [run_initialization_checks] returns [True] exactly when each of
    the five checks returned something that is not [False]: a check that
    returns [None] passes, one that raises an exception fails, and in both
    cases the checks after it are still taken into account.  It leaves with
    a [SystemExit] exactly when one of the five checks does: the exit code
    is that of the first check that exits, whichever of the five it is and
    whatever the checks after it would do.  When no check exits it
    returns. *)
Theorem initialization_checks_pass_iff_none_fails
        (python_version virtual_environment dependencies database
           ollama_connection : CheckOutcome) :
  let passes o := exists v, o = CheckReturns v /\ v <> PyBool false in
  let exits o := exists c, o = CheckExits c in
  let run := run_initialization_checks python_version virtual_environment
               dependencies database ollama_connection in
  (run = inr true
   <-> passes python_version /\ passes virtual_environment
       /\ passes dependencies /\ passes database /\ passes ollama_connection)
  /\
  (forall code,
     run = inl code
     <-> python_version = CheckExits code
         \/ (~ exits python_version /\ virtual_environment = CheckExits code)
         \/ (~ exits python_version /\ ~ exits virtual_environment
             /\ dependencies = CheckExits code)
         \/ (~ exits python_version /\ ~ exits virtual_environment
             /\ ~ exits dependencies /\ database = CheckExits code)
         \/ (~ exits python_version /\ ~ exits virtual_environment
             /\ ~ exits dependencies /\ ~ exits database
             /\ ollama_connection = CheckExits code))
  /\
  ((exists b, run = inr b)
   <-> ~ exits python_version /\ ~ exits virtual_environment
       /\ ~ exits dependencies /\ ~ exits database
       /\ ~ exits ollama_connection).
Proof.
  cbv zeta.
  assert (Hpass : forall o,
            (exists v, o = CheckReturns v /\ v <> PyBool false) <->
            match o with
            | CheckReturns v => is_False v = false
            | _ => False
            end).
  { intros o. split.
    - intros (v & -> & Hv).
      destruct v as [| [] | | | | |]; try reflexivity. contradiction.
    - destruct o as [v | e | c]; try contradiction.
      intros H. exists v. split; [reflexivity |].
      intros ->. discriminate H. }
  split; [| split].
  - rewrite !Hpass. unfold run_initialization_checks. cbn [run_checks].
    destruct python_version as [v1 | e1 | c1];
      destruct virtual_environment as [v2 | e2 | c2];
      destruct dependencies as [v3 | e3 | c3];
      destruct database as [v4 | e4 | c4];
      destruct ollama_connection as [v5 | e5 | c5];
      try destruct (is_False v1); try destruct (is_False v2);
      try destruct (is_False v3); try destruct (is_False v4);
      try destruct (is_False v5);
      cbn; split; intros H; try discriminate H; try tauto;
      repeat match goal with H : _ /\ _ |- _ => destruct H end;
      try discriminate; try contradiction.
  - intros code. unfold run_initialization_checks. cbn [run_checks].
    destruct python_version as [v1 | e1 | c1];
      [destruct (is_False v1) | |];
      try (split; [intros H; inversion H; subst; first_exit
                  | intros H; exit_found]; fail);
      (destruct virtual_environment as [v2 | e2 | c2];
       [destruct (is_False v2) | |]);
      try (split; [intros H; inversion H; subst; first_exit
                  | intros H; exit_found]; fail);
      (destruct dependencies as [v3 | e3 | c3];
       [destruct (is_False v3) | |]);
      try (split; [intros H; inversion H; subst; first_exit
                  | intros H; exit_found]; fail);
      (destruct database as [v4 | e4 | c4];
       [destruct (is_False v4) | |]);
      try (split; [intros H; inversion H; subst; first_exit
                  | intros H; exit_found]; fail);
      (destruct ollama_connection as [v5 | e5 | c5];
       [destruct (is_False v5) | |]);
      cbn;
      (split; [intros H; first [discriminate H
                               | inversion H; subst; first_exit]
              | intros H; exit_found]).
  - unfold run_initialization_checks. cbn [run_checks].
    destruct python_version as [v1 | e1 | c1];
      [destruct (is_False v1) | |];
      try (split; [intros (b & H); discriminate H
                  | intros H; exfalso; exit_found]; fail);
      (destruct virtual_environment as [v2 | e2 | c2];
       [destruct (is_False v2) | |]);
      try (split; [intros (b & H); discriminate H
                  | intros H; exfalso; exit_found]; fail);
      (destruct dependencies as [v3 | e3 | c3];
       [destruct (is_False v3) | |]);
      try (split; [intros (b & H); discriminate H
                  | intros H; exfalso; exit_found]; fail);
      (destruct database as [v4 | e4 | c4];
       [destruct (is_False v4) | |]);
      try (split; [intros (b & H); discriminate H
                  | intros H; exfalso; exit_found]; fail);
      (destruct ollama_connection as [v5 | e5 | c5];
       [destruct (is_False v5) | |]);
      cbn;
      (split; [intros (b & H);
               first [discriminate H
                     | repeat split; not_an_exit]
              | intros H;
                first [eexists; reflexivity | exfalso; exit_found]]).
Qed.

(** Five checks that pass, two of them by returning [None]; a run that
    the database check, the fourth, leaves with code 1; and one that the
    Ollama check, the last, leaves with code 3. *)
Lemma initialization_checks_pass_iff_none_fails_witness :
  run_initialization_checks (CheckReturns PyNone) (CheckReturns PyNone)
    (CheckReturns (PyBool true)) (CheckReturns (PyBool true))
    (CheckReturns (PyBool true)) = inr true
  /\
  run_initialization_checks (CheckReturns PyNone)
    (CheckRaises (OtherException "OSError" "no venv"))
    (CheckReturns (PyBool false)) (CheckExits 1)
    (CheckReturns (PyBool true)) = inl 1%Z
  /\
  run_initialization_checks (CheckReturns PyNone) (CheckReturns PyNone)
    (CheckReturns (PyBool false)) (CheckReturns (PyBool true))
    (CheckExits 3) = inl 3%Z.
Proof.
  split; [| split].
  - apply (proj1 (initialization_checks_pass_iff_none_fails
                    (CheckReturns PyNone) (CheckReturns PyNone)
                    (CheckReturns (PyBool true)) (CheckReturns (PyBool true))
                    (CheckReturns (PyBool true)))).
    repeat split; eexists; (split; [reflexivity | discriminate]).
  - apply (proj1 (proj2 (initialization_checks_pass_iff_none_fails
                           (CheckReturns PyNone)
                           (CheckRaises (OtherException "OSError" "no venv"))
                           (CheckReturns (PyBool false)) (CheckExits 1)
                           (CheckReturns (PyBool true)))) 1%Z).
    right. right. right. left.
    repeat split; try reflexivity; intros (c & H); discriminate H.
  - apply (proj1 (proj2 (initialization_checks_pass_iff_none_fails
                           (CheckReturns PyNone) (CheckReturns PyNone)
                           (CheckReturns (PyBool false))
                           (CheckReturns (PyBool true)) (CheckExits 3))) 3%Z).
    right. right. right. right.
    repeat split; try reflexivity; intros (c & H); discriminate H.
Defined.

(** * Properties of the schema migration *)

Lemma has_objective_iff (columns : list string) :
  existsb (String.eqb "objective") columns = true <-> In "objective" columns.
Proof.
  rewrite existsb_exists. split.
  - intros (x & Hin & Heq). apply String.eqb_eq in Heq. subst x. exact Hin.
  - intros Hin. exists "objective". split; [exact Hin | apply String.eqb_refl].
Qed.

(** Takes apart what is known in one case of [migrate]. *)
Ltac migrate_facts :=
  repeat match goal with
         | H : _ /\ _ |- _ => destruct H
         | H : exists _, _ |- _ => destruct H
         | H : _ \/ _ |- _ => destruct H
         | H : False |- _ => destruct H
         | H : inr _ = inr _ |- _ => inversion H; clear H; subst
         | H : Return _ = Return _ |- _ => inversion H; clear H
         | H : Some _ = None |- _ => discriminate H
         | H : inl _ = inr _ |- _ => discriminate H
         | H : false = true |- _ => discriminate H
         | H : @eq DbAction _ _ |- _ => discriminate H
         | H : @eq (Result bool) _ _ |- _ => discriminate H
         end.

(** Settles the statements about one case of [migrate], but for the
    columns to exhibit. *)
Ltac migrate_case :=
  cbn [fst snd In];
  repeat match goal with
         | |- _ /\ _ => split
         | |- _ <-> _ => split
         | |- forall _, _ => intro
         | |- ~ _ => intro
         end;
  migrate_facts;
  try contradiction; try reflexivity; try tauto.

(** X17.  [migrate] issues the [ALTER TABLE] exactly when the file exists,
    the connection opens and the table lists no column [objective]; it
    commits only after that statement went through.  It returns [True]
    exactly when the column was already listed or the statement and the
    commit both went through, and on a database that lists the column it
    changes nothing: no [ALTER TABLE], no commit. *)
Theorem migrate_adds_the_column_only_when_missing (db : Database) :
  let alter := Execute "ALTER TABLE prompts ADD COLUMN objective TEXT" in
  (In alter (snd (migrate db)) <->
   db_exists db = true /\ connect_raises db = None /\
   exists columns, table_info db = inr columns /\ ~ In "objective" columns)
  /\
  (In Commit (snd (migrate db)) <->
   In alter (snd (migrate db)) /\ alter_raises db = None)
  /\
  (fst (migrate db) = Return true <->
   db_exists db = true /\ connect_raises db = None /\
   exists columns,
     table_info db = inr columns /\
     (In "objective" columns
      \/ (alter_raises db = None /\ commit_raises db = None)))
  /\
  (forall columns,
     db_exists db = true -> connect_raises db = None ->
     table_info db = inr columns -> In "objective" columns ->
     fst (migrate db) = Return true /\
     ~ In alter (snd (migrate db)) /\ ~ In Commit (snd (migrate db))).
Proof.
  cbv zeta. unfold migrate.
  destruct db as [path ex conn info alt com]; cbn [db_path db_exists
    connect_raises table_info alter_raises commit_raises].
  destruct ex; cbn [negb]; [| migrate_case].
  destruct conn as [e |]; [migrate_case |].
  destruct info as [e | columns]; [migrate_case |].
  destruct (existsb (String.eqb "objective") columns) eqn:Eobj.
  - apply has_objective_iff in Eobj. migrate_case.
    exists columns. split; [reflexivity | left; exact Eobj].
  - assert (Hno : ~ In "objective" columns).
    { intros Hin. apply has_objective_iff in Hin. congruence. }
    destruct alt as [e |]; [| destruct com as [e |]]; migrate_case;
      try (exists columns; split; [reflexivity | tauto]).
Qed.

Lemma migrate_adds_the_column_only_when_missing_witness :
  let db := {| db_path := "promptlab.db"; db_exists := true;
               connect_raises := None;
               table_info := inr ["id"; "name"; "objective"];
               alter_raises := None; commit_raises := None |} in
  let alter := Execute "ALTER TABLE prompts ADD COLUMN objective TEXT" in
  fst (migrate db) = Return true /\
  ~ In alter (snd (migrate db)) /\ ~ In Commit (snd (migrate db)).
Proof.
  intros db alter.
  apply (proj2 (proj2 (proj2 (migrate_adds_the_column_only_when_missing db)))
           ["id"; "name"; "objective"]); try reflexivity.
  right; right; left; reflexivity.
Defined.

(** X18.  [migrate] closes the connection it opened, on every path: when a
    connection was opened, opening it is the first thing done, closing it
    the last, and neither happens a second time; when none was opened,
    nothing is executed, committed or closed.  When opening the connection
    is what fails, the call does not return [False]: the [finally] clause
    raises [UnboundLocalError]. *)
Theorem migrate_closes_the_connection (db : Database) :
  (In Connect (snd (migrate db)) ->
   hd_error (snd (migrate db)) = Some Connect /\
   last (snd (migrate db)) Connect = Close /\
   ~ In Connect (tl (snd (migrate db))) /\
   ~ In Close (removelast (snd (migrate db))))
  /\
  (~ In Connect (snd (migrate db)) ->
   forall a, In a (snd (migrate db)) -> exists msg, a = Print msg)
  /\
  (forall e,
     db_exists db = true -> connect_raises db = Some e ->
     exists e',
       migrate db = (Raise e', [Print ("Migration failed: " ++ str_exc e)]) /\
       class_name e' = "UnboundLocalError")
  /\
  (db_exists db = false ->
   migrate db = (Return false, [Print ("Database not found at " ++ db_path db)])).
Proof.
  unfold migrate.
  destruct db as [path ex conn info alt com]; cbn [db_path db_exists
    connect_raises table_info alter_raises commit_raises].
  assert (Hprint : forall (msg : string) (a : DbAction),
            In a [Print msg] -> exists m, a = Print m).
  { intros msg a [<- | []]. exists msg. reflexivity. }
  destruct ex; cbn [negb].
  2:{ cbn [fst snd]. split; [intros [H | []]; discriminate H |].
      split; [intros _; apply Hprint |].
      split; [intros e H; discriminate H | reflexivity]. }
  destruct conn as [e |].
  { cbn [fst snd]. split; [intros [H | []]; discriminate H |].
    split; [intros _; apply Hprint |].
    split; [| intros H; discriminate H].
    intros e0 _ H. inversion H; subst e0.
    eexists. split; reflexivity. }
  assert (Hopen : forall trace : list DbAction,
            ~ In Connect (Connect :: trace) ->
            forall a, In a (Connect :: trace) -> exists msg, a = Print msg).
  { intros trace Hnot. exfalso. apply Hnot. left. reflexivity. }
  destruct info as [e | columns];
    [| destruct (existsb (String.eqb "objective") columns);
       [| destruct alt as [e |]; [| destruct com as [e |]]]];
    cbn [fst snd hd_error last tl removelast];
    (split; [intros _; repeat split; cbn [In]; intros H; migrate_facts |]);
    (split; [apply Hopen |]);
    (split; [intros e0 _ H; discriminate H | intros H; discriminate H]).
Qed.

Lemma migrate_closes_the_connection_witness :
  let db := {| db_path := "promptlab.db"; db_exists := true;
               connect_raises :=
                 Some (OtherException "OperationalError"
                         "unable to open database file");
               table_info := inr ["id"; "name"];
               alter_raises := None; commit_raises := None |} in
  exists e',
    migrate db
    = (Raise e',
       [Print ("Migration failed: " ++ "unable to open database file")]) /\
    class_name e' = "UnboundLocalError".
Proof.
  intros db.
  apply (proj1 (proj2 (proj2 (migrate_closes_the_connection db)))
           (OtherException "OperationalError" "unable to open database file"));
    reflexivity.
Defined.

(** * The transport after some retried failures *)

Section DecidingAttempt.

Variable env : Env.
Variable self : Service.

(** [k] retried outcomes, then an attempt that ends the call with [out]:
    the loop ends with [out] after [k + 1] requests and [k] waits. *)
Lemma for_attempts_decided rq (out : Result Response) :
  forall (k a j : nat) last st,
  (a + k + S j)%nat = Z.to_nat (max_retries self) ->
  (forall i, (i < k)%nat ->
     exists e, retried_as self
                 (session_request env (length (sent st) + i) rq) e) ->
  (forall st0 attempt,
     length (sent st0) = (length (sent st) + k)%nat ->
     attempt_body env self rq attempt st0
     = (match out with
        | Return r => Return (inl r)
        | Raise e => Raise e
        end, log_request rq st0)) ->
  exists st',
    for_attempts env self rq (seq a (k + S j)) last st = (out, st') /\
    sent st' = (sent st ++ repeat rq (S k))%list /\
    slept st'
    = (slept st ++ map (fun attempt => (2 ^ Z.of_nat attempt)%Z) (seq a k))%list.
Proof.
  induction k as [| k IH]; intros a j last st Hsum Hall Hlast.
  - cbn [Nat.add seq]. rewrite for_attempts_cons.
    rewrite (Hlast st a) by lia.
    exists (log_request rq st).
    split; [destruct out; reflexivity |].
    simpl. rewrite app_nil_r. split; reflexivity.
  - destruct (Hall 0%nat ltac:(lia)) as (e0 & He0).
    rewrite Nat.add_0_r in He0.
    cbn [Nat.add seq]. rewrite for_attempts_cons.
    rewrite (attempt_retried env self rq a st e0 He0).
    unfold after_retry.
    replace (Z.of_nat a <? max_retries self - 1)%Z with true
      by (symmetry; apply Z.ltb_lt; lia).
    set (st1 := log_sleep (2 ^ Z.of_nat a) (log_request rq st)).
    assert (Hlen : length (sent st1) = S (length (sent st))).
    { subst st1; simpl. rewrite length_app; simpl; lia. }
    destruct (IH (S a) j (Some e0) st1) as (st' & Hrun & Hsent & Hslept).
    + lia.
    + intros i Hi. rewrite Hlen.
      replace (S (length (sent st)) + i)%nat
        with (length (sent st) + S i)%nat by lia.
      apply Hall. lia.
    + intros st0 attempt H0. apply Hlast. rewrite H0, Hlen. lia.
    + exists st'. split; [exact Hrun |]. split.
      * rewrite Hsent. subst st1; simpl. rewrite <- app_assoc. reflexivity.
      * rewrite Hslept. subst st1; simpl. rewrite <- app_assoc. reflexivity.
Qed.

End DecidingAttempt.

(** X19.  After [k < max_retries] attempts that ended in timeouts, refused
    connections or 5xx responses, in any mix, the next attempt decides.  A
    response with a status below 400 or from 600 on is returned as it is; a
    response with a status in [400, 499] makes the call raise the API
    error, and the failures collected before are dropped.  Either way
    [k + 1] requests were sent and the waits were [2^0, ..., 2^(k-1)]. *)
Theorem attempt_after_retries_decides
        (env : Env) (self : Service) (method path : string) (kwargs : Kwargs)
        (st : State) (k : nat) (r : Response) :
  (Z.of_nat k < max_retries self)%Z ->
  (forall i, (i < k)%nat ->
     exists e, retried_as self
                 (session_request env (length (sent st) + i)
                    (build_request self method path kwargs)) e) ->
  session_request env (length (sent st) + k)
    (build_request self method path kwargs) = inr r ->
  ((status_code r < 400)%Z \/ (600 <= status_code r)%Z
   \/ (400 <= status_code r <= 499)%Z) ->
  exists st',
    _make_request env self method path kwargs st
    = ((if (400 <=? status_code r)%Z && (status_code r <=? 499)%Z
        then Raise (OllamaConnectionError
                      ("Ollama API error: " ++ PyStr.of_int (status_code r)
                       ++ " - " ++ text r))
        else Return r),
       st') /\
    sent st' = (sent st
                ++ repeat (build_request self method path kwargs) (S k))%list /\
    slept st' = (slept st ++ backoff_waits k)%list.
Proof.
  intros Hlt Hall Hreq Hstatus.
  unfold _make_request, range.
  replace (Z.to_nat (max_retries self))
    with (k + S (Z.to_nat (max_retries self) - k - 1))%nat by lia.
  apply (for_attempts_decided env self
           (build_request self method path kwargs) _ k 0
           (Z.to_nat (max_retries self) - k - 1) None st).
  - simpl. lia.
  - exact Hall.
  - intros st0 attempt Hlen. rewrite <- Hlen in Hreq.
    destruct Hstatus as [H | [H | H]].
    + replace ((400 <=? status_code r)%Z && (status_code r <=? 499)%Z)
        with false by (symmetry; apply andb_false_iff; left;
                       apply Z.leb_gt; lia).
      apply (attempt_returns env self _ attempt st0 r Hreq).
      unfold is_http_error. apply andb_false_iff. left. apply Z.leb_gt. lia.
    + replace ((400 <=? status_code r)%Z && (status_code r <=? 499)%Z)
        with false by (symmetry; apply andb_false_iff; right;
                       apply Z.leb_gt; lia).
      apply (attempt_returns env self _ attempt st0 r Hreq).
      unfold is_http_error. apply andb_false_iff. right. apply Z.ltb_ge. lia.
    + replace ((400 <=? status_code r)%Z && (status_code r <=? 499)%Z)
        with true by (symmetry; apply andb_true_iff; split;
                      apply Z.leb_le; lia).
      apply (attempt_client_error env self _ attempt st0 r Hreq H).
Qed.

(** A network that refuses once, answers 503, and then 404. *)
Lemma attempt_after_retries_decides_witness :
  let net := fun (i : nat) (rq : Request) =>
               match i with
               | O => inl (RequestsConnectionError "Connection refused")
               | S O => always_status 503 "Service Unavailable" "busy" i rq
               | _ => always_status 404 "Not Found" "no such model" i rq
               end in
  let env := sample_env net (fun _ => 0%Z) in
  let self := sample_service 3 in
  exists st',
    _make_request env self "GET" "api/tags" no_kwargs init_state
    = (Raise (OllamaConnectionError
                ("Ollama API error: " ++ PyStr.of_int 404
                 ++ " - " ++ "no such model")),
       st') /\
    sent st' = (sent init_state
                ++ repeat (build_request self "GET" "api/tags" no_kwargs) 3)%list /\
    slept st' = (slept init_state ++ backoff_waits 2)%list.
Proof.
  intros net env self.
  apply (attempt_after_retries_decides env self "GET" "api/tags" no_kwargs
           init_state 2
           {| status_code := 404; reason := "Not Found";
              url_of := "http://localhost:11434/api/tags";
              text := "no such model";
              json := inl "Expecting value: line 1 column 1 (char 0)" |}).
  - reflexivity.
  - intros i Hi. destruct i as [| [| i]]; [| | lia]; eexists.
    + exact (retried_refused self "Connection refused").
    + apply (retried_server_error self
               {| status_code := 503; reason := "Service Unavailable";
                  url_of := "http://localhost:11434/api/tags";
                  text := "busy";
                  json := inl "Expecting value: line 1 column 1 (char 0)" |}).
      split; discriminate.
  - reflexivity.
  - right; right. split; discriminate.
Defined.

(** X20.  [refine_prompt] sends nothing when formatting the template
    raises, and passes that exception on.  Otherwise every request it sends
    is the same POST to [<endpoint>/api/generate]: the prompt is the
    formatted template, it is not streamed, its options are the four
    sampling parameters of the meta-prompt configuration (not the default
    temperature of the service), and its timeout is the one of the
    service. *)
Theorem refine_prompt_sends_formatted_template
        (env : Env) (self : Service) (objective : string)
        (target_model : PyVal) (st : State) :
  (forall e,
     str_format env (template (get_meta_prompt_config env)) objective = inl e ->
     refine_prompt env self objective target_model st = (Raise e, st))
  /\
  (forall fp,
     str_format env (template (get_meta_prompt_config env)) objective = inr fp ->
     exists n,
       sent (snd (refine_prompt env self objective target_model st))
       = (sent st
          ++ repeat
               {| req_method := "POST";
                  req_url := PyStr.rstrip "/"%char (endpoint self)
                             ++ "/" ++ "api/generate";
                  req_json :=
                    Some (PyDict
                            [ ("model",
                                py_or target_model (default_model env));
                              ("prompt", PyStr fp);
                              ("stream", PyBool false);
                              ("options",
                                PyDict
                                  [ ("temperature",
                                      PyFloat (mp_temperature
                                                 (parameters
                                                    (get_meta_prompt_config env))));
                                    ("top_p",
                                      PyFloat (mp_top_p
                                                 (parameters
                                                    (get_meta_prompt_config env))));
                                    ("top_k",
                                      PyInt (mp_top_k
                                               (parameters
                                                  (get_meta_prompt_config env))));
                                    ("repeat_penalty",
                                      PyFloat (mp_repeat_penalty
                                                 (parameters
                                                    (get_meta_prompt_config env)))) ]) ]);
                  req_timeout := PyInt (timeout self) |}
               n)%list).
Proof.
  split.
  - intros e Hfmt. unfold refine_prompt, format_prompt. rewrite Hfmt.
    reflexivity.
  - intros fp Hfmt. rewrite refine_prompt_sent, Hfmt.
    destruct (make_request_sent env self "POST" "api/generate"
                (refine_kwargs (py_or target_model (default_model env)) fp
                   (get_meta_prompt_config env)) st)
      as (n & _ & _ & Hframe).
    exists n.
    destruct Hframe as (_ & _ & _ & _ & _ & Hsent & _).
    exact Hsent.
Qed.

Lemma refine_prompt_sends_formatted_template_witness :
  let env := {| session_request := always_ok (PyDict [("response", PyStr "ok")]);
                datetime_now := fun _ => 0%Z;
                time_time := fun _ => 0%Q;
                isoformat := PyStr.of_int;
                str_format :=
                  fun _ _ => inl (OtherException "KeyError" "'name'");
                default_model := PyStr "llama2";
                default_temperature := PyFloat (7 # 10);
                get_meta_prompt_config :=
                  {| template := "Hello {name}: {objective}";
                     parameters :=
                       {| mp_temperature := 3 # 10; mp_top_p := 9 # 10;
                          mp_top_k := 0; mp_repeat_penalty := 11 # 10 |} |} |} in
  refine_prompt env (sample_service 3) "Review code" PyNone init_state
  = (Raise (OtherException "KeyError" "'name'"), init_state).
Proof.
  intros env.
  apply (proj1 (refine_prompt_sends_formatted_template env (sample_service 3)
                  "Review code" PyNone init_state)).
  reflexivity.
Defined.




